(** * build-tools: download, verify, extract and install pipelines

    A shallow embedding of the accelerator module [src/utils/goma.js],
    of the Xcode module, which the sources carry in the same file (it is
    called [xcode.js] below, with the line numbers of that file), and of
    the regeneration gate of the build command (called [e-build.js]
    below; it is [unnamed/part_001] in the sources), with the properties
    the specification states about them.  Its last part proves what the
    code shows beyond them: the steady states of both pipelines, their
    footprint, the login record of the accelerator, the bookkeeping of
    the Xcode bundles.

    The JavaScript runs against an ambient world: the file system, child
    processes, the console.  The embedding threads that world explicitly:
    a [World] holds the file system and the trace of effects performed so
    far, and everything the code cannot decide by itself (what a child
    process does, what a digest is) is a field of the [Host] record or,
    for the authentication code, a parameter of its functions (the clock
    readings, what the processes run through depot tools answer).

    Modelling conventions:
    - a JavaScript string is a [string]; characters are code units below
      256, which covers the hexadecimal digests, version identifiers and
      YAML keys the code inspects;
    - a path is the list of its components below the file system root,
      already normalised the way [path.resolve] leaves it;
    - only the last component of a path may be a symbolic link that the
      model follows; the directories above it are real directories. *)

From stdpp Require Import gmap strings list fin_maps.
From Stdlib Require Import ZArith Ascii.
From Stdlib.Strings Require Import Byte.
From Stdlib Require DecimalString DecimalN.

Open Scope string_scope.
Open Scope Z_scope.

(** ** JavaScript strings *)

Module JS.

(** [String.prototype.startsWith]. *)
Definition startsWith (s p : string) : bool := String.prefix p s.

(** [String.prototype.endsWith]. *)
Definition endsWith (s suffix : string) : bool :=
  let n := String.length s in
  let k := String.length suffix in
  (k <=? n)%nat && String.eqb (String.substring (n - k) k s) suffix.

(** White space and line terminators removed by [trim], restricted to
    code units below 256: TAB, LF, VT, FF, CR, SPACE and NBSP. *)
Definition isWhiteSpace (c : ascii) : bool :=
  let n := nat_of_ascii c in
  ((9 <=? n) && (n <=? 13) || (n =? 32) || (n =? 160))%nat.

Fixpoint trimStart (s : string) : string :=
  match s with
  | String c s' => if isWhiteSpace c then trimStart s' else s
  | EmptyString => EmptyString
  end.

(** [trimEnd s] drops the trailing white space: a character is kept
    when something that is not white space follows or when it is not
    white space itself. *)
Fixpoint trimEnd (s : string) : string :=
  match s with
  | String c s' =>
      match trimEnd s' with
      | EmptyString => if isWhiteSpace c then EmptyString else String c EmptyString
      | t => String c t
      end
  | EmptyString => EmptyString
  end.

(** [String.prototype.trim]. *)
Definition trim (s : string) : string := trimEnd (trimStart s).

(** [Array.prototype.join]. *)
Definition join (sep : string) (l : list string) : string := String.concat sep l.

(** [s.split(c)] for a one-character separator [c]. *)
Fixpoint split (c : ascii) (s : string) : list string :=
  match s with
  | EmptyString => [EmptyString]
  | String a s' =>
      match split c s' with
      | hd :: tl => if Ascii.eqb a c then EmptyString :: hd :: tl else String a hd :: tl
      | [] => [String a EmptyString]
      end
  end.



(** A value used as a condition: [undefined] and the empty string are
    falsy, every other string is truthy. *)
Definition truthy (v : option string) : bool :=
  match v with
  | Some EmptyString | None => false
  | Some _ => true
  end.

(** [Buffer.prototype.toString('hex')], the encoding behind
    [hash.digest('hex')]. *)
Definition hexDigit (n : N) : ascii :=
  match n with
  | 0%N => "0" | 1%N => "1" | 2%N => "2" | 3%N => "3" | 4%N => "4"
  | 5%N => "5" | 6%N => "6" | 7%N => "7" | 8%N => "8" | 9%N => "9"
  | 10%N => "a" | 11%N => "b" | 12%N => "c" | 13%N => "d" | 14%N => "e"
  | _ => "f"
  end%char.

Fixpoint hex (bs : list byte) : string :=
  match bs with
  | [] => EmptyString
  | b :: bs' =>
      let n := Byte.to_N b in
      String (hexDigit (n / 16)) (String (hexDigit (n mod 16)) (hex bs'))
  end.

End JS.

(** ** Paths and the file system *)

Definition path := list string.

(** [path.resolve(p, '..')] and [path.dirname] on a normalised path. *)
Definition parent (p : path) : path := removelast p.

(** How a path is printed when it is handed to a child process. *)
Definition pathStr (p : path) : string := "/" +:+ JS.join "/" p.

Inductive node :=
| File (content : string)
| Dir
| Link (target : path).

Abbreviation FS := (gmap path node).

(** What [stat] sees at [p]: symbolic links are followed, at most
    [fuel] of them in a row. *)
Fixpoint follow (fuel : nat) (m : FS) (p : path) : option node :=
  match fuel with
  | O => None
  | S n =>
      match m !! p with
      | Some (Link t) => follow n m t
      | other => other
      end
  end.

(** The kernel gives up after 40 links. *)
Definition stat (m : FS) (p : path) : option node := follow 41 m p.

Definition isDir (m : FS) (p : path) : bool :=
  match stat m p with Some Dir => true | _ => false end.

(** Everything at or below [p] goes: what [rimraf] does.  A symbolic
    link at [p] is removed itself, its target is not visited. *)
Definition removeTree (p : path) (m : FS) : FS :=
  filter (λ kv, ¬ p `prefix_of` kv.1) m.

(** The entries at or below [a], re-rooted at [b]. *)
Definition rebase (a b : path) (m : FS) : FS :=
  list_to_map
    (List.map (λ kv : path * node, ((b ++ drop (length a) kv.1)%list, kv.2))
              (map_to_list (filter (λ kv : path * node, a `prefix_of` kv.1) m))).

Definition moveTree (a b : path) (m : FS) : FS :=
  rebase a b m ∪ removeTree b (removeTree a m).

(** Does the directory [p] hold anything? *)
Definition hasChildren (m : FS) (p : path) : bool :=
  bool_decide (filter (λ kv : path * node, p `prefix_of` kv.1 ∧ kv.1 ≠ p) m ≠ ∅).

(** ** The world: file system and trace of effects *)

Inductive stream := Log | Warn | Err.

(** One entry per effect the program performs, in program order.  A
    child process is recorded with the file system it started in. *)
Inductive event :=
| Console (s : stream) (args : list string)
| Spawned (cmd : string) (args : list string) (cwd : option path) (pre : FS)
| Unzipped (archive dest : path) (pre : FS)
| DepotExec (cmd : string) (args : list string) (cwd : option path) (pre : FS)
| Wrote (p : path) (content : string)
| MadeDir (p : path)
| Removed (p : path)
| Unlinked (p : path)
| Renamed (a b : path)
| Symlinked (target p : path)
| EnsuredDir (p : path)
| DepotEnsured (pre : FS).

Record World := mkWorld { fs : FS; out : list event }.

(** What [child_process.spawnSync] returns: [status] is [null] when the
    child was killed or never started, and then [stdout] may be [null]. *)
Record SpawnResult := mkSpawn { status : option Z; stdout : option string }.

(** The configuration object of [evm-config], as far as the code reads
    it: [config.gomaSource], [config.goma], [config.gen.args],
    [config.gen.out] and [config.root]. *)
Record Config := mkConfig {
  gomaSource : option string;
  goma : string;
  gen_args : list string;
  gen_out : string;
  root : path
}.

(** Everything outside the program.  Child processes are functions of
    the file system they start in. *)
Record Host := mkHost {
  (** [process.platform], [process.arch], [getIsArm()], [process.execPath] *)
  platform : string;
  arch : string;
  isArm : bool;
  execPath : string;
  (** [path.resolve(__dirname, '..', '..')] as seen from [src/utils] *)
  toolsRoot : path;
  (** [process.env.ELECTRON_FORGE_GOMA_REDOWNLOAD] *)
  env_GOMA_REDOWNLOAD : option string;
  (** the SHA-256 digest of a buffer, as [crypto.createHash('SHA256')]
      computes it *)
  sha256 : string → list byte;
  (** [child_process.spawnSync(cmd, args, {cwd})] *)
  spawnSync : string → list string → option path → FS → SpawnResult * FS;
  (** [child_process.execSync(cmdline)]: the output, or [None] when the
      command fails and [execSync] throws *)
  execSync : string → FS → option string;
  (** [unzipSync(archive, dest)] of cross-zip: [Some err] when it throws *)
  unzipSync : path → path → FS → option string * FS;
  (** [depot.execFileSync(config, cmd, args, {cwd})]: [Some err] when it
      throws *)
  depotExecFileSync : string → list string → option path → FS → option string * FS;
  (** [depot.path] and [depot.ensure()] *)
  depotPath : path;
  depotEnsure : FS → option string * FS;
  (** [evmConfig.current()], [None] when it throws, and
      [evmConfig.outDir(config)] *)
  evmCurrent : option Config;
  evmOutDir : Config → path;
  (** [ensureDir(dir)] of [./paths]: [Some err] when it throws *)
  ensureDir : path → FS → option string * FS;
  (** the colour helpers of [./logging] *)
  color_cmd : string → string;
  color_path : string → string;
  color_err : string;
  color_warn : string
}.

(** ** Computations

    A computation ends with a value, with the process exiting
    ([process.exit]) or with an uncaught exception. *)

Inductive outcome (A : Type) :=
| Ok (a : A)
| Exit (code : Z)
| Throw (err : string).
Arguments Ok {A} a.
Arguments Exit {A} code.
Arguments Throw {A} err.

Definition M (A : Type) : Type := World → outcome A * World.

Definition ret {A} (a : A) : M A := λ w, (Ok a, w).

Definition bind {A B} (m : M A) (k : A → M B) : M B :=
  λ w, match m w with
       | (Ok a, w') => k a w'
       | (Exit c, w') => (Exit c, w')
       | (Throw e, w') => (Throw e, w')
       end.

Notation "'do' x <- m ; k" := (bind m (λ x, k))
  (at level 10, x name, m at level 100, k at level 200, only parsing).
Notation "'run' m ; k" := (bind m (λ _, k))
  (at level 10, m at level 100, k at level 200, only parsing).

Definition emit (e : event) : M unit :=
  λ w, (Ok tt, mkWorld (fs w) (out w ++ [e])%list).

Definition exit {A} (code : Z) : M A := λ w, (Exit code, w).
Definition throw {A} (err : string) : M A := λ w, (Throw err, w).

(** [process.exit(code)] *)
Definition process_exit {A} (code : Z) : M A := exit code.

Definition console_log (args : list string) : M unit := emit (Console Log args).
Definition console_warn (args : list string) : M unit := emit (Console Warn args).
Definition console_error (args : list string) : M unit := emit (Console Err args).

(** Modelled from the spec: [fatal] of [./logging], which is not among
    the sources.  The specification calls it the fatal error sink: one
    coloured error line, then the process terminates with the given exit
    code, 1 when none is given. *)
Definition fatal {A} (h : Host) (msg : string) (code : Z) : M A :=
  run console_error [color_err h +:+ " " +:+ msg]; process_exit code.

(** ** The [fs] module and [rimraf] *)

Module Fs.

(** [fs.existsSync]: follows symbolic links, never throws. *)
Definition existsSync (p : path) : M bool :=
  λ w, (Ok (bool_decide (is_Some (stat (fs w) p))), w).

(** [fs.readFileSync(p, 'utf8')] *)
Definition readFileSync (p : path) : M string :=
  λ w, match stat (fs w) p with
       | Some (File s) => (Ok s, w)
       | Some _ => (Throw "EISDIR", w)
       | None => (Throw "ENOENT", w)
       end.

(** Where a write through [p] lands: a symbolic link at [p] is
    followed once; deeper chains are not written through. *)
Definition landing (m : FS) (p : path) : path :=
  match m !! p with
  | Some (Link t) => t
  | _ => p
  end.

(** [fs.writeFileSync(p, s)]: creates or truncates the file; the
    directory holding it must exist. *)
Definition writeFileSync (p : path) (s : string) : M unit :=
  λ w, let q := landing (fs w) p in
       match fs w !! q with
       | Some Dir => (Throw "EISDIR", w)
       | Some (Link _) => (Throw "ELOOP", w)
       | _ =>
           if isDir (fs w) (parent q)
           then (Ok tt, mkWorld (<[q := File s]> (fs w)) (out w ++ [Wrote p s])%list)
           else (Throw "ENOENT", w)
       end.

(** [fs.mkdirSync(p)], not recursive. *)
Definition mkdirSync (p : path) : M unit :=
  λ w, match fs w !! p with
       | Some _ => (Throw "EEXIST", w)
       | None =>
           if isDir (fs w) (parent p)
           then (Ok tt, mkWorld (<[p := Dir]> (fs w)) (out w ++ [MadeDir p])%list)
           else (Throw "ENOENT", w)
       end.

(** [fs.unlinkSync(p)]: removes a file or a symbolic link itself. *)
Definition unlinkSync (p : path) : M unit :=
  λ w, match fs w !! p with
       | Some Dir => (Throw "EPERM", w)
       | Some _ => (Ok tt, mkWorld (delete p (fs w)) (out w ++ [Unlinked p])%list)
       | None => (Throw "ENOENT", w)
       end.

(** [fs.renameSync(a, b)]: moves the entry at [a], a symbolic link
    itself and a directory with all it holds.  An entry at [b] is
    replaced when the kinds agree and a directory there is empty. *)
Definition renameSync (a b : path) : M unit :=
  λ w, match fs w !! a with
       | None => (Throw "ENOENT", w)
       | Some src =>
           let go := (Ok tt, mkWorld (moveTree a b (fs w)) (out w ++ [Renamed a b])%list) in
           match src, fs w !! b with
           | _, None => go
           | Dir, Some Dir => if hasChildren (fs w) b then (Throw "ENOTEMPTY", w) else go
           | Dir, Some _ => (Throw "ENOTDIR", w)
           | _, Some Dir => (Throw "EISDIR", w)
           | _, Some _ => go
           end
       end.

(** [fs.symlinkSync(target, p)] *)
Definition symlinkSync (target p : path) : M unit :=
  λ w, match fs w !! p with
       | Some _ => (Throw "EEXIST", w)
       | None => (Ok tt, mkWorld (<[p := Link target]> (fs w)) (out w ++ [Symlinked target p])%list)
       end.

(** [fs.statSync(p)]: the entry [p] resolves to, links followed. *)
Definition statSync (p : path) : M node :=
  λ w, match stat (fs w) p with
       | Some n => (Ok n, w)
       | None => (Throw "ENOENT", w)
       end.

(** [stats.isSymbolicLink()] *)
Definition isSymbolicLink (n : node) : bool :=
  match n with Link _ => true | _ => false end.

End Fs.

(** [rimraf.sync(p)] *)
Definition rimraf_sync (p : path) : M unit :=
  λ w, (Ok tt, mkWorld (removeTree p (fs w)) (out w ++ [Removed p])%list).

(** ** Child processes *)

Definition spawn (h : Host) (cmd : string) (args : list string) (cwd : option path)
  : M SpawnResult :=
  λ w, let '(r, m) := spawnSync h cmd args cwd (fs w) in
       (Ok r, mkWorld m (out w ++ [Spawned cmd args cwd (fs w)])%list).

Definition depot_execFileSync (h : Host) (cmd : string) (args : list string)
    (cwd : option path) : M unit :=
  λ w, let '(r, m) := depotExecFileSync h cmd args cwd (fs w) in
       let w' := mkWorld m (out w ++ [DepotExec cmd args cwd (fs w)])%list in
       match r with
       | None => (Ok tt, w')
       | Some err => (Throw err, w')
       end.

Definition unzip_sync (h : Host) (archive dest : path) : M unit :=
  λ w, let '(r, m) := unzipSync h archive dest (fs w) in
       let w' := mkWorld m (out w ++ [Unzipped archive dest (fs w)])%list in
       match r with
       | None => (Ok tt, w')
       | Some err => (Throw err, w')
       end.

Definition ensure_dir (h : Host) (p : path) : M unit :=
  λ w, let '(r, m) := ensureDir h p (fs w) in
       let w' := mkWorld m (out w ++ [EnsuredDir p])%list in
       match r with
       | None => (Ok tt, w')
       | Some err => (Throw err, w')
       end.

Definition depot_ensure (h : Host) : M unit :=
  λ w, let '(r, m) := depotEnsure h (fs w) in
       let w' := mkWorld m (out w ++ [DepotEnsured (fs w)])%list in
       match r with
       | None => (Ok tt, w')
       | Some err => (Throw err, w')
       end.

(** [child_process.execSync(cmdline)]: the output of the command; throws
    when the command fails. *)
Definition exec_sync (h : Host) (cmdline : string) : M string :=
  λ w, let w' := mkWorld (fs w) (out w ++ [Spawned cmdline [] None (fs w)])%list in
       match execSync h cmdline (fs w) with
       | Some o => (Ok o, w')
       | None => (Throw "Command failed", w')
       end.

(** [status !== 0] *)
Definition nonzero (st : option Z) : bool := negb (bool_decide (st = Some 0)).

Definition when (c : bool) (m : M unit) : M unit := if c then m else ret tt.

(** The characters that cannot be typed inside a string literal. *)
Definition dq : string := String "034"%char EmptyString.
Definition nl : string := String "010"%char EmptyString.
Definition cr : string := String "013"%char EmptyString.

(** ** [src/utils/goma.js] *)

Module Goma.

Definition GOMA_PLATFORM_SHAS : gmap string string :=
  list_to_map [
    ("darwin", "adf8a01f08dce16f335389d0e427867a4282a9fa03d2e436f2f96527ab606f76");
    ("darwin-arm64", "81347e9557f2dc805317f59ac23b56d97570a21be0f197c458615f4c78052db8");
    ("linux", "f94f784f58b414f3556da9f03baf911588ce45e9a6ed35e26fb5ee21a632863e");
    ("linux-arm64", "d04746105c7fd2ffcbb8e398481d5235708380b512a4995626993965ca9dc5dc");
    ("win32", "dfa5b12dbdeedb8c0c411a0e5521495ce8ef9907abdef99748ef4685e1a77f3e") ].

Definition MSFT_GOMA_PLATFORM_SHAS : gmap string string :=
  list_to_map [
    ("darwin", "dac2881cf5f7565fa432f32bc4635a9752e56984966b5fe43f7b37892b4d4553");
    ("darwin-arm64", "d8006830527a37cce19ea03a37fd43db2e0a7c65e90e8d1eac7874ea08e16d45");
    ("linux", "ee0199542ced43908f1d60c67872ec1d4925d0d97200ff214eaf6cbf18f2a92b");
    ("linux-arm64", "486bd5da5ac16919cb6a7e33c3c29aa35ca345364fb6e2f2438348e6a6d07222");
    ("win32", "a54dd1f574f92fa8a6bc81a939d9415fa2dc8f36cea9ea64eb43736dd3ecac4b") ].

(** The object literal of lines 68-74. *)
Definition filenames : gmap string string :=
  list_to_map [
    ("darwin", "goma-mac.tgz");
    ("darwin-arm64", "goma-mac-arm64.tgz");
    ("linux", "goma-linux.tgz");
    ("linux-arm64", "goma-linux-arm64.tgz");
    ("win32", "goma-win.zip") ].

Definition gomaBaseURL : string := "https://dev-cdn.electronjs.org/goma-clients".

Section WithHost.

Variable h : Host.

Definition thirdParty : path := (toolsRoot h ++ ["third_party"])%list.
Definition gomaDir : path := (toolsRoot h ++ ["third_party"; "goma"])%list.
Definition gomaGnFile : path := (toolsRoot h ++ ["third_party"; "goma.gn"])%list.
Definition gomaShaFile : path := (toolsRoot h ++ ["third_party"; "goma"; ".sha"])%list.
Definition downloadJs : path := (toolsRoot h ++ ["src"; "download.js"])%list.

(** Lines 18-25. *)
Definition gomaPlatform : string :=
  let p0 := platform h in
  let p1 := if String.eqb p0 "darwin" && isArm h then "darwin-arm64" else p0 in
  if String.eqb p1 "linux" && String.eqb (arch h) "arm64" then "linux-arm64" else p1.

Definition isSupportedPlatform : bool :=
  bool_decide (is_Some (GOMA_PLATFORM_SHAS !! gomaPlatform)).

(** Lines 57-60: the digest the installed client must have. *)
Definition expectedSha (config : option Config) : option string :=
  match config with
  | Some c =>
      if bool_decide (gomaSource c = Some "msft")
      then MSFT_GOMA_PLATFORM_SHAS !! gomaPlatform
      else GOMA_PLATFORM_SHAS !! gomaPlatform
  | None => GOMA_PLATFORM_SHAS !! gomaPlatform
  end.

(** Lines 61-65, the condition under which nothing is downloaded:
    the marker file exists, holds exactly [sha], and no re-download
    is forced. *)
Definition shaFileIsCurrent (sha : string) : M bool :=
  do e <- Fs.existsSync gomaShaFile;
  if e then
    do c <- Fs.readFileSync gomaShaFile;
    ret (String.eqb c sha && negb (JS.truthy (env_GOMA_REDOWNLOAD h)))
  else ret false.

(** [path.resolve(gomaDir, '..', filename)] *)
Definition tmpDownload (filename : string) : path := (thirdParty ++ [filename])%list.

(** Lines 88-113: download the archive and check its digest. *)
Definition fetch (sha filename : string) : M unit :=
  let downloadURL := gomaBaseURL +:+ "/" +:+ sha +:+ "/" +:+ filename in
  run console_log ["Downloading " +:+ color_cmd h downloadURL +:+ " into "
                     +:+ color_path h (pathStr (tmpDownload filename))];
  do r <- spawn h (execPath h)
            [pathStr downloadJs; downloadURL; pathStr (tmpDownload filename)] None;
  run when (nonzero (status r))
        (run rimraf_sync (tmpDownload filename);
         fatal h "Failure while downloading goma" 1);
  do data <- Fs.readFileSync (tmpDownload filename);
  let hash := JS.hex (sha256 h data) in
  when (negb (String.eqb hash sha))
    (run console_error [color_err h +:+ " Got hash for downloaded file " +:+ color_cmd h hash
                          +:+ " which did not match " +:+ color_cmd h sha +:+ ". Halting now"];
     run rimraf_sync (tmpDownload filename);
     process_exit 1).

(** Lines 115-126: unpack the archive next to itself, then delete it. *)
Definition extract (filename : string) : M unit :=
  let targetDir := parent (tmpDownload filename) in
  run (if JS.endsWith filename ".tgz" then
         do result <- spawn h "tar" ["zxvf"; filename] (Some targetDir);
         when (nonzero (status result)) (fatal h "Failed to extract goma" 1)
       else unzip_sync h (tmpDownload filename) targetDir);
  rimraf_sync (tmpDownload filename).

Definition gomaGnContents : string :=
  "goma_dir = " +:+ dq +:+ pathStr gomaDir +:+ dq +:+ nl +:+ "use_goma = true".

(** Lines 45-129.  The result is [undefined] on an unsupported
    platform and the digest otherwise.  Both digest tables and the
    file name table have the supported platforms as their keys
    ([tables_defined] below), so the lookups after the platform check
    always find an entry. *)
Definition downloadAndPrepareGoma (config : option Config) : M (option string) :=
  if negb isSupportedPlatform then ret None else
  do e <- Fs.existsSync (parent gomaDir);
  run when (negb e) (Fs.mkdirSync (parent gomaDir));
  do e <- Fs.existsSync gomaGnFile;
  do same <- (if e then do c <- Fs.readFileSync gomaGnFile; ret (String.eqb c gomaGnContents)
              else ret false);
  run when (negb same)
        (run console_log ["Writing new goma.gn file " +:+ color_path h (pathStr gomaGnFile)];
         Fs.writeFileSync gomaGnFile gomaGnContents);
  match expectedSha config, filenames !! gomaPlatform with
  | Some sha, Some filename =>
      do current <- shaFileIsCurrent sha;
      if current then ret (Some sha) else
      do e <- Fs.existsSync (gomaDir ++ ["goma_ctl.py"])%list;
      run when e (depot_execFileSync h "python3" ["goma_ctl.py"; "stop"] (Some gomaDir));
      (* Clean Up *)
      run rimraf_sync gomaDir;
      run rimraf_sync (tmpDownload filename);
      run fetch sha filename;
      run extract filename;
      run Fs.writeFileSync gomaShaFile sha;
      ret (Some sha)
  | _, _ => ret None
  end.

End WithHost.

End Goma.

(** ** Regular expressions

    The fragment of JavaScript regular expressions the code uses: a
    sequence of single characters, character classes, optional
    characters, greedy and lazy repetitions of a class, and one capture
    group.  Matching backtracks in the order of the language standard:
    a greedy repetition tries the longest run first, a lazy one the
    shortest. *)

Module Regex.

Inductive cls :=
| Lit (c : ascii)     (* the character itself *)
| Digit               (* \d *)
| Dot                 (* . : anything but a line terminator *)
| Any.                (* [\S\s] *)

Definition accepts (k : cls) (c : ascii) : bool :=
  match k with
  | Lit a => Ascii.eqb a c
  | Digit => let n := nat_of_ascii c in ((48 <=? n) && (n <=? 57))%nat
  | Dot => let n := nat_of_ascii c in negb ((n =? 10) || (n =? 13))%nat
  | Any => true
  end.

Inductive atom :=
| One (k : cls)       (* k *)
| Opt (k : cls)       (* k? *)
| Many (k : cls)      (* k+ *)
| Few (k : cls)       (* k+? *)
| Open                (* ( *)
| Close.              (* ) *)

Fixpoint lit (s : string) : list atom :=
  match s with
  | EmptyString => []
  | String c s' => One (Lit c) :: lit s'
  end.

(** [matchHere r s opened cap] matches [r] at the start of [s];
    [opened] is the input as it was where the group opened, [cap] what
    the group captured.  The result is the capture of the first
    successful alternative. *)
Fixpoint matchHere (r : list atom) (s opened cap : string) {struct r} : option string :=
  match r with
  | [] => Some cap
  | One k :: r' =>
      match s with
      | String c s' => if accepts k c then matchHere r' s' opened cap else None
      | EmptyString => None
      end
  | Opt k :: r' =>
      match s with
      | String c s' =>
          if accepts k c then
            match matchHere r' s' opened cap with
            | Some x => Some x
            | None => matchHere r' s opened cap
            end
          else matchHere r' s opened cap
      | EmptyString => matchHere r' s opened cap
      end
  | Many k :: r' =>
      (fix more (s : string) : option string :=
         match s with
         | String c s' =>
             if accepts k c then
               match more s' with
               | Some x => Some x
               | None => matchHere r' s' opened cap
               end
             else None
         | EmptyString => None
         end) s
  | Few k :: r' =>
      (fix more (s : string) : option string :=
         match s with
         | String c s' =>
             if accepts k c then
               match matchHere r' s' opened cap with
               | Some x => Some x
               | None => more s'
               end
             else None
         | EmptyString => None
         end) s
  | Open :: r' => matchHere r' s s cap
  | Close :: r' =>
      matchHere r' s opened
        (String.substring 0 (String.length opened - String.length s) opened)
  end.

(** [re.exec(s)[1]] for a regular expression with [lastIndex] 0: the
    capture of the leftmost match, [None] when nothing matches. *)
Fixpoint exec (r : list atom) (s : string) : option string :=
  match matchHere r s s EmptyString with
  | Some x => Some x
  | None =>
      match s with
      | String _ s' => exec r s'
      | EmptyString => None
      end
  end.

End Regex.

(** ** The [semver] package

    The three functions the code calls, on version identifiers of the
    form [major.minor.patch] with an optional [-prerelease] tag. *)

Module Semver.

Record t := mk { major : N; minor : N; patch : N; prerelease : list string }.

Definition isDigit (c : ascii) : bool :=
  let n := nat_of_ascii c in ((48 <=? n) && (n <=? 57))%nat.

(** The leading run of digits of [s] and what follows it. *)
Fixpoint digits (s : string) : string * string :=
  match s with
  | String c s' =>
      if isDigit c then let '(d, rest) := digits s' in (String c d, rest)
      else (EmptyString, s)
  | EmptyString => (EmptyString, EmptyString)
  end.

Fixpoint value (acc : N) (d : string) : N :=
  match d with
  | String c d' => value (acc * 10 + (N_of_ascii c - 48))%N d'
  | EmptyString => acc
  end.

(** A numeric identifier: digits without a leading zero. *)
Definition number (s : string) : option (N * string) :=
  match digits s with
  | (EmptyString, _) => None
  | (String "0" (String _ _), _) => None
  | (d, rest) => Some (value 0 d, rest)
  end.

Definition dotted (s : string) : option string :=
  match s with
  | String "." s' => Some s'
  | _ => None
  end.

(** [new SemVer(s)]: [major.minor.patch], then nothing or [-] and the
    dot separated prerelease identifiers. *)
Definition parse (s : string) : option t :=
  '(ma, s1) ← number s;
  s2 ← dotted s1;
  '(mi, s3) ← number s2;
  s4 ← dotted s3;
  '(pa, s5) ← number s4;
  match s5 with
  | EmptyString => Some (mk ma mi pa [])
  | String "-" (String c pre) => Some (mk ma mi pa (JS.split "." (String c pre)))
  | _ => None
  end.

(** [semver.coerce(s)] on an identifier that starts with its numeric
    part: the first three dot separated numbers, 0 for a missing one,
    everything after them dropped. *)
Definition coerce (s : string) : option t :=
  '(ma, s1) ← number s;
  match dotted s1 ≫= number with
  | None => Some (mk ma 0 0 [])
  | Some (mi, s3) =>
      match dotted s3 ≫= number with
      | None => Some (mk ma mi 0 [])
      | Some (pa, _) => Some (mk ma mi pa [])
      end
  end.

Definition showN (n : N) : string := DecimalString.NilZero.string_of_uint (N.to_uint n).

(** [v.version] *)
Definition format (v : t) : string :=
  let main := showN (major v) +:+ "." +:+ showN (minor v) +:+ "." +:+ showN (patch v) in
  match prerelease v with
  | [] => main
  | pre => main +:+ "-" +:+ JS.join "." pre
  end.

(** [semver.valid(v)] on what [coerce] returned. *)
Definition valid (v : option t) : option string := format <$> v.

Definition allDigits (s : string) : bool :=
  match digits s with
  | (String _ _, EmptyString) => true
  | _ => false
  end.

(** [compareIdentifiers]: numbers by value and below everything else,
    the rest in code unit order. *)
Definition compareIdentifiers (a b : string) : comparison :=
  match allDigits a, allDigits b with
  | true, true => (value 0 a ?= value 0 b)%N
  | true, false => Lt
  | false, true => Gt
  | false, false => String.compare a b
  end.

Fixpoint comparePreList (a b : list string) : comparison :=
  match a, b with
  | [], [] => Eq
  | [], _ :: _ => Lt
  | _ :: _, [] => Gt
  | x :: a', y :: b' =>
      match compareIdentifiers x y with
      | Eq => comparePreList a' b'
      | c => c
      end
  end.

(** [comparePre]: a version with a prerelease tag is below the same
    version without one. *)
Definition comparePre (a b : t) : comparison :=
  match prerelease a, prerelease b with
  | [], [] => Eq
  | _ :: _, [] => Lt
  | [], _ :: _ => Gt
  | pa, pb => comparePreList pa pb
  end.

Definition compareMain (a b : t) : comparison :=
  match (major a ?= major b)%N with
  | Eq => match (minor a ?= minor b)%N with
          | Eq => (patch a ?= patch b)%N
          | c => c
          end
  | c => c
  end.

(** [a.compare(b)] *)
Definition compare (a b : t) : comparison :=
  match compareMain a b with
  | Eq => comparePre a b
  | c => c
  end.

(** [semver.rcompare(a, b)] on version strings: [compare(b, a)];
    [None] where [semver] throws on a string that is no version. *)
Definition rcompare (a b : string) : option comparison :=
  va ← parse a; vb ← parse b; Some (compare vb va).

End Semver.

(** [Array.prototype.sort(cmp)]: the sort is stable, so it is an
    insertion sort as far as the result goes.  [None] when the
    comparison function throws. *)
Module SortBy.
Section Sort.
Context {A : Type} (cmp : A → A → option comparison).

Fixpoint insert (x : A) (l : list A) : option (list A) :=
  match l with
  | [] => Some [x]
  | y :: l' =>
      c ← cmp x y;
      match c with
      | Gt => (λ r, y :: r) <$> insert x l'
      | _ => Some (x :: y :: l')
      end
  end.

Fixpoint sort (l : list A) : option (list A) :=
  match l with
  | [] => Some []
  | x :: l' => sort l' ≫= insert x
  end.
End Sort.
End SortBy.

(** ** [src/utils/xcode.js] *)

Module Xcode.

Record entry := mkEntry { fileName : string; md5 : string }.

(** The keys in the order of the object literal, which is the order
    [Object.keys] lists them in. *)
Definition XcodeVersions : list (string * entry) := [
  ("9.4.1", mkEntry "Xcode-9.4.1.zip" "84be26baae0ce613e64306e0c39162ae");
  ("11.1.0", mkEntry "Xcode-11.1.zip" "f24c258035ed1513afc96eaa9a2500c0");
  ("10.3.0", mkEntry "Xcode-10.3.0.zip" "df587e65d9243fc87b22db617e23c376");
  ("11.5.0", mkEntry "Xcode-11.5.zip" "2665cc451d86e58bac68dcced0a22945");
  ("12.0.0-UA", mkEntry "Xcode-12.0.0-UA.zip" "28c3f8a906be53361260b01fa5792baa");
  ("12.2.0", mkEntry "Xcode-12.2.0.zip" "d1bfc9b5bc829ec81b999b78c5795508");
  ("12.4.0", mkEntry "Xcode-12.4.0.zip" "20828f7208e67f99928cc88aaafca00c");
  ("13.2.1", mkEntry "Xcode-13.2.1.zip" "cb1193a5a23eeeb4e9c5fd87557be8ce");
  ("13.3.0", mkEntry "Xcode-13.3.0.zip" "b216a27212fdd0be922d83687aad22bf");
  ("14.1.0", mkEntry "Xcode-14.1.0.zip" "3dc1a4d8bc6abd5448be4f2d96a04f62");
  ("14.3.0", mkEntry "Xcode-14.3.0.zip" "4bc9043b275625568f81d9727ad6aef8") ].

(** [XcodeVersions[v]] *)
Definition known (v : string) : option entry :=
  snd <$> List.find (λ kv : string * entry, String.eqb kv.1 v) XcodeVersions.

Definition XcodeBaseURL : string := "https://dev-cdn.electronjs.org/xcode/".

(** Lines 307-313.  [None] stands for the two ways the expression can
    fail to give a version: [semver] throwing on an entry that is no
    version, and an empty table. *)
Definition fallbackXcode : option string :=
  vs ← mapM (λ v, Semver.valid (Semver.coerce v)) (XcodeVersions.*1);
  sorted ← SortBy.sort Semver.rcompare vs;
  head sorted.

(** [(\d+.\d+.\d+?)] *)
Definition versionGroup : list Regex.atom :=
  [Regex.Open; Regex.Many Regex.Digit; Regex.One Regex.Dot; Regex.Many Regex.Digit;
   Regex.One Regex.Dot; Regex.Few Regex.Digit; Regex.Close].

(** [/xcode: "?(\d+.\d+.\d+?)"?/] *)
Definition legacyPattern : list Regex.atom :=
  (Regex.lit "xcode: " ++ [Regex.Opt (Regex.Lit "034")] ++ versionGroup
     ++ [Regex.Opt (Regex.Lit "034")])%list.

(** [/description: "xcode version"\n[\S\s]+default: (\d+.\d+.\d+?)\n/gm] *)
Definition modernPattern : list Regex.atom :=
  (Regex.lit ("description: " +:+ dq +:+ "xcode version" +:+ dq +:+ nl)
     ++ [Regex.Many Regex.Any] ++ Regex.lit "default: " ++ versionGroup
     ++ [Regex.One (Regex.Lit "010")])%list.

(** Lines 329-337. *)
Definition extractXcodeVersion (config : string) : option string :=
  match Regex.exec legacyPattern config with
  | Some v => Some v
  | None => Regex.exec modernPattern config
  end.

Section WithHost.

Variable h : Host.

Definition XcodeDir : path := (toolsRoot h ++ ["third_party"; "Xcode"])%list.
Definition XcodePath : path := (XcodeDir ++ ["Xcode.app"])%list.
Definition XcodeZip : path := (XcodeDir ++ ["Xcode.zip"])%list.
Definition downloadJs : path := (toolsRoot h ++ ["src"; "download.js"])%list.

(** [path.resolve(XcodeDir, `Xcode-${v}.app`)]; a version holds no
    path separator. *)
Definition versioned (v : string) : path := (XcodeDir ++ ["Xcode-" +:+ v +:+ ".app"])%list.

(** Lines 315-327. *)
Definition getXcodeVersion : M string :=
  do result <- spawn h "defaults"
                 ["read"; pathStr (XcodePath ++ ["Contents"; "Info.plist"])%list;
                  "CFBundleShortVersionString"] None;
  if bool_decide (status result = Some 0) then
    match stdout result with
    | Some o =>
        let v := JS.trim o in
        if (List.length (JS.split "." v) =? 2)%nat then ret (v +:+ ".0") else ret v
    | None => throw "TypeError"
    end
  else ret "unknown".

(** [fs.existsSync(p) && extractXcodeVersion(fs.readFileSync(p, 'utf8'))];
    [false] and [null] are both [None]. *)
Definition probe (p : path) : M (option string) :=
  do e <- Fs.existsSync p;
  if e then do c <- Fs.readFileSync p; ret (extractXcodeVersion c)
  else ret None.

Definition circleci (root : path) (rel : list string) : path :=
  (root ++ ["src"; "electron"; ".circleci"] ++ rel)%list.

(** Lines 342-361: the three candidate files in priority order. *)
Definition scan (root : path) : M (option string) :=
  (* First check CI build_config.yml *)
  do version <- probe (circleci root ["build_config.yml"]);
  (* Second check CI config.yml *)
  do version <- (if negb (JS.truthy version) then probe (circleci root ["config.yml"])
                 else ret version);
  (* Third check base.yml *)
  do version <- (if negb (JS.truthy version) then probe (circleci root ["config"; "base.yml"])
                 else ret version);
  ret version.

(** [console.warn(color.warn, msg, fallbackXcode()); return fallbackXcode()] *)
Definition warnFallback (msg : string) : M string :=
  match fallbackXcode with
  | Some v => run console_warn [color_warn h; msg; v]; ret v
  | None => throw "TypeError"
  end.

(** Lines 339-397. *)
Definition expectedXcodeVersion : M string :=
  match evmCurrent h with
  | None => throw "evmConfig.current"
  | Some cfg =>
      do version <- scan (root cfg);
      (* macOS Ventura only supports Xcode 14 and newer. *)
      do osv <- exec_sync h "sw_vers -productVersion";
      let isVentura := JS.startsWith osv "13" in
      match version with
      | Some (String c s as v) =>
          if isVentura && negb (JS.startsWith v "14") then
            warnFallback ("Xcode " +:+ v
              +:+ " is not supported on macOS Ventura, falling back to default of")
          else if negb (bool_decide (is_Some (known v))) then
            warnFallback ("automatically detected an unknown version of Xcode "
              +:+ color_path h v +:+ ", falling back to default of")
          else ret v
      | _ =>
          warnFallback
            "failed to automatically identify the required version of Xcode, falling back to default of"
      end
  end.

(** Lines 399-409. *)
Definition fixBadVersioned103 : M unit :=
  let bad := (XcodeDir ++ ["Xcode-10.3.app"])%list in
  let good := (XcodeDir ++ ["Xcode-10.3.0.app"])%list in
  do eb <- Fs.existsSync bad;
  when eb
    (do eg <- Fs.existsSync good;
     if eg then rimraf_sync bad else Fs.renameSync bad good).

(** Lines 498-504. *)
Definition hashFile (file : path) : M string :=
  run console_log ["Calculating hash for " +:+ color_path h (pathStr file)];
  do r <- spawn h "md5" ["-q"; pathStr file] None;
  match stdout r with
  | Some o => ret (JS.trim o)
  | None => throw "TypeError"
  end.

(** Lines 439-460: download the archive and check its digest. *)
Definition fetch (e : entry) : M unit :=
  let XcodeURL := XcodeBaseURL +:+ fileName e in
  run console_log ["Downloading " +:+ color_cmd h XcodeURL +:+ " into "
                     +:+ color_path h (pathStr XcodeZip)];
  do r <- spawn h (execPath h) [pathStr downloadJs; XcodeURL; pathStr XcodeZip] None;
  run when (nonzero (status r))
        (run rimraf_sync XcodeZip;
         fatal h "Failure while downloading Xcode zip" 1);
  do newHash <- hashFile XcodeZip;
  when (negb (String.eqb newHash (md5 e)))
    (run rimraf_sync XcodeZip;
     fatal h ("Downloaded Xcode zip had hash " +:+ dq +:+ newHash +:+ dq
                +:+ " which does not match expected hash " +:+ dq +:+ md5 e +:+ dq) 1).

(** Lines 423-461: reuse an archive left on disk when its digest is
    the expected one, download otherwise. *)
Definition obtain (e : entry) : M unit :=
  do have <- Fs.existsSync XcodeZip;
  do shouldDownload <-
    (if have then
       do existingHash <- hashFile XcodeZip;
       if String.eqb existingHash (md5 e) then ret false
       else
         run console_log [color_warn h +:+ " Got existing hash " +:+ color_cmd h existingHash
                            +:+ " which did not match " +:+ color_cmd h (md5 e)
                            +:+ " so redownloading Xcode"];
         run rimraf_sync XcodeZip;
         ret true
     else ret true);
  when shouldDownload (fetch e).

Definition unzipPath : path := (XcodeDir ++ ["tmp_unzip"])%list.

(** Lines 463-472: unpack into a scratch directory, move the bundle
    to its versioned place, delete archive and scratch directory. *)
Definition unpack (eventualVersionedPath : path) : M unit :=
  run console_log ["Extracting " +:+ color_cmd h (pathStr XcodeZip) +:+ " into "
                     +:+ color_path h (pathStr eventualVersionedPath)];
  run rimraf_sync unzipPath;
  do _ <- spawn h "unzip" ["-q"; "-o"; pathStr XcodeZip; "-d"; pathStr unzipPath] None;
  run Fs.renameSync (unzipPath ++ ["Xcode.app"])%list eventualVersionedPath;
  run rimraf_sync XcodeZip;
  rimraf_sync unzipPath.

(** Lines 475-491: retire the active Xcode and link the new one. *)
Definition swap (expected : string) (eventualVersionedPath : path) : M unit :=
  do e <- Fs.existsSync XcodePath;
  run when e
        (do st <- Fs.statSync XcodePath;
         if Fs.isSymbolicLink st then Fs.unlinkSync XcodePath
         else
           do v <- getXcodeVersion;
           let versionedXcode := versioned v in
           do ev <- Fs.existsSync versionedXcode;
           if negb ev then Fs.renameSync XcodePath versionedXcode
           else rimraf_sync XcodePath);
  run console_log ["Updating active Xcode version to " +:+ color_path h expected];
  Fs.symlinkSync eventualVersionedPath XcodePath.

(** Lines 411-496. *)
Definition ensureXcode : M bool :=
  do expected <- expectedXcodeVersion;
  run fixBadVersioned103;
  do e <- Fs.existsSync XcodePath;
  do shouldEnsureXcode <-
    (if negb e then ret true
     else do v <- getXcodeVersion; ret (negb (String.eqb v expected)));
  run when shouldEnsureXcode
        (run ensure_dir h XcodeDir;
         match known expected with
         | None => throw "TypeError"
         | Some ent =>
             let eventualVersionedPath := versioned expected in
             do ev <- Fs.existsSync eventualVersionedPath;
             run when (negb ev) (run obtain ent; unpack eventualVersionedPath);
             swap expected eventualVersionedPath
         end);
  run rimraf_sync XcodeZip;
  ret true.

End WithHost.

End Xcode.

(** ** [src/e-build.js]: the regeneration gate *)

Module Build.

Section WithHost.

Variable h : Host.

(** Lines 13-21. *)
Definition runGNGen (config : Config) : M unit :=
  run depot_ensure h;
  let gnBasename := if String.eqb (platform h) "win32" then "gn.bat" else "gn" in
  let gnPath := (depotPath h ++ [gnBasename])%list in
  let gnArgs := JS.join " " (gen_args config) in
  let execArgs := ["gen"; "out/" +:+ gen_out config; "--args=" +:+ gnArgs] in
  depot_execFileSync h (pathStr gnPath) execArgs (Some (root config ++ ["src"])%list).

Definition buildfile (config : Config) : path := (evmOutDir h config ++ ["build.ninja"])%list.
Definition argsFile (config : Config) : path := (evmOutDir h config ++ ["args.gn"])%list.

(** The line separator of line 30. *)
Definition eol : string := if String.eqb (platform h) "win32" then cr +:+ nl else nl.

(** Lines 23-32. *)
Definition ensureGNGen (config : Config) : M unit :=
  do e <- Fs.existsSync (buildfile config);
  if negb e then runGNGen config else
  do e <- Fs.existsSync (argsFile config);
  if negb e then runGNGen config else
  do contents <- Fs.readFileSync (argsFile config);
  (* If the current args do not match the args file, re-run gen *)
  if negb (String.eqb (JS.trim contents) (JS.trim (JS.join eol (gen_args config))))
  then runGNGen config
  else ret tt.

End WithHost.

End Build.

(** ** [src/utils/goma.js]: the login record and the authentication check *)

Module GomaAuth.

(** [parseInt(s, 10)]: leading white space is skipped, a sign is read,
    then the longest run of decimal digits counts and what follows it is
    ignored.  [None] is [NaN], the result when there is no digit. *)
Definition parseInt (s : string) : option Z :=
  let t := JS.trimStart s in
  let '(negative, u) := match t with
                        | String "-" r => (true, r)
                        | String "+" r => (false, r)
                        | _ => (false, t)
                        end in
  match Semver.digits u with
  | (EmptyString, _) => None
  | (d, _) =>
      let n := Z.of_N (Semver.value 0 d) in
      Some (if negative : bool then - n else n)
  end.

(** The template literal [`${n}`] for an integer [n] below 10^21 in
    absolute value, where JavaScript prints all the digits. *)
Definition showZ (n : Z) : string :=
  if n <? 0 then "-" +:+ Semver.showN (Z.to_N (- n)) else Semver.showN (Z.to_N n).

(** A [Date] object: a time value in milliseconds since the epoch, or
    the invalid date, whose [getTime()] is [NaN]. *)
Inductive date :=
| Instant (t : Z)
| InvalidDate.

(** The largest time value of a [Date], 8.64e15 ms. *)
Definition maxTime : Z := 8640000000000000.

(** [new Date(v)] for a number [v]. *)
Definition newDate (v : option Z) : date :=
  match v with
  | Some t => if Z.abs t <=? maxTime then Instant t else InvalidDate
  | None => InvalidDate
  end.

(** [1000 * 60 * 60 * 12] *)
Definition twelveHours : Z := 1000 * 60 * 60 * 12.

(** [lastKnownLogin && Date.now() - lastKnownLogin.getTime() < 1000 * 60 * 60 * 12]
    of line 135: a comparison with [NaN] is false. *)
Definition recent (now : Z) (lastKnownLogin : option date) : bool :=
  match lastKnownLogin with
  | Some (Instant t) => now - t <? twelveHours
  | Some InvalidDate => false
  | None => false
  end.

(** [\w] *)
Definition isWord (c : ascii) : bool :=
  let n := nat_of_ascii c in
  ((48 <=? n) && (n <=? 57) || (65 <=? n) && (n <=? 90) || (n =? 95)
   || (97 <=? n) && (n <=? 122))%nat.

(** The longest run of word characters [s] starts with, and the rest. *)
Fixpoint wordRun (s : string) : string * string :=
  match s with
  | String c s' =>
      if isWord c then let '(run1, rest) := wordRun s' in (String c run1, rest)
      else (EmptyString, s)
  | EmptyString => (EmptyString, EmptyString)
  end.

(** [s] without the prefix [p], when it starts with it. *)
Fixpoint afterPrefix (p s : string) : option string :=
  match p, s with
  | EmptyString, _ => Some s
  | String a p', String b s' => if Ascii.eqb a b then afterPrefix p' s' else None
  | String _ _, EmptyString => None
  end.

(** [/^Login as (\w+\s\w+)$/.test(s)].  The pattern is anchored at both
    ends and has no flag, so it is matched against the whole of [s].  No
    character is both in [\w] and in [\s]: the first [\w+] can only
    succeed when it takes the whole run of word characters, and so can
    the second, which must end where [s] ends. *)
Definition loggedInPattern_test (s : string) : bool :=
  match afterPrefix "Login as " s with
  | Some r =>
      match wordRun r with
      | (String _ _, String c r') =>
          JS.isWhiteSpace c &&
          match wordRun r' with
          | (String _ _, EmptyString) => true
          | _ => false
          end
      | _ => false
      end
  | None => false
  end.

Section WithHost.

Variable h : Host.

(** What [depot.execFileSync] returns when it does not throw: the
    output of the command. *)
Variable depotOutput : string → list string → option path → FS → string.

(** [depot.spawnSync(config, cmd, args, {cwd, stdio, env})] with the
    environment of line 160: the [status] and the [error] of the
    result, the error as the text [`${error}`] gives. *)
Variable depotSpawnSync :
  string → list string → option path → FS → (option Z * option string) * FS.

(** The exit code [fatal] ends the process with when it is handed
    [null] for one: [./logging] is not among the sources. *)
Variable exitOnNull : Z.

(** [depot.execFileSync(config, cmd, args, {cwd})] used for its result. *)
Definition depot_execFileSync_output (cmd : string) (args : list string)
    (cwd : option path) : M string :=
  λ w, let '(r, m) := depotExecFileSync h cmd args cwd (fs w) in
       let w' := mkWorld m (out w ++ [DepotExec cmd args cwd (fs w)])%list in
       match r with
       | None => (Ok (depotOutput cmd args cwd (fs w)), w')
       | Some err => (Throw err, w')
       end.

(** [try { m } catch { handler }] *)
Definition try_catch {A} (m handler : M A) : M A :=
  λ w, match m w with
       | (Throw _, w') => handler w'
       | other => other
       end.

(** Line 16. *)
Definition gomaLoginFile : path := (Goma.gomaDir h ++ ["last-known-login"])%list.

(** Lines 176-180.  [None] is [null]. *)
Definition getLastKnownLoginTime : M (option date) :=
  do e <- Fs.existsSync gomaLoginFile;
  if negb e then ret None else
  do contents <- Fs.readFileSync gomaLoginFile;
  ret (Some (newDate (parseInt contents))).

(** Lines 182-185. *)
Definition clearGomaLoginTime : M unit :=
  do e <- Fs.existsSync gomaLoginFile;
  if negb e then ret tt else Fs.unlinkSync gomaLoginFile.

(** Lines 187-189; [now] is what [Date.now()] returns. *)
Definition recordGomaLoginTime (now : Z) : M unit :=
  Fs.writeFileSync gomaLoginFile (showZ now).

(** Lines 131-149; [now] is what [Date.now()] returns. *)
Definition gomaIsAuthenticated (now : Z) (config : option Config) : M bool :=
  if negb (Goma.isSupportedPlatform h) then ret false else
  do lastKnownLogin <- getLastKnownLoginTime;
  (* Assume if we authed in the last 12 hours it is still valid *)
  if recent now lastKnownLogin then ret true else
  do loggedInInfo <-
    try_catch
      (do o <- depot_execFileSync_output "python3" ["goma_auth.py"; "info"]
                 (Some (Goma.gomaDir h));
       ret (Some o))
      (ret None);
  match loggedInInfo with
  | None => ret false
  | Some o => ret (loggedInPattern_test (JS.trim o))
  end.

(** [depot.spawnSync] as a computation; the process is recorded like the
    other processes run through depot tools. *)
Definition depot_spawnSync (cmd : string) (args : list string) (cwd : option path)
  : M (option Z * option string) :=
  λ w, let '(r, m) := depotSpawnSync cmd args cwd (fs w) in
       (Ok r, mkWorld m (out w ++ [DepotExec cmd args cwd (fs w)])%list).

(** Lines 151-174; [now] is what [Date.now()] returns in
    [gomaIsAuthenticated], [later] what it returns in
    [recordGomaLoginTime]. *)
Definition authenticateGoma (now later : Z) (config : option Config) : M unit :=
  if negb (Goma.isSupportedPlatform h) then ret tt else
  run Goma.downloadAndPrepareGoma h config;
  do authenticated <- gomaIsAuthenticated now config;
  when (negb authenticated)
    (do r <- depot_spawnSync "python3" ["goma_auth.py"; "login"] (Some (Goma.gomaDir h));
     let '(status, error) := r in
     run when (nonzero status)
           (let errorMsg := "Failed to run command:" in
            let errorMsg :=
              match status with
              | Some c => errorMsg +:+ nl +:+ " Exit Code: " +:+ dq +:+ showZ c +:+ dq
              | None => errorMsg
              end in
            let errorMsg :=
              match error with
              | Some e => errorMsg +:+ nl +:+ " " +:+ e
              | None => errorMsg
              end in
            fatal h errorMsg (match status with Some c => c | None => exitOnNull end));
     recordGomaLoginTime later).

End WithHost.

End GomaAuth.

(** ** [src/e-build.js]: the default number of jobs *)

Module Ninja.

(** An element of the argument array: commander hands over strings,
    line 45 pushes a number. *)
Inductive arg :=
| Str (s : string)
| Num (n : Z).

(** [/^-j[0-9]+$/.test(s)] *)
Definition isJobsFlag (s : string) : bool :=
  match s with
  | String "-" (String "j" ds) => Semver.allDigits ds
  | _ => false
  end.

(** [ninjaArgs.includes('-j')] *)
Definition includesJ (ninjaArgs : list arg) : bool :=
  existsb (λ a, match a with Str s => String.eqb s "-j" | Num _ => false end) ninjaArgs.

(** [ninjaArgs.find(arg => /^-j[0-9]+$/.test(arg.trim()))]: the first
    element the test accepts, [Some None] for [undefined] when there is
    none, and [None] when the callback throws because an element it
    reaches is a number, which has no [trim]. *)
Fixpoint findJobs (ninjaArgs : list arg) : option (option arg) :=
  match ninjaArgs with
  | [] => Some None
  | Str s :: rest => if isJobsFlag (JS.trim s) then Some (Some (Str s)) else findJobs rest
  | Num _ :: _ => None
  end.

(** Lines 44-46 of [runNinja]: the argument array after them, [None]
    when [find] throws.  [&&] does not evaluate [find] when the array
    includes [-j]; what [find] returns is a non-empty string or
    [undefined]. *)
Definition defaultJobs (ninjaArgs : list arg) : option (list arg) :=
  if includesJ ninjaArgs then Some ninjaArgs
  else
    match findJobs ninjaArgs with
    | Some None => Some (ninjaArgs ++ [Str "-j"; Num 200])%list
    | Some (Some _) => Some ninjaArgs
    | None => None
    end.

End Ninja.

(** * Specifications and concrete worlds

    What the properties below are stated with: how a run is read, the
    wording of the specification where the code departs from it, and the
    hosts and file systems the concrete runs start from. *)

(** ** Reading a run *)

(** The effects a computation adds to the trace of the world it starts
    in. *)
Definition trace_of {A} (m : M A) (w : World) : list event :=
  drop (List.length (out w)) (out (m w).2).

(** An event without the file system snapshot of a child process, for
    traces that are compared as a whole. *)
Definition erase (e : event) : event :=
  match e with
  | Spawned cmd args cwd _ => Spawned cmd args cwd ∅
  | Unzipped a d _ => Unzipped a d ∅
  | DepotExec cmd args cwd _ => DepotExec cmd args cwd ∅
  | DepotEnsured _ => DepotEnsured ∅
  | other => other
  end.

(** Nothing is left at or below [p]. *)
Definition gone (p : path) (m : FS) : Prop := ∀ q, p `prefix_of` q → m !! q = None.

(** ** A host and a tools checkout to run on *)

Module Demo.

Definition tools : path := ["opt"; "build-tools"].
Definition checkout : path := ["home"; "dev"; "electron"].

Definition config : Config :=
  mkConfig None "cache-only" ["import(" +:+ dq +:+ "//electron/build/args/testing.gn" +:+ dq +:+ ")";
                              "use_goma = true"]
           "Testing" checkout.

(** A child process that succeeds, prints nothing and touches nothing. *)
Definition idle : string → list string → option path → FS → SpawnResult * FS :=
  λ _ _ _ m, (mkSpawn (Some 0) (Some EmptyString), m).

(** A host on [plat] whose child processes behave as [children] and
    whose SHA-256 is [digest]. *)
Definition host (plat : string) (digest : string → list byte)
    (children : string → list string → option path → FS → SpawnResult * FS) : Host :=
  mkHost plat "x64" false "node" tools None digest children
         (λ _ _, Some "12.6.3")
         (λ _ _ m, (None, m))
         (λ _ _ _ m, (None, m))
         ["opt"; "depot_tools"] (λ m, (None, m))
         (Some config) (λ c, (root c ++ ["src"; "out"; gen_out c])%list)
         (λ _ m, (None, m))
         (λ s, s) (λ s, s) "ERROR" "WARN".

Definition linux : Host := host "linux" (λ _, []) idle.

Definition linuxSha : string :=
  "f94f784f58b414f3556da9f03baf911588ce45e9a6ed35e26fb5ee21a632863e".

(** The tools checkout with a client installed under [third_party]. *)
Definition installed (marker : string) : FS :=
  list_to_map [
    (["opt"], Dir);
    (["opt"; "build-tools"], Dir);
    (["opt"; "build-tools"; "third_party"], Dir);
    (["opt"; "build-tools"; "third_party"; "goma"], Dir);
    (["opt"; "build-tools"; "third_party"; "goma"; "gomacc"], File "ELF");
    (["opt"; "build-tools"; "third_party"; "goma"; ".sha"], File marker) ].

End Demo.

(** ** The install marker check, as specified *)

(** The check as the specification words it: false without a marker
    file, and otherwise true exactly when the trimmed content of the
    file is the wanted value. *)
Definition isInstalled_spec (h : Host) (sha : string) (w : World) : Prop :=
  match stat (fs w) (Goma.gomaShaFile h) with
  | None => (Goma.shaFileIsCurrent h sha w).1 = Ok false
  | Some (File c) => (Goma.shaFileIsCurrent h sha w).1 = Ok (bool_decide (JS.trim c = sha))
  | Some _ => True
  end.

(** ** The regeneration gate, as specified *)

(** Line endings brought to one convention: every CR LF pair and every
    lone LF becomes [native]. *)
Fixpoint normalizeEol (native s : string) : string :=
  match s with
  | String "013" (String "010" s') => native +:+ normalizeEol native s'
  | String "010" s' => native +:+ normalizeEol native s'
  | String c s' => String c (normalizeEol native s')
  | EmptyString => EmptyString
  end.

(** The gate as the specification words it: regenerate when the build
    manifest or the persisted arguments are missing, and otherwise when
    the two texts differ once trimmed, both with their line endings
    normalised to the convention of the platform. *)
Definition needsRegeneration_spec (h : Host) (config : Config) (m : FS) : bool :=
  match stat m (Build.buildfile h config), stat m (Build.argsFile h config) with
  | None, _ => true
  | Some _, None => true
  | Some _, Some (File c) =>
      negb (String.eqb
              (JS.trim (normalizeEol (Build.eol h) c))
              (JS.trim (normalizeEol (Build.eol h) (JS.join (Build.eol h) (gen_args config)))))
  | Some _, Some _ => true
  end.

Definition ensureGNGen_follows_spec (h : Host) (config : Config) (w : World) : Prop :=
  Build.ensureGNGen h config w =
    if needsRegeneration_spec h config (fs w) then Build.runGNGen h config w else (Ok tt, w).

Module DemoBuild.

Definition win32 : Host := Demo.host "win32" (λ _, []) Demo.idle.

(** An output directory whose [args.gn] holds the wanted arguments,
    one per line, with LF line endings. *)
Definition generated : FS :=
  list_to_map [
    (["home"; "dev"; "electron"; "src"; "out"; "Testing"], Dir);
    (["home"; "dev"; "electron"; "src"; "out"; "Testing"; "build.ninja"], File "rule cc");
    (["home"; "dev"; "electron"; "src"; "out"; "Testing"; "args.gn"],
     File (JS.join nl (gen_args Demo.config))) ].

End DemoBuild.

(** ** The shape of a pattern *)

Module RegexShape.
Import Regex.

(** A pattern without group marks. *)
Fixpoint plain (r : list atom) : bool :=
  match r with
  | [] => true
  | Open :: _ | Close :: _ => false
  | _ :: r' => plain r'
  end.

(** The least number of characters a plain pattern consumes. *)
Fixpoint width (r : list atom) : nat :=
  match r with
  | [] => 0
  | Opt _ :: r' => width r'
  | Open :: r' | Close :: r' => width r'
  | _ :: r' => S (width r')
  end.

End RegexShape.

(** ** The version resolver, as specified *)

Definition swVers : string := "sw_vers -productVersion".

(** The candidate files in the order the resolver tries them. *)
Definition sources (root : path) : list path :=
  [Xcode.circleci root ["build_config.yml"];
   Xcode.circleci root ["config.yml"];
   Xcode.circleci root ["config"; "base.yml"]].

(** [wins m ps v]: [v] is the version extracted from the first file of
    [ps] that exists in [m] and matches; the files before it are absent
    or do not match.  Nothing is said about the files after it. *)
Inductive wins (m : FS) : list path → string → Prop :=
| wins_here p ps c v :
    stat m p = Some (File c) → Xcode.extractXcodeVersion c = Some v → wins m (p :: ps) v
| wins_absent p ps v :
    stat m p = None → wins m ps v → wins m (p :: ps) v
| wins_nomatch p ps c v :
    stat m p = Some (File c) → Xcode.extractXcodeVersion c = None →
    wins m ps v → wins m (p :: ps) v.

(** The resolver as the specification words it: the version of the
    first candidate that exists and matches is what comes back. *)
Definition returns_first_match (h : Host) (w : World) : Prop :=
  ∀ config v, evmCurrent h = Some config →
    wins (fs w) (sources (root config)) v →
    (Xcode.expectedXcodeVersion h w).1 = Ok v.

Module DemoXcode.

Definition mac : Host := Demo.host "darwin" (λ _, []) Demo.idle.

(** A checkout without [build_config.yml], with a [config.yml] that
    names no Xcode, and with a [base.yml] that asks for [version]. *)
Definition checkout (version : string) : FS :=
  list_to_map [
    (["home"; "dev"; "electron"; "src"; "electron"; ".circleci"], Dir);
    (["home"; "dev"; "electron"; "src"; "electron"; ".circleci"; "config.yml"],
     File ("version: 2.1" +:+ nl +:+ "setup: true" +:+ nl));
    (["home"; "dev"; "electron"; "src"; "electron"; ".circleci"; "config"], Dir);
    (["home"; "dev"; "electron"; "src"; "electron"; ".circleci"; "config"; "base.yml"],
     File ("  xcode:" +:+ nl +:+ "    description: " +:+ dq +:+ "xcode version" +:+ dq +:+ nl
             +:+ "    type: string" +:+ nl
             +:+ "    default: " +:+ version +:+ nl)) ].

End DemoXcode.



(** ** Hosts that download *)

Module DemoFetch.

(** The SHA-256 digest whose hexadecimal form is the Linux entry of
    [GOMA_PLATFORM_SHAS]. *)
Definition linuxDigest : list byte :=
  [xf9; x4f; x78; x4f; x58; xb4; x14; xf3; x55; x6d; xa9; xf0; x3b; xaf; x91; x15;
   x88; xce; x45; xe9; xa6; xed; x35; xe2; x6f; xb5; xee; x21; xa6; x32; x86; x3e].

Definition archive : path := ["opt"; "build-tools"; "third_party"; "goma-linux.tgz"].

(** Children of a healthy run: [node download.js] stores the archive,
    [tar] unpacks a client, everything else idles. *)
Definition children : string → list string → option path → FS → SpawnResult * FS :=
  λ cmd _ _ m,
    if String.eqb cmd "node" then
      (mkSpawn (Some 0) (Some EmptyString), <[archive := File "tarball"]> m)
    else if String.eqb cmd "tar" then
      (mkSpawn (Some 0) (Some EmptyString),
       <[["opt"; "build-tools"; "third_party"; "goma"; "gomacc"] := File "ELF"]>
         (<[["opt"; "build-tools"; "third_party"; "goma"] := Dir]> m))
    else (mkSpawn (Some 0) (Some EmptyString), m).

Definition mirror : Host := Demo.host "linux" (λ _, linuxDigest) children.

(** The same host with a download that arrives damaged. *)
Definition damaged : Host := Demo.host "linux" (λ _, [x00]) children.

End DemoFetch.

(** ** Effects of composed computations *)

(** [emits P m]: whatever the world, [m] only adds events that satisfy
    [P] to the trace. *)
Definition emits (P : event → Prop) {A} (m : M A) : Prop :=
  ∀ w, ∃ evs, out (m w).2 = (out w ++ evs)%list ∧ Forall P evs.

(** [reaches P m tail]: a run of [m] either only adds events that satisfy
    [P], or does so up to a world from which it continues as [tail]. *)
Definition reaches (P : event → Prop) {A} (m tail : M A) : Prop :=
  ∀ w, (∃ evs, out (m w).2 = (out w ++ evs)%list ∧ Forall P evs)
       ∨ (∃ w0 evs, out w0 = (out w ++ evs)%list ∧ Forall P evs ∧ m w = tail w0).

(** ** The parts of [downloadAndPrepareGoma] *)

(** What [downloadAndPrepareGoma] does from its clean-up on, once it has
    decided to download: lines 83-128. *)
Definition refresh (h : Host) (sha filename : string) : M (option string) :=
  run rimraf_sync (Goma.gomaDir h);
  run rimraf_sync (Goma.tmpDownload h filename);
  run Goma.fetch h sha filename;
  run Goma.extract h filename;
  run Fs.writeFileSync (Goma.gomaShaFile h) sha;
  ret (Some sha).

(** The effects that come before the clean-up: console output, the
    [third_party] directory, [goma.gn], stopping a running client. *)
Definition preliminary (h : Host) (e : event) : Prop :=
  match e with
  | Console _ _ | MadeDir _ | DepotExec _ _ _ _ => True
  | Wrote p _ => p = Goma.gomaGnFile h
  | _ => False
  end.

(** ** Extraction, as specified *)

Module DemoExtract.

(** A host whose [tar] fails with exit status 2 and leaves the archive
    alone. *)
Definition children : string → list string → option path → FS → SpawnResult * FS :=
  λ cmd _ _ m,
    if String.eqb cmd "tar" then (mkSpawn (Some 2) (Some EmptyString), m)
    else (mkSpawn (Some 0) (Some EmptyString), m).

Definition brokenTar : Host := Demo.host "linux" (λ _, DemoFetch.linuxDigest) children.

(** The tools checkout after clean-up and download: no install
    directory, the archive next to where it was. *)
Definition downloaded : FS :=
  list_to_map [
    (["opt"], Dir);
    (["opt"; "build-tools"], Dir);
    (["opt"; "build-tools"; "third_party"], Dir);
    (["opt"; "build-tools"; "third_party"; "goma-linux.tgz"], File "tarball") ].

End DemoExtract.

(** The extraction as the specification words it: the destination of
    the extraction tool is a scratch directory that does not exist yet,
    and it is not [targetDir]. *)
Definition extracts_into_scratch (h : Host) (filename : string) (w : World) : Prop :=
  ∀ e, e ∈ trace_of (Goma.extract h filename) w →
    match e with
    | Spawned _ _ (Some dest) pre | Unzipped _ dest pre =>
        dest ≠ parent (Goma.tmpDownload h filename) ∧ stat pre dest = None
    | _ => True
    end.

(** The install step as the specification words it: whatever the
    outcome, the archive is gone when the step is over. *)
Definition archive_deleted (h : Host) (filename : string) (w : World) : Prop :=
  gone (Goma.tmpDownload h filename) (fs (Goma.extract h filename w).2).

(** ** An active Xcode that is a symbolic link *)

Module DemoSwap.

(** [defaults read .../Info.plist CFBundleShortVersionString] answers
    12.0, the version the universal-app build of Xcode 12 reports. *)
Definition children : string → list string → option path → FS → SpawnResult * FS :=
  λ cmd _ _ m,
    if String.eqb cmd "defaults" then (mkSpawn (Some 0) (Some ("12.0" +:+ nl)), m)
    else (mkSpawn (Some 0) (Some EmptyString), m).

Definition mac : Host := Demo.host "darwin" (λ _, []) children.

(** [Xcode.app] is a symbolic link to the bundle of the table's version
    12.0.0-UA, left by hand or by an older release (the resolver of this
    release never answers 12.0.0-UA); the bundle of 12.4.0 is unpacked
    next to it. *)
Definition linked : FS :=
  list_to_map [
    (["opt"], Dir);
    (["opt"; "build-tools"], Dir);
    (["opt"; "build-tools"; "third_party"], Dir);
    (["opt"; "build-tools"; "third_party"; "Xcode"], Dir);
    (["opt"; "build-tools"; "third_party"; "Xcode"; "Xcode-12.0.0-UA.app"], Dir);
    (["opt"; "build-tools"; "third_party"; "Xcode"; "Xcode-12.4.0.app"], Dir);
    (["opt"; "build-tools"; "third_party"; "Xcode"; "Xcode.app"],
     Link ["opt"; "build-tools"; "third_party"; "Xcode"; "Xcode-12.0.0-UA.app"]) ].

End DemoSwap.

(** ** The digest check, as specified *)


Module DemoDigest.

(** The table entry of Xcode 14.3.0. *)
Definition entry : Xcode.entry :=
  Xcode.mkEntry "Xcode-14.3.0.zip" "4bc9043b275625568f81d9727ad6aef8".



End DemoDigest.

(** * Further statements and concrete worlds

    What the properties of the last part of this file are stated with. *)

(** ** What the accelerator pipeline may do *)

(** The effects [downloadAndPrepareGoma] is written to have: console
    output, the [third_party] directory, [goma.gn] with the generated
    content, stopping a running client, removing the install directory
    and the archive, the download, the extraction, and the marker with
    the expected digest. *)
Definition pipelineEffect (h : Host) (config : option Config) (e : event) : Prop :=
  match e with
  | Console _ _ => True
  | MadeDir p => p = Goma.thirdParty h
  | Wrote p c =>
      (p = Goma.gomaGnFile h ∧ c = Goma.gomaGnContents h)
      ∨ (p = Goma.gomaShaFile h ∧ Goma.expectedSha h config = Some c)
  | DepotExec cmd args cwd _ =>
      cmd = "python3" ∧ args = ["goma_ctl.py"; "stop"] ∧ cwd = Some (Goma.gomaDir h)
  | Removed p =>
      p = Goma.gomaDir h
      ∨ ∃ filename, Goma.filenames !! Goma.gomaPlatform h = Some filename
                    ∧ p = Goma.tmpDownload h filename
  | Spawned cmd _ cwd _ =>
      (cmd = execPath h ∧ cwd = None) ∨ (cmd = "tar" ∧ cwd = Some (Goma.thirdParty h))
  | Unzipped _ dest _ => dest = Goma.thirdParty h
  | _ => False
  end.

Module DemoSteady.

(** The tools checkout of [Demo.installed] with the [goma.gn] an
    earlier run wrote. *)
Definition settled : FS :=
  <[["opt"; "build-tools"; "third_party"; "goma.gn"] := File (Goma.gomaGnContents Demo.linux)]>
    (Demo.installed Demo.linuxSha).

(** A host with [ELECTRON_FORGE_GOMA_REDOWNLOAD=1] in its environment. *)
Definition forced : Host :=
  mkHost "linux" "x64" false "node" Demo.tools (Some "1")
         (λ _, DemoFetch.linuxDigest) DemoFetch.children
         (λ _ _, Some "12.6.3")
         (λ _ _ m, (None, m))
         (λ _ _ _ m, (None, m))
         ["opt"; "depot_tools"] (λ m, (None, m))
         (Some Demo.config) (λ c, (root c ++ ["src"; "out"; gen_out c])%list)
         (λ _ m, (None, m))
         (λ s, s) (λ s, s) "ERROR" "WARN".

(** A host whose download exits with status 1. *)
Definition offline : Host :=
  Demo.host "linux" (λ _, [])
    (λ cmd _ _ m, if String.eqb cmd "node" then (mkSpawn (Some 1) None, m)
                  else (mkSpawn (Some 0) (Some EmptyString), m)).

End DemoSteady.

(** ** A login record to run on *)

Module DemoAuth.

(** [Date.now()] on 2023-11-14 at 22:13:20 UTC. *)
Definition now : Z := 1700000000000.

(** A user name as [goma_auth.py info] prints it. *)
Definition info : string → list string → option path → FS → string :=
  λ _ _ _ _, "Login as Jane Doe" +:+ nl.

(** The tools checkout of [Demo.installed] with a login record. *)
Definition loggedIn (stamp : string) : FS :=
  <[["opt"; "build-tools"; "third_party"; "goma"; "last-known-login"] := File stamp]>
    (Demo.installed Demo.linuxSha).

End DemoAuth.

(** ** The login line, as the pattern reads *)

(** A non-empty string of word characters: what [\w+] matches as a
    whole. *)
Fixpoint allWord (s : string) : bool :=
  match s with
  | String c s' => GomaAuth.isWord c && allWord s'
  | EmptyString => true
  end.

Definition word (s : string) : Prop := s ≠ EmptyString ∧ allWord s = true.

(** The strings of the language of [^Login as (\w+\s\w+)$]: the words
    [Login as ], then a word, one white space character and a word. *)
Definition loginLine (s : string) : Prop :=
  ∃ first sep last,
    s = "Login as " +:+ first +:+ String sep last
    ∧ word first ∧ JS.isWhiteSpace sep = true ∧ word last.

(** ** Xcode bundles to run on *)

Module DemoEnsure.

(** [defaults read] answers 12.0, [md5 -q] prints the digest of the
    archive of Xcode 14.3.0, and [unzip] unpacks a bundle but ends with
    status 1, as it does after a warning. *)
Definition children : string → list string → option path → FS → SpawnResult * FS :=
  λ cmd _ _ m,
    if String.eqb cmd "defaults" then (mkSpawn (Some 0) (Some ("12.0" +:+ nl)), m)
    else if String.eqb cmd "md5" then
      (mkSpawn (Some 0) (Some ("4bc9043b275625568f81d9727ad6aef8" +:+ nl)), m)
    else if String.eqb cmd "unzip" then
      (mkSpawn (Some 1) (Some EmptyString),
       <[["opt"; "build-tools"; "third_party"; "Xcode"; "tmp_unzip"; "Xcode.app"; "Contents"] := Dir]>
         (<[["opt"; "build-tools"; "third_party"; "Xcode"; "tmp_unzip"; "Xcode.app"] := Dir]>
            (<[["opt"; "build-tools"; "third_party"; "Xcode"; "tmp_unzip"] := Dir]> m)))
    else (mkSpawn (Some 0) (Some EmptyString), m).

Definition mac : Host := Demo.host "darwin" (λ _, []) children.

(** The tools checkout of [DemoSwap.linked] with the bundle of Xcode
    14.3.0 unpacked and the archive of an earlier download left
    behind. *)
Definition unpacked : FS :=
  <[["opt"; "build-tools"; "third_party"; "Xcode"; "Xcode-14.3.0.app"] := Dir]>
    (<[["opt"; "build-tools"; "third_party"; "Xcode"; "Xcode.zip"] := File "PK"]>
       DemoSwap.linked).



(** A host whose active Xcode reports 14.3, the highest known
    version, which is what the resolver falls back to. *)
Definition upToDate : Host :=
  Demo.host "darwin" (λ _, [])
    (λ cmd _ _ m,
       if String.eqb cmd "defaults" then (mkSpawn (Some 0) (Some ("14.3" +:+ nl)), m)
       else (mkSpawn (Some 0) (Some EmptyString), m)).

End DemoEnsure.

(** Every effect but making a symbolic link. *)
Definition noLink (e : event) : Prop :=
  match e with Symlinked _ _ => False | _ => True end.

(** ** Legacy configuration lines *)

(** [s] holds no character [c]. *)
Fixpoint lacks (c : ascii) (s : string) : bool :=
  match s with
  | String a s' => negb (Ascii.eqb a c) && lacks c s'
  | EmptyString => true
  end.

(** ** The parts of [authenticateGoma] *)

(** What [authenticateGoma] does once it has found that it is not
    authenticated: lines 157-172. *)
Definition login (h : Host)
    (depotSpawnSync : string → list string → option path → FS
                      → (option Z * option string) * FS)
    (exitOnNull later : Z) : M unit :=
  do r <- GomaAuth.depot_spawnSync depotSpawnSync "python3" ["goma_auth.py"; "login"]
            (Some (Goma.gomaDir h));
  let '(status, error) := r in
  run when (nonzero status)
        (let errorMsg := "Failed to run command:" in
         let errorMsg :=
           match status with
           | Some c => errorMsg +:+ nl +:+ " Exit Code: " +:+ dq +:+ GomaAuth.showZ c +:+ dq
           | None => errorMsg
           end in
         let errorMsg :=
           match error with
           | Some e => errorMsg +:+ nl +:+ " " +:+ e
           | None => errorMsg
           end in
         fatal h errorMsg (match status with Some c => c | None => exitOnNull end));
  GomaAuth.recordGomaLoginTime h later.

(** Every effect but writing the login record. *)
Definition noLoginRecord (h : Host) (e : event) : Prop :=
  match e with
  | Wrote p _ => p ≠ GomaAuth.gomaLoginFile h
  | _ => True
  end.

Module DemoLogin.

(** A login that succeeds. *)
Definition accepted : string → list string → option path → FS
                      → (option Z * option string) * FS :=
  λ _ _ _ m, ((Some 0, None), m).

(** [goma_auth.py info] before the login. *)
Definition anonymous : string → list string → option path → FS → string :=
  λ _ _ _ _, "Not logged in" +:+ nl.

(** [Date.now()] one second after [DemoAuth.now]. *)
Definition later : Z := DemoAuth.now + 1000.

End DemoLogin.

(** * Properties *)

(** ** The embedding at work *)

Example trim_both_ends : JS.trim ("  a b " +:+ nl) = "a b".
Proof. reflexivity. Qed.

Example hex_is_lower_case : JS.hex [x00; xff; x1a] = "00ff1a".
Proof. reflexivity. Qed.

Example linux_digest_in_hex : JS.hex DemoFetch.linuxDigest = Demo.linuxSha.
Proof. reflexivity. Qed.

Example extract_legacy_quoted :
  Xcode.extractXcodeVersion ("  xcode: " +:+ dq +:+ "12.4.0" +:+ dq +:+ nl) = Some "12.4.0".
Proof. reflexivity. Qed.

(** The last repetition of the group is lazy and nothing has to follow
    it, so it stops after one digit. *)
Example extract_legacy_one_patch_digit :
  Xcode.extractXcodeVersion ("  xcode: 13.2.10" +:+ nl) = Some "13.2.1".
Proof. reflexivity. Qed.

Example extract_modern :
  Xcode.extractXcodeVersion
    ("    description: " +:+ dq +:+ "xcode version" +:+ dq +:+ nl
       +:+ "    type: string" +:+ nl +:+ "    default: 14.3.0" +:+ nl) = Some "14.3.0".
Proof. reflexivity. Qed.

Example extract_nothing : Xcode.extractXcodeVersion ("version: 2.1" +:+ nl) = None.
Proof. reflexivity. Qed.

Example coerce_drops_the_tag :
  Semver.valid (Semver.coerce "12.0.0-UA") = Some "12.0.0".
Proof. reflexivity. Qed.

Example tagged_version_is_lower :
  Semver.rcompare "12.0.0-UA" "12.0.0" = Some Gt.
Proof. reflexivity. Qed.

Example getXcodeVersion_appends_patch :
  (Xcode.getXcodeVersion DemoSwap.mac (mkWorld DemoSwap.linked [])).1 = Ok "12.0.0".
Proof. reflexivity. Qed.

(** A healthy refresh on Linux, effect by effect. *)
Example healthy_refresh_trace :
  erase <$> trace_of (Goma.downloadAndPrepareGoma DemoFetch.mirror None)
              (mkWorld (Demo.installed "0000") [])
  = [Console Log ["Writing new goma.gn file /opt/build-tools/third_party/goma.gn"];
     Wrote ["opt"; "build-tools"; "third_party"; "goma.gn"]
           ("goma_dir = " +:+ dq +:+ "/opt/build-tools/third_party/goma" +:+ dq +:+ nl
              +:+ "use_goma = true");
     Removed ["opt"; "build-tools"; "third_party"; "goma"];
     Removed ["opt"; "build-tools"; "third_party"; "goma-linux.tgz"];
     Console Log ["Downloading https://dev-cdn.electronjs.org/goma-clients/"
                    +:+ Demo.linuxSha +:+ "/goma-linux.tgz into "
                    +:+ "/opt/build-tools/third_party/goma-linux.tgz"];
     Spawned "node" ["/opt/build-tools/src/download.js";
                     "https://dev-cdn.electronjs.org/goma-clients/"
                       +:+ Demo.linuxSha +:+ "/goma-linux.tgz";
                     "/opt/build-tools/third_party/goma-linux.tgz"] None ∅;
     Spawned "tar" ["zxvf"; "goma-linux.tgz"] (Some ["opt"; "build-tools"; "third_party"]) ∅;
     Removed ["opt"; "build-tools"; "third_party"; "goma-linux.tgz"];
     Wrote ["opt"; "build-tools"; "third_party"; "goma"; ".sha"] Demo.linuxSha].
Proof. vm_compute. reflexivity. Qed.

(** ** The file system *)

Arguments stat : simpl never.
Arguments JS.startsWith : simpl never.
Arguments JS.endsWith : simpl never.
Arguments JS.trim : simpl never.
Arguments JS.join : simpl never.
Arguments Xcode.known : simpl never.
Arguments removeTree : simpl never.
Arguments moveTree : simpl never.
Arguments hasChildren : simpl never.

Lemma removeTree_gone p m : gone p (removeTree p m).
Proof.
  intros q Hq. unfold removeTree. apply map_lookup_filter_None. right.
  intros x _. simpl. tauto.
Qed.

Lemma removeTree_lookup_other p q m :
  ¬ p `prefix_of` q → removeTree p m !! q = m !! q.
Proof.
  intros Hq. unfold removeTree. destruct (m !! q) as [x|] eqn:E.
  - by apply map_lookup_filter_Some.
  - apply map_lookup_filter_None. left. done.
Qed.

Lemma removeTree_keeps_gone p q m : gone q m → gone q (removeTree p m).
Proof.
  intros G r Hr. unfold removeTree. apply map_lookup_filter_None. left. by apply G.
Qed.

(** [stat] never answers with a symbolic link: links are followed. *)
Lemma follow_no_link fuel m p t : follow fuel m p ≠ Some (Link t).
Proof.
  revert p. induction fuel as [|n IH]; intros p; simpl; [done |].
  destruct (m !! p) as [[c| |t']|] eqn:E; first [done | apply IH].
Qed.

Lemma stat_no_link m p t : stat m p ≠ Some (Link t).
Proof. apply follow_no_link. Qed.

Lemma parent_snoc (p : path) (x : string) : parent (p ++ [x])%list = p.
Proof. unfold parent. apply removelast_last. Qed.

(** ** Hexadecimal digests are lower case *)



(** ** The install marker check (lines 61-66 of [goma.js]) *)

(** A marker that ends in a line feed holds the wanted digest once
    trimmed, yet the check answers false. *)
Lemma marker_with_newline_not_current :
  ¬ isInstalled_spec Demo.linux Demo.linuxSha
      (mkWorld (Demo.installed (Demo.linuxSha +:+ nl)) []).
Proof. unfold isInstalled_spec. vm_compute. intros H. discriminate H. Qed.

(** C4, as the code has it: without a marker file the check answers
    false whatever digest is wanted; with a marker file it answers true
    exactly when the content of the file, taken as it is and not trimmed,
    equals the wanted digest and the environment does not force a
    re-download.  The check changes nothing. *)
Theorem marker_check (h : Host) (sha : string) (w : World) :
  Goma.shaFileIsCurrent h sha w =
    (match stat (fs w) (Goma.gomaShaFile h) with
     | None => Ok false
     | Some (File c) =>
         Ok (bool_decide (c = sha) && negb (JS.truthy (env_GOMA_REDOWNLOAD h)))
     | Some _ => Throw "EISDIR"
     end, w).
Proof.
  unfold Goma.shaFileIsCurrent, bind, Fs.existsSync, Fs.readFileSync, ret.
  destruct (stat (fs w) (Goma.gomaShaFile h)) as [[c| |t]|] eqn:E; simpl;
    rewrite ?E; simpl; try done.
  do 3 f_equal.
    destruct (String.eqb_spec c sha);
      [by rewrite bool_decide_eq_true_2 | by rewrite bool_decide_eq_false_2].
Qed.

(** ** The regeneration gate (lines 23-32 of [e-build.js]) *)

(** On Windows, arguments persisted with LF line endings equal the
    wanted ones after normalisation, yet the gate regenerates. *)
Lemma lf_args_regenerated_on_win32 :
  ¬ ensureGNGen_follows_spec DemoBuild.win32 Demo.config (mkWorld DemoBuild.generated []).
Proof.
  unfold ensureGNGen_follows_spec. intros H.
  apply (f_equal (λ r : outcome unit * World, List.length (out r.2))) in H.
  vm_compute in H. discriminate H.
Qed.

Lemma runGNGen_acts (h : Host) (config : Config) (w : World) :
  out (Build.runGNGen h config w).2 ≠ out w.
Proof.
  unfold Build.runGNGen, bind, depot_ensure, depot_execFileSync.
  destruct (depotEnsure h (fs w)) as [[e|] m] eqn:E; simpl.
  - intros H. apply (f_equal List.length) in H. rewrite length_app in H. simpl in H. lia.
  - match goal with |- context [depotExecFileSync h ?a ?b ?c ?d] =>
      destruct (depotExecFileSync h a b c d) as [[e|] m'] eqn:E' end; simpl;
      intros H; apply (f_equal List.length) in H; rewrite !length_app in H; simpl in H; lia.
Qed.

(** C9, as the code has it: the gate runs the generator when
    [build.ninja] is missing and when [args.gn] is missing; when both
    exist it runs the generator exactly when the content of [args.gn],
    trimmed, differs from the wanted arguments joined with the line
    separator of the platform, trimmed.  The persisted content is compared
    as it stands: its line endings are not normalised.  Running the
    generator always shows in the trace, doing nothing never does. *)
Theorem regeneration_gate (h : Host) (config : Config) (w : World) :
  Build.ensureGNGen h config w =
    match stat (fs w) (Build.buildfile h config), stat (fs w) (Build.argsFile h config) with
    | None, _ => Build.runGNGen h config w
    | Some _, None => Build.runGNGen h config w
    | Some _, Some (File c) =>
        if String.eqb (JS.trim c) (JS.trim (JS.join (Build.eol h) (gen_args config)))
        then (Ok tt, w)
        else Build.runGNGen h config w
    | Some _, Some _ => (Throw "EISDIR", w)
    end
  ∧ out (Build.runGNGen h config w).2 ≠ out w.
Proof.
  split; [| apply runGNGen_acts].
  unfold Build.ensureGNGen, bind, Fs.existsSync, Fs.readFileSync, ret.
  destruct (stat (fs w) (Build.buildfile h config)) as [b|] eqn:Eb; simpl; [| done].
  destruct (stat (fs w) (Build.argsFile h config)) as [[c| |t]|] eqn:Ea; simpl;
    rewrite ?Ea; simpl; try done.
  by destruct (String.eqb _ _).
Qed.

(** ** What a capture group holds *)

Module RegexFacts.
Import Regex RegexShape.

Lemma plain_keeps r :
  plain r = true → ∀ s o cap x, matchHere r s o cap = Some x → x = cap.
Proof.
  induction r as [|a r IH]; intros P s o cap x; simpl.
  - congruence.
  - destruct a as [k|k|k|k| |]; simpl in P; try discriminate P; specialize (IH P).
    + destruct s as [|c s]; [done |]. destruct (accepts k c); [eauto | done].
    + destruct s as [|c s]; [eauto |]. destruct (accepts k c); [| eauto].
      destruct (matchHere r s o cap) eqn:E; [intros [= <-] |]; eauto.
    + induction s as [|c s IHs]; [done |]. destruct (accepts k c); [| done].
      match goal with |- context [match ?m with Some _ => _ | None => _ end] =>
        destruct m eqn:E end; [intros [= <-]; eauto | eauto].
    + induction s as [|c s IHs]; [done |]. destruct (accepts k c); [| done].
      destruct (matchHere r s o cap) eqn:E; [intros [= <-]; eauto | eauto].
Qed.

(** Between the marks of a group whose body is plain, at least
    [width] characters are consumed, and the capture is the piece of the
    input between the marks. *)
Lemma group_consumes r r2 :
  plain r = true → plain r2 = true →
  ∀ s o cap x, matchHere (r ++ Close :: r2) s o cap = Some x →
    ∃ s', (String.length s' + width r ≤ String.length s)%nat
          ∧ x = String.substring 0 (String.length o - String.length s') o.
Proof.
  intros P P2. induction r as [|a r IH]; intros s o cap x; simpl.
  - intros H. apply plain_keeps in H; [| done]. exists s. split; [lia | done].
  - destruct a as [k|k|k|k| |]; simpl in P; try discriminate P; specialize (IH P).
    + destruct s as [|c s]; [done |]. destruct (accepts k c); [| done].
      intros H. destruct (IH _ _ _ _ H) as (s' & L & E). exists s'. simpl. split; [lia | done].
    + assert (K : ∀ t, (String.length t ≤ String.length s)%nat →
                matchHere (r ++ Close :: r2) t o cap = Some x →
                ∃ s', (String.length s' + width r ≤ String.length s)%nat
                      ∧ x = String.substring 0 (String.length o - String.length s') o).
      { intros t Lt H. destruct (IH _ _ _ _ H) as (s' & L & E). exists s'. split; [lia | done]. }
      destruct s as [|c s]; [apply K; lia |].
      destruct (accepts k c); [| apply K; lia].
      destruct (matchHere (r ++ Close :: r2) s o cap) eqn:E.
      * intros [= <-]. apply (K s); [simpl; lia | done].
      * apply K; lia.
    + induction s as [|c s IHs]; [done |]. destruct (accepts k c); [| done].
      match goal with |- context [match ?m with Some _ => _ | None => _ end] =>
        destruct m eqn:E end.
      * intros [= <-]. destruct (IHs eq_refl) as (s' & L & E'). exists s'. simpl. split; [lia | done].
      * intros H. destruct (IH _ _ _ _ H) as (s' & L & E'). exists s'. simpl. split; [lia | done].
    + induction s as [|c s IHs]; [done |]. destruct (accepts k c); [| done].
      destruct (matchHere (r ++ Close :: r2) s o cap) eqn:E.
      * intros [= <-]. destruct (IH _ _ _ _ E) as (s' & L & E'). exists s'. simpl. split; [lia | done].
      * intros H. destruct (IHs H) as (s' & L & E'). exists s'. simpl. split; [lia | done].
Qed.

(** A plain prefix hands over to the rest of the pattern somewhere in
    the input. *)
Lemma plain_prefix r rest :
  plain r = true →
  ∀ s o cap x, matchHere (r ++ rest) s o cap = Some x →
    ∃ s1, matchHere rest s1 o cap = Some x.
Proof.
  intros P. induction r as [|a r IH]; intros s o cap x; simpl.
  - eauto.
  - destruct a as [k|k|k|k| |]; simpl in P; try discriminate P; specialize (IH P).
    + destruct s as [|c s]; [done |]. destruct (accepts k c); [eauto | done].
    + destruct s as [|c s]; [eauto |]. destruct (accepts k c); [| eauto].
      destruct (matchHere (r ++ rest) s o cap) eqn:E; [intros [= <-] |]; eauto.
    + induction s as [|c s IHs]; [done |]. destruct (accepts k c); [| done].
      match goal with |- context [match ?m with Some _ => _ | None => _ end] =>
        destruct m eqn:E end; [intros [= <-]; eauto | eauto].
    + induction s as [|c s IHs]; [done |]. destruct (accepts k c); [| done].
      destruct (matchHere (r ++ rest) s o cap) eqn:E; [intros [= <-]; eauto | eauto].
Qed.

(** A pattern with one group whose body consumes something never
    captures the empty string. *)
Lemma capture_nonempty pre body post :
  plain pre = true → plain body = true → plain post = true → (0 < width body)%nat →
  ∀ s x, exec (pre ++ Open :: body ++ Close :: post) s = Some x → x ≠ EmptyString.
Proof.
  intros Ppre Pbody Ppost W s x.
  assert (K : ∀ t o cap, matchHere (pre ++ Open :: body ++ Close :: post) t o cap = Some x →
              x ≠ EmptyString).
  { intros t o cap H. apply plain_prefix in H; [| done]. destruct H as (s1 & H).
    simpl in H. apply group_consumes in H; [| done | done].
    destruct H as (s' & L & ->).
    destruct s1 as [|c s1]; [simpl in L; lia |].
    replace (String.length (String c s1) - String.length s')%nat
      with (S (String.length s1 - String.length s'))%nat by (simpl in *; lia).
    simpl. done. }
  induction s as [|c s IHs]; simpl.
  - destruct (matchHere _ _ _ _) eqn:E; [intros [= <-]; eauto | done].
  - destruct (matchHere _ (String c s) _ _) eqn:E; [intros [= <-]; eauto | eauto].
Qed.

End RegexFacts.

Lemma extracted_nonempty (config v : string) :
  Xcode.extractXcodeVersion config = Some v → v ≠ EmptyString.
Proof.
  unfold Xcode.extractXcodeVersion.
  destruct (Regex.exec Xcode.legacyPattern config) as [x|] eqn:E.
  - intros [= <-]. revert E.
    apply (RegexFacts.capture_nonempty
             (Regex.lit "xcode: " ++ [Regex.Opt (Regex.Lit "034")])
             [Regex.Many Regex.Digit; Regex.One Regex.Dot; Regex.Many Regex.Digit;
              Regex.One Regex.Dot; Regex.Few Regex.Digit]
             [Regex.Opt (Regex.Lit "034")]); try reflexivity. simpl. lia.
  - apply (RegexFacts.capture_nonempty
             (Regex.lit ("description: " +:+ dq +:+ "xcode version" +:+ dq +:+ nl)
                ++ [Regex.Many Regex.Any] ++ Regex.lit "default: ")
             [Regex.Many Regex.Digit; Regex.One Regex.Dot; Regex.Many Regex.Digit;
              Regex.One Regex.Dot; Regex.Few Regex.Digit]
             [Regex.One (Regex.Lit "010")]); try reflexivity. simpl. lia.
Qed.

(** ** The version resolver (lines 307-397 of [xcode.js]) *)

Lemma probe_spec (p : path) (w : World) :
  Xcode.probe p w =
    (match stat (fs w) p with
     | None => Ok None
     | Some (File c) => Ok (Xcode.extractXcodeVersion c)
     | Some _ => Throw "EISDIR"
     end, w).
Proof.
  unfold Xcode.probe, bind, Fs.existsSync, Fs.readFileSync, ret.
  destruct (stat (fs w) p) as [[c| |t]|] eqn:E; simpl; rewrite ?E; done.
Qed.

Lemma wins_nonempty (m : FS) (ps : list path) (v : string) :
  wins m ps v → v ≠ EmptyString.
Proof. induction 1; eauto using extracted_nonempty. Qed.

Lemma scan_wins (root : path) (w : World) (v : string) :
  wins (fs w) (sources root) v → Xcode.scan root w = (Ok (Some v), w).
Proof.
  intros W. pose proof (wins_nonempty _ _ _ W) as N.
  destruct v as [|a v]; [done | clear N].
  unfold Xcode.scan, bind, sources in *.
  inversion W as [p ps c v' S1 X1 | p ps v' S1 W1 | p ps c v' S1 X1 W1]; subst;
    rewrite probe_spec, S1, ?X1; simpl; [done | |].
  - inversion W1 as [p ps c v' S2 X2 | p ps v' S2 W2 | p ps c v' S2 X2 W2]; subst;
      rewrite probe_spec, S2, ?X2; simpl; [done | |].
    + inversion W2 as [p ps c v' S3 X3 | p ps v' S3 W3 | p ps c v' S3 X3 W3]; subst;
        rewrite probe_spec, S3, ?X3; simpl; [done | inversion W3 | inversion W3].
    + inversion W2 as [p ps c' v' S3 X3 | p ps v' S3 W3 | p ps c' v' S3 X3 W3]; subst;
        rewrite probe_spec, S3, ?X3; simpl; [done | inversion W3 | inversion W3].
  - inversion W1 as [p ps c' v' S2 X2 | p ps v' S2 W2 | p ps c' v' S2 X2 W2]; subst;
      rewrite probe_spec, S2, ?X2; simpl; [done | |].
    + inversion W2 as [p ps c' v' S3 X3 | p ps v' S3 W3 | p ps c' v' S3 X3 W3]; subst;
        rewrite probe_spec, S3, ?X3; simpl; [done | inversion W3 | inversion W3].
    + inversion W2 as [p ps c'' v' S3 X3 | p ps v' S3 W3 | p ps c'' v' S3 X3 W3]; subst;
        rewrite probe_spec, S3, ?X3; simpl; [done | inversion W3 | inversion W3].
Qed.

Lemma fallback_value : Xcode.fallbackXcode = Some "14.3.0".
Proof. vm_compute. reflexivity. Qed.

Lemma third_wins version :
  Xcode.extractXcodeVersion
    ("  xcode:" +:+ nl +:+ "    description: " +:+ dq +:+ "xcode version" +:+ dq +:+ nl
       +:+ "    type: string" +:+ nl +:+ "    default: " +:+ version +:+ nl) = Some version →
  wins (DemoXcode.checkout version) (sources Demo.checkout) version.
Proof.
  intros X. apply wins_absent; [reflexivity |].
  eapply wins_nomatch; [reflexivity | reflexivity |].
  eapply wins_here; [reflexivity | exact X].
Qed.

(** The third candidate is the first that exists and matches; it asks
    for Xcode 15.0.0, which the table does not know, and the resolver
    answers 14.3.0. *)
Lemma unknown_version_not_returned :
  ¬ returns_first_match DemoXcode.mac (mkWorld (DemoXcode.checkout "15.0.0") []).
Proof.
  intros H.
  specialize (H Demo.config "15.0.0" eq_refl (third_wins "15.0.0" eq_refl)).
  vm_compute in H. discriminate H.
Qed.

(** C7, as the code has it: the resolver returns the version extracted
    from the first candidate file that exists and matches, whatever the
    later candidates hold, provided the known-version table has that
    version as a key and, on macOS 13, the version starts with 14.  Where
    either proviso fails the fallback takes over.  The run only adds the
    [sw_vers] probe to the trace. *)
Theorem first_match_returned (h : Host) (config : Config) (w : World) (osv v : string) :
  evmCurrent h = Some config →
  execSync h swVers (fs w) = Some osv →
  wins (fs w) (sources (root config)) v →
  is_Some (Xcode.known v) →
  (JS.startsWith osv "13" = true → JS.startsWith v "14" = true) →
  Xcode.expectedXcodeVersion h w
    = (Ok v, mkWorld (fs w) (out w ++ [Spawned swVers [] None (fs w)])%list).
Proof.
  intros Hc Hos W K V.
  pose proof (wins_nonempty _ _ _ W) as N.
  unfold Xcode.expectedXcodeVersion. rewrite Hc. unfold bind.
  rewrite (scan_wins _ _ _ W). unfold exec_sync. fold swVers. rewrite Hos.
  destruct v as [|a v]; [done |].
  destruct (JS.startsWith osv "13") eqn:E13; simpl.
  - rewrite (V eq_refl). simpl. rewrite bool_decide_eq_true_2 by done. done.
  - rewrite bool_decide_eq_true_2 by done. done.
Qed.

(** The scenario of the specification: the first candidate is absent,
    the second names no version, the third asks for 13.3.0. *)
Lemma first_match_returned_witness :
  (Xcode.expectedXcodeVersion DemoXcode.mac (mkWorld (DemoXcode.checkout "13.3.0") [])).1
    = Ok "13.3.0".
Proof.
  rewrite (first_match_returned DemoXcode.mac Demo.config
             (mkWorld (DemoXcode.checkout "13.3.0") []) "12.6.3" "13.3.0").
  - reflexivity.
  - reflexivity.
  - reflexivity.
  - apply third_wins. reflexivity.
  - vm_compute. eauto.
  - vm_compute. intros H. discriminate H.
Defined.




(** ** Download and digest check
    (lines 88-113 of [goma.js], lines 439-460 of [xcode.js]) *)


Lemma trace_of_app {A} (m : M A) (w : World) (evs : list event) :
  out (m w).2 = (out w ++ evs)%list → trace_of m w = evs.
Proof. intros E. unfold trace_of. rewrite E. apply drop_app_length. Qed.











(** ** Effects of composed computations: rules *)

Section Effects.

Variable P : event → Prop.

Lemma emits_silent {A} (m : M A) : (∀ w, out (m w).2 = out w) → emits P m.
Proof. intros H w. exists []. rewrite app_nil_r. by split. Qed.

Lemma emits_one {A} (m : M A) (e : event) :
  P e → (∀ w, out (m w).2 = out w ∨ out (m w).2 = (out w ++ [e])%list) → emits P m.
Proof.
  intros Pe H w. destruct (H w) as [E | E]; rewrite E.
  - exists []. rewrite app_nil_r. by split.
  - exists [e]. split; [done | by constructor].
Qed.

Lemma emits_ret {A} (a : A) : emits P (ret a).
Proof. by apply emits_silent. Qed.

Lemma emits_throw {A} (err : string) : emits P (@throw A err).
Proof. by apply emits_silent. Qed.

Lemma emits_exit {A} (code : Z) : emits P (@process_exit A code).
Proof. by apply emits_silent. Qed.

Lemma emits_bind {A B} (m : M A) (k : A → M B) :
  emits P m → (∀ a, emits P (k a)) → emits P (bind m k).
Proof.
  intros Hm Hk w. unfold bind. destruct (Hm w) as (e1 & E1 & F1).
  destruct (m w) as [[a|c|err] w1]; simpl in E1.
  - destruct (Hk a w1) as (e2 & E2 & F2). exists (e1 ++ e2)%list.
    rewrite E2, E1, app_assoc. split; [done | by apply Forall_app].
  - by exists e1.
  - by exists e1.
Qed.

Lemma emits_when (c : bool) (m : M unit) : emits P m → emits P (when c m).
Proof. intros H. destruct c; [done | apply emits_ret]. Qed.

Lemma emits_emit (e : event) : P e → emits P (emit e).
Proof. intros Pe. apply (emits_one _ e Pe). intros w. by right. Qed.

Lemma emits_existsSync (p : path) : emits P (Fs.existsSync p).
Proof. by apply emits_silent. Qed.

Lemma emits_readFileSync (p : path) : emits P (Fs.readFileSync p).
Proof.
  apply emits_silent. intros w. unfold Fs.readFileSync.
  by destruct (stat (fs w) p) as [[?| |?]|].
Qed.

Lemma emits_writeFileSync (p : path) (s : string) :
  P (Wrote p s) → emits P (Fs.writeFileSync p s).
Proof.
  intros Pe. apply (emits_one _ _ Pe). intros w. unfold Fs.writeFileSync.
  destruct (fs w !! Fs.landing (fs w) p) as [[?| |?]|];
    try destruct (isDir _ _); simpl; auto.
Qed.

Lemma emits_mkdirSync (p : path) : P (MadeDir p) → emits P (Fs.mkdirSync p).
Proof.
  intros Pe. apply (emits_one _ _ Pe). intros w. unfold Fs.mkdirSync.
  destruct (fs w !! p); try destruct (isDir _ _); simpl; auto.
Qed.

Lemma emits_rimraf (p : path) : P (Removed p) → emits P (rimraf_sync p).
Proof. intros Pe. apply (emits_one _ _ Pe). intros w. by right. Qed.

Lemma emits_depot (h : Host) (cmd : string) (args : list string) (cwd : option path) :
  (∀ pre, P (DepotExec cmd args cwd pre)) → emits P (depot_execFileSync h cmd args cwd).
Proof.
  intros Pe w. exists [DepotExec cmd args cwd (fs w)]. unfold depot_execFileSync.
  destruct (depotExecFileSync h cmd args cwd (fs w)) as [[err|] m]; simpl;
    (split; [done | by constructor]).
Qed.

Lemma emits_spawn (h : Host) (cmd : string) (args : list string) (cwd : option path) :
  (∀ pre, P (Spawned cmd args cwd pre)) → emits P (spawn h cmd args cwd).
Proof.
  intros Pe w. exists [Spawned cmd args cwd (fs w)]. unfold spawn.
  destruct (spawnSync h cmd args cwd (fs w)) as [r m]; simpl.
  split; [done | by constructor].
Qed.

Lemma emits_unzip (h : Host) (a d : path) :
  (∀ pre, P (Unzipped a d pre)) → emits P (unzip_sync h a d).
Proof.
  intros Pe w. exists [Unzipped a d (fs w)]. unfold unzip_sync.
  destruct (unzipSync h a d (fs w)) as [[err|] m]; simpl;
    (split; [done | by constructor]).
Qed.

Lemma emits_renameSync (a b : path) : P (Renamed a b) → emits P (Fs.renameSync a b).
Proof.
  intros Pe. apply (emits_one _ _ Pe). intros w. unfold Fs.renameSync.
  destruct (fs w !! a) as [[c| |t]|]; [| | | by left];
    destruct (fs w !! b) as [[c'| |t']|]; try destruct (hasChildren _ _); simpl; auto.
Qed.

Lemma emits_unlinkSync (p : path) : P (Unlinked p) → emits P (Fs.unlinkSync p).
Proof.
  intros Pe. apply (emits_one _ _ Pe). intros w. unfold Fs.unlinkSync.
  destruct (fs w !! p) as [[c| |t]|]; simpl; auto.
Qed.

Lemma emits_symlinkSync (target p : path) :
  P (Symlinked target p) → emits P (Fs.symlinkSync target p).
Proof.
  intros Pe. apply (emits_one _ _ Pe). intros w. unfold Fs.symlinkSync.
  destruct (fs w !! p); simpl; auto.
Qed.

Lemma emits_statSync (p : path) : emits P (Fs.statSync p).
Proof.
  apply emits_silent. intros w. unfold Fs.statSync. by destruct (stat (fs w) p).
Qed.

Lemma reaches_tail {A} (tail : M A) : reaches P tail tail.
Proof. intros w. right. exists w, []. rewrite app_nil_r. by repeat split. Qed.

Lemma reaches_emits {A} (m tail : M A) : emits P m → reaches P m tail.
Proof. intros H w. left. apply H. Qed.

Lemma reaches_bind {A B} (m : M A) (k : A → M B) (tail : M B) :
  emits P m → (∀ a, reaches P (k a) tail) → reaches P (bind m k) tail.
Proof.
  intros Hm Hk w. unfold bind. destruct (Hm w) as (e1 & E1 & F1).
  destruct (m w) as [[a|c|err] w1]; simpl in E1.
  - destruct (Hk a w1) as [(e2 & E2 & F2) | (w0 & e2 & E2 & F2 & R)].
    + left. exists (e1 ++ e2)%list. rewrite E2, E1, app_assoc.
      split; [done | by apply Forall_app].
    + right. exists w0, (e1 ++ e2)%list. rewrite E2, E1, app_assoc.
      split; [done |]. split; [by apply Forall_app | done].
  - left. by exists e1.
  - left. by exists e1.
Qed.

End Effects.

(** Walks through a computation and leaves the obligations on its
    events. *)
Ltac effects :=
  repeat first
    [ apply emits_when | apply emits_existsSync | apply emits_readFileSync
    | apply emits_writeFileSync | apply emits_mkdirSync | apply emits_rimraf
    | apply emits_renameSync | apply emits_unlinkSync | apply emits_symlinkSync
    | apply emits_statSync
    | apply emits_depot; intros ? | apply emits_spawn; intros ?
    | apply emits_unzip; intros ? | apply emits_emit
    | apply emits_ret | apply emits_throw | apply emits_exit
    | apply emits_bind; [| intros ?]
    | match goal with
      | |- emits _ (if ?b then _ else _) => destruct b
      | |- emits _ (match ?x with _ => _ end) => destruct x
      end
    | progress unfold console_log, console_warn, console_error, fatal, Goma.shaFileIsCurrent ];
  try (intros; simpl; done).

(** ** The accelerator pipeline as a whole (lines 45-129 of [goma.js]) *)

(** A run either ends before the clean-up, with preliminary effects
    only, or reaches the clean-up and continues as [refresh]. *)
Lemma downloadAndPrepareGoma_cases (h : Host) (config : option Config) (w : World) :
  (∃ evs, out (Goma.downloadAndPrepareGoma h config w).2 = (out w ++ evs)%list
          ∧ Forall (preliminary h) evs)
  ∨ (∃ sha filename w0 evs,
       Goma.expectedSha h config = Some sha
       ∧ Goma.filenames !! Goma.gomaPlatform h = Some filename
       ∧ out w0 = (out w ++ evs)%list
       ∧ Forall (preliminary h) evs
       ∧ Goma.downloadAndPrepareGoma h config w = refresh h sha filename w0).
Proof.
  assert (Q : ∀ A (m : M A), emits (preliminary h) m →
                ∃ evs, out (m w).2 = (out w ++ evs)%list ∧ Forall (preliminary h) evs)
    by (intros A m H; apply H).
  unfold Goma.downloadAndPrepareGoma.
  destruct (Goma.isSupportedPlatform h); cbn [negb]; [| left; apply Q; effects].
  destruct (Goma.expectedSha h config) as [sha|] eqn:Esha.
  2:{ left. apply Q. effects. }
  destruct (Goma.filenames !! Goma.gomaPlatform h) as [filename|] eqn:Efile.
  2:{ left. apply Q. effects. }
  assert (R : reaches (preliminary h)
    (do e <- Fs.existsSync (parent (Goma.gomaDir h));
      run when (negb e) (Fs.mkdirSync (parent (Goma.gomaDir h)));
      do e <- Fs.existsSync (Goma.gomaGnFile h);
      do same <- (if e then do c <- Fs.readFileSync (Goma.gomaGnFile h); ret (String.eqb c (Goma.gomaGnContents h))
                  else ret false);
      run when (negb same)
            (run console_log ["Writing new goma.gn file " +:+ color_path h (pathStr (Goma.gomaGnFile h))];
             Fs.writeFileSync (Goma.gomaGnFile h) (Goma.gomaGnContents h));
          do current <- Goma.shaFileIsCurrent h sha;
          if current then ret (Some sha) else
          do e <- Fs.existsSync (Goma.gomaDir h ++ ["goma_ctl.py"])%list;
          run when e (depot_execFileSync h "python3" ["goma_ctl.py"; "stop"] (Some (Goma.gomaDir h)));
          (* Clean Up *)
          run rimraf_sync (Goma.gomaDir h);
          run rimraf_sync (Goma.tmpDownload h filename);
          run Goma.fetch h sha filename;
          run Goma.extract h filename;
          run Fs.writeFileSync (Goma.gomaShaFile h) sha;
          ret (Some sha))
     (refresh h sha filename)).
  { apply reaches_bind; [effects | intros e1].
    apply reaches_bind; [effects | intros _].
    apply reaches_bind; [effects | intros e2].
    apply reaches_bind; [effects | intros same].
    apply reaches_bind; [effects | intros _].
    apply reaches_bind; [effects | intros current].
    destruct current; [apply reaches_emits; effects |].
    apply reaches_bind; [effects | intros e3].
    apply reaches_bind; [effects | intros _].
    apply reaches_tail. }
  destruct (R w) as [? | (w0 & evs & ? & ? & ?)]; [by left |].
  right. by exists sha, filename, w0, evs.
Qed.

(** The term whose value decides how [t] computes further. *)
Ltac stuck t :=
  lazymatch t with
  | match ?x with _ => _ end => stuck x
  | ?f ?a =>
      let r := stuck f in
      lazymatch r with
      | f => t
      | _ => r
      end
  | _ => t
  end.

(** One step of a run [H : m w = (r, w')] whose computation has been
    unfolded: case analysis on what the next step depends on. *)
Ltac exec_step H :=
  lazymatch type of H with
  | (_, _) = (_, _) => fail
  | ?lhs = _ =>
      let s := stuck lhs in
      destruct s eqn:?; cbn beta iota zeta delta [fs out fst snd negb] in H
  end.

(** Splits [e ∈ [e1; ...; en]] into its cases and drops the impossible
    ones. *)
Ltac in_trace H :=
  repeat (apply elem_of_cons in H as [H | H]; [try discriminate H |]);
  try (apply elem_of_nil in H; destruct H).

Lemma writeFileSync_cases (p : path) (s : string) (w : World) (r : outcome unit) (w' : World) :
  Fs.writeFileSync p s w = (r, w') →
  (r = Ok tt ∧ out w' = (out w ++ [Wrote p s])%list ∧ stat (fs w') p = Some (File s))
  ∨ ((∃ err, r = Throw err) ∧ w' = w).
Proof.
  unfold Fs.writeFileSync, Fs.landing, stat. intros H.
  destruct (fs w !! p) as [[c| |t]|] eqn:E; rewrite ?E in H.
  - destruct (isDir _ _); injection H as <- <-; [left | right; eauto].
    simpl. by rewrite lookup_insert_eq.
  - injection H as <- <-. right. eauto.
  - destruct (fs w !! t) as [[c| |t']|] eqn:E';
      try (injection H as <- <-; right; by eauto);
      (destruct (isDir _ _); injection H as <- <-; [left | right; by eauto]); simpl;
      (assert (t ≠ p) by (intros ->; congruence));
      rewrite lookup_insert_ne, E by done; by rewrite lookup_insert_eq.
  - destruct (isDir _ _); injection H as <- <-; [left | right; eauto].
    simpl. by rewrite lookup_insert_eq.
Qed.

Lemma nonzero_false (st : option Z) : nonzero st = false → st = Some 0.
Proof. unfold nonzero. intros H. apply negb_false_iff in H. by apply bool_decide_eq_true in H. Qed.

(** A run of [refresh] writes the marker at most once, as its last
    effect, after a download with exit status 0, a matching digest and a
    successful extraction. *)
Lemma refresh_marker (h : Host) (sha filename : string) (w0 : World)
    (r : outcome (option string)) (w' : World) :
  refresh h sha filename w0 = (r, w') →
  ∃ tr, out w' = (out w0 ++ tr)%list ∧
  ∀ s, Wrote (Goma.gomaShaFile h) s ∈ tr →
     ∃ tr0, tr = (tr0 ++ [Wrote (Goma.gomaShaFile h) s])%list
       ∧ (∀ s', Wrote (Goma.gomaShaFile h) s' ∉ tr0)
       ∧ r = Ok (Some s) ∧ s = sha
       ∧ stat (fs w') (Goma.gomaShaFile h) = Some (File s)
       ∧ (∀ cmd args cwd pre, Spawned cmd args cwd pre ∈ tr →
            status (spawnSync h cmd args cwd pre).1 = Some 0)
       ∧ (∀ a d pre, Unzipped a d pre ∈ tr → (unzipSync h a d pre).1 = None)
       ∧ (∀ cmd args pre, Spawned cmd args None pre ∈ tr →
            ∃ data, stat (spawnSync h cmd args None pre).2 (Goma.tmpDownload h filename)
                      = Some (File data)
                    ∧ JS.hex (sha256 h data) = s).
Proof.
  intros H.
  unfold refresh, Goma.fetch, Goma.extract, fatal, when, console_log, console_error,
    process_exit, bind, rimraf_sync, emit, spawn, exit, ret, unzip_sync, Fs.readFileSync in H.
  cbn beta iota zeta delta [fs out fst snd negb] in H.
  repeat exec_step H.
  all: try match goal with
       | Hw : Fs.writeFileSync _ _ _ = _ |- _ =>
           apply writeFileSync_cases in Hw as [(? & Hw & ?) | ((? & ?) & ?)];
           try discriminate; subst;
           cbn beta iota zeta delta [fs out fst snd negb] in *
       end.
  all: injection H as <- <-; cbn [fs out];
    try match goal with Ho : out _ = _ |- _ => rewrite Ho end; rewrite <- ?app_assoc;
    eexists; (split; [reflexivity |]); intros written I; simpl in I; in_trace I.
  all: injection I as ->; eexists [_; _; _; _; _; _]; simpl.
  all: split; [reflexivity |].
  all: split; [intros s' J; in_trace J |].
  all: split; [done |]. 
  all: split; [done |].
  all: split; [done |].
  all: split; [intros cmd args cwd pre J; in_trace J; injection J as -> -> -> ->;
               match goal with Hs : spawnSync ?h0 ?c ?a ?d ?m = _ |- context [spawnSync ?h0 ?c ?a ?d ?m] =>
                 rewrite Hs end; simpl; by apply nonzero_false |].
  all: split; [intros z d pre J; in_trace J; try (injection J as -> -> ->;
               match goal with Hs : unzipSync ?h0 ?c ?a ?d = _ |- context [unzipSync ?h0 ?c ?a ?d] =>
                 rewrite Hs end; done) |].
  all: intros cmd args pre J; in_trace J; injection J as -> -> ->;
               match goal with Hs : spawnSync ?h0 ?c ?a ?d ?m = _ |- context [spawnSync ?h0 ?c ?a ?d ?m] =>
                 rewrite Hs end; simpl; eexists; split; [eassumption |];
               match goal with Hq : negb (String.eqb _ _) = false |- _ =>
                 apply negb_false_iff, String.eqb_eq in Hq; exact Hq end.
Qed.

(** The effects of a run of [refresh] that writes the marker, in order:
    the install directory and the archive are removed, the download runs
    and exits with status 0, the file it leaves has the expected digest,
    the extraction runs and succeeds, the archive is removed, the marker
    is written. *)
Lemma refresh_written (h : Host) (sha filename : string) (w0 : World)
    (r : outcome (option string)) (w' : World) :
  refresh h sha filename w0 = (r, w') →
  ∃ tr, out w' = (out w0 ++ tr)%list ∧
  ∀ s, Wrote (Goma.gomaShaFile h) s ∈ tr →
    let tmp := Goma.tmpDownload h filename in
    let download := [pathStr (Goma.downloadJs h);
                     Goma.gomaBaseURL +:+ "/" +:+ s +:+ "/" +:+ filename; pathStr tmp] in
    let pre := removeTree tmp (removeTree (Goma.gomaDir h) (fs w0)) in
    let got := spawnSync h (execPath h) download None pre in
    ∃ msg extraction data,
      tr = [Removed (Goma.gomaDir h); Removed tmp; Console Log msg;
            Spawned (execPath h) download None pre; extraction; Removed tmp;
            Wrote (Goma.gomaShaFile h) s]
      ∧ status got.1 = Some 0
      ∧ stat got.2 tmp = Some (File data)
      ∧ JS.hex (sha256 h data) = s
      ∧ (if JS.endsWith filename ".tgz"
         then extraction = Spawned "tar" ["zxvf"; filename] (Some (parent tmp)) got.2
              ∧ status (spawnSync h "tar" ["zxvf"; filename] (Some (parent tmp)) got.2).1
                = Some 0
         else extraction = Unzipped tmp (parent tmp) got.2
              ∧ (unzipSync h tmp (parent tmp) got.2).1 = None).
Proof.
  intros H.
  unfold refresh, Goma.fetch, Goma.extract, fatal, when, console_log, console_error,
    process_exit, bind, rimraf_sync, emit, spawn, exit, ret, unzip_sync, Fs.readFileSync in H.
  cbn beta iota zeta delta [fs out fst snd negb] in H.
  repeat exec_step H.
  all: try match goal with
       | Hw : Fs.writeFileSync _ _ _ = _ |- _ =>
           apply writeFileSync_cases in Hw as [(? & Hw & ?) | ((? & ?) & ?)];
           try discriminate; subst;
           cbn beta iota zeta delta [fs out fst snd negb] in *
       end.
  all: injection H as <- <-; cbn [fs out];
    try match goal with Ho : out _ = _ |- _ => rewrite Ho end; rewrite <- ?app_assoc;
    eexists; (split; [reflexivity |]); intros written I; simpl in I; in_trace I.
  all: injection I as ->.
  all: cbn zeta.
  all: repeat match goal with Hs : spawnSync ?h0 ?c ?a ?d ?m = _ |- context [spawnSync ?h0 ?c ?a ?d ?m] =>
                 rewrite Hs; cbn [fst snd] end.
  all: repeat match goal with Hs : unzipSync ?h0 ?c ?a ?d = _ |- context [unzipSync ?h0 ?c ?a ?d] =>
                 rewrite Hs; cbn [fst snd] end.
  all: cbn beta iota.
  all: eexists _, _, _.
  all: split; [reflexivity |].
  all: split; [by apply nonzero_false |].
  all: split; [eassumption |].
  all: split; [match goal with Hq : negb (String.eqb _ _) = false |- _ =>
                 apply negb_false_iff, String.eqb_eq in Hq; exact Hq end |].
  all: split; [reflexivity |]; first [by apply nonzero_false | done].
Qed.

Lemma filename_not_goma (h : Host) (filename : string) :
  Goma.filenames !! Goma.gomaPlatform h = Some filename → filename ≠ "goma".
Proof.
  unfold Goma.filenames. intros L. apply elem_of_list_to_map_2 in L.
  repeat (apply elem_of_cons in L as [L | L]; [injection L as _ ->; discriminate |]).
  by apply elem_of_nil in L.
Qed.

Lemma tmp_not_above_install (h : Host) (filename : string) (q : path) :
  filename ≠ "goma" → Goma.gomaDir h `prefix_of` q →
  ¬ Goma.tmpDownload h filename `prefix_of` q.
Proof.
  unfold Goma.gomaDir, Goma.tmpDownload, Goma.thirdParty.
  intros N [k1 ->] [k2 E]. rewrite <- !app_assoc in E.
  apply app_inv_head in E. simpl in E. congruence.
Qed.

(** When [refresh] starts the download nothing is left of the install
    directory, and when download or digest check fail, what is below the
    install directory afterwards is what the download process put
    there. *)
Lemma refresh_clean (h : Host) (sha filename : string) (w0 : World)
    (r : outcome (option string)) (w' : World) :
  filename ≠ "goma" →
  refresh h sha filename w0 = (r, w') →
  ∃ tr, out w' = (out w0 ++ tr)%list ∧
  ∀ cmd args pre, Spawned cmd args None pre ∈ tr →
    gone (Goma.gomaDir h) pre
    ∧ ((status (spawnSync h cmd args None pre).1 ≠ Some 0
        ∨ (∀ data, stat (spawnSync h cmd args None pre).2 (Goma.tmpDownload h filename)
                     = Some (File data) →
                   JS.hex (sha256 h data) ≠ sha)) →
       (∀ a, r ≠ Ok a)
       ∧ ∀ q, Goma.gomaDir h `prefix_of` q →
              fs w' !! q = (spawnSync h cmd args None pre).2 !! q).
Proof.
  intros N H.
  unfold refresh, Goma.fetch, Goma.extract, fatal, when, console_log, console_error,
    process_exit, bind, rimraf_sync, emit, spawn, exit, ret, unzip_sync, Fs.readFileSync in H.
  cbn beta iota zeta delta [fs out fst snd negb] in H.
  repeat exec_step H.
  all: try match goal with
       | Hw : Fs.writeFileSync _ _ _ = _ |- _ =>
           apply writeFileSync_cases in Hw as [(? & Hw & ?) | ((? & ?) & ?)];
           try discriminate; subst;
           cbn beta iota zeta delta [fs out fst snd negb] in *
       end.
  all: injection H as <- <-; cbn [fs out];
    try match goal with Ho : out _ = _ |- _ => rewrite Ho end; rewrite <- ?app_assoc;
    eexists; (split; [reflexivity |]); intros cmd args pre I; simpl in I; in_trace I;
    injection I as -> -> ->;
    (split; [apply removeTree_keeps_gone, removeTree_gone |]);
    match goal with Hs : spawnSync ?h0 ?c ?a ?d ?m = _ |- context [spawnSync ?h0 ?c ?a ?d ?m] =>
      rewrite Hs end; cbn [fst snd].
  all: intros [F | F];
    try (match goal with Hz : nonzero _ = false |- _ =>
           apply nonzero_false in Hz; congruence end);
    try (match goal with
         | Hq : negb (String.eqb _ _) = false, Hf : stat _ _ = Some (File _) |- _ =>
             apply negb_false_iff, String.eqb_eq in Hq; by destruct (F _ Hf)
         end).
  all: (split; [done |]); intros q Hq;
    rewrite ?removeTree_lookup_other by (by apply tmp_not_above_install); done.
Qed.

Lemma marker_not_gn (h : Host) : Goma.gomaShaFile h ≠ Goma.gomaGnFile h.
Proof.
  unfold Goma.gomaShaFile, Goma.gomaGnFile. intros E.
  apply app_inv_head in E. discriminate E.
Qed.

(** C5: in every run of [downloadAndPrepareGoma] the install marker is
    written at most once and only as the last effect of a run that
    returns the digest.  When it is written, the effects before it end
    with, in this order: the removal of the install directory and of the
    archive, the download, which exited with status 0 and left at the
    archive's path a file with the expected digest, the extraction ([tar]
    with exit status 0 for a [.tgz], [unzipSync] without an exception
    otherwise) in the file system the download left, and the removal of
    the archive; only console output, the [third_party] directory,
    [goma.gn] and the stopping of a running client come before these.
    Every child process of the run exited with status 0 and the marker
    then holds exactly the digest.  So a run whose download, digest check
    or extraction fails or does not take place never writes the
    marker. *)
Theorem marker_written_last (h : Host) (config : option Config) (w : World) (s : string) :
  let res := Goma.downloadAndPrepareGoma h config w in
  let tr := trace_of (Goma.downloadAndPrepareGoma h config) w in
  Wrote (Goma.gomaShaFile h) s ∈ tr →
  ∃ tr0 filename,
    tr = (tr0 ++ [Wrote (Goma.gomaShaFile h) s])%list
    ∧ (∀ s', Wrote (Goma.gomaShaFile h) s' ∉ tr0)
    ∧ res.1 = Ok (Some s)
    ∧ Goma.expectedSha h config = Some s
    ∧ Goma.filenames !! Goma.gomaPlatform h = Some filename
    ∧ stat (fs res.2) (Goma.gomaShaFile h) = Some (File s)
    ∧ (∀ cmd args cwd pre, Spawned cmd args cwd pre ∈ tr →
         status (spawnSync h cmd args cwd pre).1 = Some 0)
    ∧ (∀ a d pre, Unzipped a d pre ∈ tr → (unzipSync h a d pre).1 = None)
    ∧ (∀ cmd args pre, Spawned cmd args None pre ∈ tr →
         ∃ data, stat (spawnSync h cmd args None pre).2 (Goma.tmpDownload h filename)
                   = Some (File data)
                 ∧ JS.hex (sha256 h data) = s)
    ∧ (let tmp := Goma.tmpDownload h filename in
       let download := [pathStr (Goma.downloadJs h);
                        Goma.gomaBaseURL +:+ "/" +:+ s +:+ "/" +:+ filename;
                        pathStr tmp] in
       ∃ before msg pre extraction data,
         let got := spawnSync h (execPath h) download None pre in
         tr0 = (before ++ [Removed (Goma.gomaDir h); Removed tmp; Console Log msg;
                           Spawned (execPath h) download None pre;
                           extraction; Removed tmp])%list
         ∧ Forall (preliminary h) before
         ∧ status got.1 = Some 0
         ∧ stat got.2 tmp = Some (File data)
         ∧ JS.hex (sha256 h data) = s
         ∧ (if JS.endsWith filename ".tgz"
            then extraction = Spawned "tar" ["zxvf"; filename] (Some (parent tmp)) got.2
                 ∧ status (spawnSync h "tar" ["zxvf"; filename] (Some (parent tmp)) got.2).1
                   = Some 0
            else extraction = Unzipped tmp (parent tmp) got.2
                 ∧ (unzipSync h tmp (parent tmp) got.2).1 = None)).
Proof.
  intros res tr I.
  destruct (downloadAndPrepareGoma_cases h config w)
    as [(evs & E & F) | (sha & filename & w0 & evs & Hsha & Hfile & E0 & F & R)].
  - exfalso. rewrite Forall_forall in F. subst tr. rewrite (trace_of_app _ _ _ E) in I.
    apply F in I. by apply marker_not_gn in I.
  - pose proof F as F'. rewrite Forall_forall in F.
    destruct (refresh h sha filename w0) as [r w'] eqn:Rr.
    destruct (refresh_marker _ _ _ _ _ _ Rr) as (tr' & E' & L).
    destruct (refresh_written _ _ _ _ _ _ Rr) as (tr'' & E'' & W).
    assert (tr'' = tr') as -> by (apply (app_inv_head (out w0)); congruence).
    assert (T : tr = (evs ++ tr')%list).
    { apply trace_of_app. rewrite R. simpl. by rewrite E', E0, app_assoc. }
    assert (Q : ∀ e, e ∈ tr → (∀ p c, e ≠ Wrote p c) → (∀ a b, e ≠ Console a b) →
                (∀ p, e ≠ MadeDir p) → (∀ a b c d, e ≠ DepotExec a b c d) → e ∈ tr').
    { intros e Ie. rewrite T in Ie. apply elem_of_app in Ie as [Ie | Ie]; [| done].
      apply F in Ie. intros H1 H2 H3 H4.
      destruct e; cbn in Ie; try (exfalso; exact Ie); exfalso;
        first [eapply H1; reflexivity | eapply H2; reflexivity
              | eapply H3; reflexivity | eapply H4; reflexivity]. }
    rewrite T in I. apply elem_of_app in I as [I | I];
      [apply F in I; by apply marker_not_gn in I |].
    destruct (W s I) as (msg & extraction & data & Etr & St & Sf & Sd & Sx).
    destruct (L s I) as (tr0 & Etr0 & N & -> & -> & Sm & Sp & Uz & Dg).
    assert (tr0 = [Removed (Goma.gomaDir h); Removed (Goma.tmpDownload h filename);
                   Console Log msg;
                   Spawned (execPath h)
                     [pathStr (Goma.downloadJs h);
                      Goma.gomaBaseURL +:+ "/" +:+ sha +:+ "/" +:+ filename;
                      pathStr (Goma.tmpDownload h filename)] None
                     (removeTree (Goma.tmpDownload h filename)
                        (removeTree (Goma.gomaDir h) (fs w0)));
                   extraction; Removed (Goma.tmpDownload h filename)]) as Etr1.
    { apply (app_inv_tail [Wrote (Goma.gomaShaFile h) sha]). rewrite <- Etr0, Etr. reflexivity. }
    exists (evs ++ tr0)%list, filename. subst res. rewrite R. simpl.
    split; [by rewrite T, Etr0, app_assoc |].
    split; [intros s' J; apply elem_of_app in J as [J | J];
            [apply F in J; by apply marker_not_gn in J | by apply N in J] |].
    repeat (split; [done |]).
    split; [intros cmd args cwd pre J; apply Sp, Q; done |].
    split; [intros a d pre J; apply Uz, Q; done |].
    split; [intros cmd args pre J; apply Dg, Q; done |].
    exists evs, msg, (removeTree (Goma.tmpDownload h filename)
                        (removeTree (Goma.gomaDir h) (fs w0))), extraction, data.
    split; [by rewrite Etr1 |].
    repeat (split; [done |]). exact Sx.
Qed.

(** A healthy run on Linux over an install with an outdated marker: it
    returns the digest, and its trace ends with the clean-up, the
    download, the [tar] extraction, the removal of the archive and the
    write of the marker. *)
Lemma marker_written_last_witness :
  (Goma.downloadAndPrepareGoma DemoFetch.mirror None
     (mkWorld (Demo.installed "0000") [])).1 = Ok (Some Demo.linuxSha)
  ∧ ∃ before msg url pre post,
      trace_of (Goma.downloadAndPrepareGoma DemoFetch.mirror None)
        (mkWorld (Demo.installed "0000") [])
      = (before ++ [Removed (Goma.gomaDir DemoFetch.mirror);
                    Removed (Goma.tmpDownload DemoFetch.mirror "goma-linux.tgz");
                    Console Log msg;
                    Spawned (execPath DemoFetch.mirror)
                      [pathStr (Goma.downloadJs DemoFetch.mirror); url;
                       pathStr (Goma.tmpDownload DemoFetch.mirror "goma-linux.tgz")]
                      None pre;
                    Spawned "tar" ["zxvf"; "goma-linux.tgz"]
                      (Some (parent (Goma.tmpDownload DemoFetch.mirror "goma-linux.tgz"))) post;
                    Removed (Goma.tmpDownload DemoFetch.mirror "goma-linux.tgz");
                    Wrote (Goma.gomaShaFile DemoFetch.mirror) Demo.linuxSha])%list.
Proof.
  destruct (marker_written_last DemoFetch.mirror None
              (mkWorld (Demo.installed "0000") []) Demo.linuxSha)
    as (tr0 & filename & Etr & _ & E & _ & Hf & _ & _ & _ & _ & X).
  - apply list_elem_of_lookup. exists 8%nat. vm_compute. reflexivity.
  - split; [exact E |].
    change (Some "goma-linux.tgz" = Some filename) in Hf. injection Hf as <-.
    destruct X as (before & msg & pre & extraction & data & Etr0 & _ & _ & _ & _ & Ex & _).
    simpl in Ex. 
    eexists before, msg, _, pre, _.
    rewrite Etr, Etr0, Ex, <- app_assoc. reflexivity.
Defined.

(** C10: whenever [downloadAndPrepareGoma] starts the download, the file
    system the download process starts in holds nothing at or below the
    install directory, the install marker included.  If the download then
    exits with a status other than 0, or the downloaded file does not have
    the expected digest, the run does not return and whatever is at or
    below the install directory afterwards was put there by the download
    process: nothing of the previous install is left. *)
Theorem install_removed_before_download (h : Host) (config : option Config) (w : World)
    (cmd : string) (args : list string) (pre : FS) :
  let res := Goma.downloadAndPrepareGoma h config w in
  let tr := trace_of (Goma.downloadAndPrepareGoma h config) w in
  Spawned cmd args None pre ∈ tr →
  gone (Goma.gomaDir h) pre
  ∧ pre !! Goma.gomaShaFile h = None
  ∧ ∃ sha filename,
      Goma.expectedSha h config = Some sha
      ∧ Goma.filenames !! Goma.gomaPlatform h = Some filename
      ∧ ((status (spawnSync h cmd args None pre).1 ≠ Some 0
          ∨ (∀ data, stat (spawnSync h cmd args None pre).2 (Goma.tmpDownload h filename)
                       = Some (File data) →
                     JS.hex (sha256 h data) ≠ sha)) →
         (∀ a, res.1 ≠ Ok a)
         ∧ ∀ q, Goma.gomaDir h `prefix_of` q →
                fs res.2 !! q = (spawnSync h cmd args None pre).2 !! q).
Proof.
  intros res tr I.
  destruct (downloadAndPrepareGoma_cases h config w)
    as [(evs & E & F) | (sha & filename & w0 & evs & Hsha & Hfile & E0 & F & R)];
    rewrite Forall_forall in F.
  - exfalso. subst tr. rewrite (trace_of_app _ _ _ E) in I. by apply F in I.
  - destruct (refresh h sha filename w0) as [r w'] eqn:Rr.
    destruct (refresh_clean _ _ _ _ _ _ (filename_not_goma _ _ Hfile) Rr) as (tr' & E' & L).
    assert (T : tr = (evs ++ tr')%list).
    { apply trace_of_app. rewrite R. simpl. by rewrite E', E0, app_assoc. }
    rewrite T in I. apply elem_of_app in I as [I | I]; [by apply F in I |].
    destruct (L _ _ _ I) as (G & K).
    split; [done |]. split.
    { apply G. unfold Goma.gomaShaFile, Goma.gomaDir. exists [".sha"].
      by rewrite <- app_assoc. }
    exists sha, filename. subst res. rewrite R. simpl. done.
Qed.

(** A run on Linux whose download arrives damaged. *)
Lemma install_removed_before_download_witness :
  let res := Goma.downloadAndPrepareGoma DemoFetch.damaged None
               (mkWorld (Demo.installed "0000") []) in
  (∀ a, res.1 ≠ Ok a) ∧ fs res.2 !! Goma.gomaShaFile DemoFetch.damaged = None.
Proof.
  intros res.
  destruct (install_removed_before_download DemoFetch.damaged None
              (mkWorld (Demo.installed "0000") []) "node"
              [pathStr (Goma.downloadJs DemoFetch.damaged);
               Goma.gomaBaseURL +:+ "/" +:+ Demo.linuxSha +:+ "/" +:+ "goma-linux.tgz";
               pathStr DemoFetch.archive]
              (removeTree DemoFetch.archive
                 (removeTree (Goma.gomaDir DemoFetch.damaged)
                    (<[Goma.gomaGnFile DemoFetch.damaged :=
                         File (Goma.gomaGnContents DemoFetch.damaged)]>
                       (Demo.installed "0000")))))
    as (G & M & sha & filename & Hs & Hf & K).
  - apply list_elem_of_lookup. exists 5%nat. vm_compute. reflexivity.
  - vm_compute in Hs, Hf. injection Hs as <-. injection Hf as <-.
    destruct K as [Kr Kq].
    + right. intros data St. vm_compute in St. injection St as <-.
      vm_compute. intros E. discriminate E.
    + split; [exact Kr |]. subst res. rewrite Kq.
      * vm_compute. reflexivity.
      * exists [".sha"]. reflexivity.
Defined.

(** ** Extraction
    (lines 115-126 of [goma.js], lines 463-472 of [xcode.js]) *)

(** The accelerator archive is unpacked with [targetDir] itself, which
    exists, as the working directory of [tar]. *)
Lemma goma_extracts_into_targetDir :
  ¬ extracts_into_scratch DemoFetch.mirror "goma-linux.tgz"
      (mkWorld DemoExtract.downloaded []).
Proof.
  intros H.
  specialize (H (Spawned "tar" ["zxvf"; "goma-linux.tgz"]
                   (Some ["opt"; "build-tools"; "third_party"]) DemoExtract.downloaded)).
  destruct H as [H _].
  - apply list_elem_of_lookup. exists 0%nat. vm_compute. reflexivity.
  - apply H. reflexivity.
Qed.

(** C3, as the code has it: the Xcode archive is unpacked by [unzip]
    into the scratch directory [tmp_unzip], which has just been removed
    and so holds nothing when [unzip] starts in it; the accelerator
    archive, zip and gzipped tar alike, is unpacked with no scratch
    directory, directly into [targetDir], the directory that holds the
    archive and the install directory. *)
Theorem extraction_destinations :
  (∀ (h : Host) (eventualVersionedPath : path) (w : World),
     ∃ pre rest,
       trace_of (Xcode.unpack h eventualVersionedPath) w
       = (Console Log ["Extracting " +:+ color_cmd h (pathStr (Xcode.XcodeZip h)) +:+ " into "
                         +:+ color_path h (pathStr eventualVersionedPath)]
          :: Removed (Xcode.unzipPath h)
          :: Spawned "unzip" ["-q"; "-o"; pathStr (Xcode.XcodeZip h); "-d";
                              pathStr (Xcode.unzipPath h)] None pre
          :: rest)
       ∧ gone (Xcode.unzipPath h) pre)
  ∧ (∀ (h : Host) (filename : string) (w : World),
       parent (Goma.tmpDownload h filename) = parent (Goma.gomaDir h)
       ∧ ∃ rest,
           trace_of (Goma.extract h filename) w
           = (if JS.endsWith filename ".tgz"
              then Spawned "tar" ["zxvf"; filename]
                     (Some (parent (Goma.tmpDownload h filename))) (fs w)
              else Unzipped (Goma.tmpDownload h filename)
                     (parent (Goma.tmpDownload h filename)) (fs w))
             :: rest).
Proof.
  split.
  - intros h evp w. exists (removeTree (Xcode.unzipPath h) (fs w)).
    assert (K : emits (λ _, True)
                  (run Fs.renameSync (Xcode.unzipPath h ++ ["Xcode.app"])%list evp;
                   run rimraf_sync (Xcode.XcodeZip h);
                   rimraf_sync (Xcode.unzipPath h))) by effects.
    unfold Xcode.unpack, trace_of.
    unfold bind at 1 2 3. unfold console_log, emit, rimraf_sync at 1, spawn. cbn [fs out].
    destruct (spawnSync h _ _ _ _) as [r m].
    match goal with |- context [out (bind ?a ?b ?w1).2] =>
      destruct (K w1) as (rest & R & _) end.
    rewrite R. cbn [out]. rewrite <- !app_assoc, drop_app_length.
    exists rest. split; [done | apply removeTree_gone].
  - intros h filename w. split.
    { unfold Goma.tmpDownload, Goma.gomaDir, Goma.thirdParty.
      rewrite parent_snoc.
      change (toolsRoot h ++ ["third_party"; "goma"])%list
        with (toolsRoot h ++ ["third_party"] ++ ["goma"])%list.
      by rewrite app_assoc, parent_snoc. }
    unfold Goma.extract, trace_of. destruct (JS.endsWith filename ".tgz").
    + assert (K : ∀ r : SpawnResult, emits (λ _, True)
                  (run when (nonzero (status r)) (fatal h "Failed to extract goma" 1);
                   rimraf_sync (Goma.tmpDownload h filename))) by (intros; effects).
      unfold bind at 1 2. unfold spawn.
      destruct (spawnSync h _ _ _ _) as [r m].
      match goal with |- context [when _ _ ?w1] =>
        destruct (K r w1) as (rest & R & _) end.
      unfold bind in R. rewrite R. cbn [out]. rewrite <- !app_assoc, drop_app_length. by exists rest.
    + unfold bind, unzip_sync, rimraf_sync.
      destruct (unzipSync h _ _ _) as [[err|] m]; simpl;
        eexists; rewrite <- ?app_assoc, drop_app_length; reflexivity.
Qed.

(** [tar] exits with status 2; the install step ends the process and
    the archive is still where the download put it. *)
Lemma archive_kept_when_tar_fails :
  ¬ archive_deleted DemoExtract.brokenTar "goma-linux.tgz"
      (mkWorld DemoExtract.downloaded []).
Proof.
  intros H. specialize (H DemoFetch.archive (reflexivity _)).
  vm_compute in H. discriminate H.
Qed.

(** C2, as the code has it: an accelerator install step that succeeds
    has deleted the archive, as its last effect; when [tar] exits with a
    status other than 0 the step reports the failed extraction on the
    console and ends the process with exit code 1.  An Xcode install step
    that succeeds has deleted both the archive and its scratch
    directory. *)
Theorem archive_deleted_after_extraction :
  (∀ (h : Host) (filename : string) (w : World),
     let res := Goma.extract h filename w in
     let tr := trace_of (Goma.extract h filename) w in
     (res.1 = Ok tt →
      gone (Goma.tmpDownload h filename) (fs res.2)
      ∧ last tr = Some (Removed (Goma.tmpDownload h filename)))
     ∧ (JS.endsWith filename ".tgz" = true →
        status (spawnSync h "tar" ["zxvf"; filename]
                  (Some (parent (Goma.tmpDownload h filename))) (fs w)).1 ≠ Some 0 →
        res.1 = Exit 1
        ∧ last tr = Some (Console Err [color_err h +:+ " " +:+ "Failed to extract goma"])))
  ∧ (∀ (h : Host) (eventualVersionedPath : path) (w : World),
       let res := Xcode.unpack h eventualVersionedPath w in
       res.1 = Ok tt →
       gone (Xcode.XcodeZip h) (fs res.2) ∧ gone (Xcode.unzipPath h) (fs res.2)).
Proof.
  split.
  - intros h filename w res tr. subst res tr. unfold trace_of.
    destruct (Goma.extract h filename w) as [r w'] eqn:H.
    unfold Goma.extract, fatal, when, console_error, process_exit, bind, rimraf_sync, emit,
      spawn, exit, ret, unzip_sync in H.
    cbn beta iota zeta delta [fs out fst snd negb] in H.
    repeat exec_step H; injection H as <- <-; cbn [fst snd fs out];
      rewrite <- ?app_assoc, ?drop_app_length; (split; [intros E | intros T S]);
      try discriminate E; try discriminate T;
      try (split; [apply removeTree_gone | reflexivity]);
      try (split; reflexivity);
      exfalso;
      match goal with Hz : nonzero _ = false |- _ => apply nonzero_false in Hz end; tauto.
  - intros h evp w res E. subst res.
    destruct (Xcode.unpack h evp w) as [r w'] eqn:H. simpl in E. subst r.
    unfold Xcode.unpack, console_log, bind, rimraf_sync, emit, spawn in H.
    cbn beta iota zeta delta [fs out fst snd negb] in H.
    repeat exec_step H; try discriminate H; injection H as <-; cbn [fs snd].
    split; [apply removeTree_keeps_gone, removeTree_gone | apply removeTree_gone].
Qed.

(** A run with a working [tar]: the archive is gone afterwards. *)
Lemma archive_deleted_after_extraction_witness :
  fs (Goma.extract DemoFetch.mirror "goma-linux.tgz" (mkWorld DemoExtract.downloaded [])).2
    !! DemoFetch.archive = None
  ∧ (Goma.extract DemoExtract.brokenTar "goma-linux.tgz"
       (mkWorld DemoExtract.downloaded [])).1 = Exit 1.
Proof.
  split.
  - apply (proj1 (proj1 archive_deleted_after_extraction DemoFetch.mirror "goma-linux.tgz"
                    (mkWorld DemoExtract.downloaded []))); reflexivity.
  - apply (proj2 (proj1 archive_deleted_after_extraction DemoExtract.brokenTar "goma-linux.tgz"
                    (mkWorld DemoExtract.downloaded []))).
    + reflexivity.
    + vm_compute. intros H. discriminate H.
Defined.

(** ** Retiring the active Xcode (lines 475-491 of [xcode.js]) *)

(** [fs.statSync] follows symbolic links, so [isSymbolicLink()] is never
    true of what it returns: whatever the world, [swap] does not unlink
    anything. *)
Lemma swap_never_unlinks (h : Host) (expected : string) (eventual : path) (w : World)
    (p : path) :
  Unlinked p ∉ trace_of (Xcode.swap h expected eventual) w.
Proof.
  unfold trace_of. destruct (Xcode.swap h expected eventual w) as [r w'] eqn:H.
  unfold Xcode.swap, Xcode.getXcodeVersion, when, console_log, bind, rimraf_sync, emit, spawn,
    ret, throw, Fs.existsSync, Fs.statSync, Fs.unlinkSync, Fs.renameSync, Fs.symlinkSync in H.
  cbn beta iota zeta delta [fs out fst snd negb Fs.isSymbolicLink] in H.
  repeat exec_step H;
    try (match goal with Hb : Fs.isSymbolicLink ?n = true |- _ =>
           destruct n; try discriminate Hb; exfalso; eapply stat_no_link; eassumption end);
    injection H as <- <-; cbn [fs out snd];
    rewrite <- ?app_assoc, ?drop_app_length, ?drop_all;
    intros I; simpl in I; in_trace I.
Qed.

(** At the failing input of C6 (the active Xcode is a symbolic link to
    the bundle of 12.0.0-UA, which reports version 12.0) the link is not
    removed: it is renamed to [Xcode-12.0.0.app], where it stays, still
    pointing at the old bundle, and the new link is made. *)
Theorem swap_renames_symlink :
  let res := Xcode.swap DemoSwap.mac "12.4.0" (Xcode.versioned DemoSwap.mac "12.4.0")
               (mkWorld DemoSwap.linked []) in
  res.1 = Ok tt
  ∧ erase <$> out res.2
    = [Spawned "defaults"
         ["read"; "/opt/build-tools/third_party/Xcode/Xcode.app/Contents/Info.plist";
          "CFBundleShortVersionString"] None ∅;
       Renamed (Xcode.XcodePath DemoSwap.mac) (Xcode.versioned DemoSwap.mac "12.0.0");
       Console Log ["Updating active Xcode version to 12.4.0"];
       Symlinked (Xcode.versioned DemoSwap.mac "12.4.0") (Xcode.XcodePath DemoSwap.mac)]
  ∧ fs res.2 !! Xcode.versioned DemoSwap.mac "12.0.0"
    = Some (Link (Xcode.versioned DemoSwap.mac "12.0.0-UA"))
  ∧ fs res.2 !! Xcode.XcodePath DemoSwap.mac
    = Some (Link (Xcode.versioned DemoSwap.mac "12.4.0")).
Proof. vm_compute. repeat split; reflexivity. Qed.

(** * Further properties of the code *)

(** ** Runs that return *)

(** A composed run that returns a value went through both of its
    parts, and what the first part added to the trace is what it may
    emit. *)
Lemma bind_ok {A B} (P : event → Prop) (m : M A) (k : A → M B) (w w' : World) (b : B) :
  emits P m →
  bind m k w = (Ok b, w') →
  ∃ a w1 evs, m w = (Ok a, w1) ∧ out w1 = (out w ++ evs)%list ∧ Forall P evs
              ∧ k a w1 = (Ok b, w').
Proof.
  intros E H. unfold bind in H. destruct (E w) as (evs & O & F).
  destruct (m w) as [[a|c|err] w1]; try discriminate H.
  by exists a, w1, evs.
Qed.

(** ** The platform tables (lines 18-43 and 68-74 of [goma.js]) *)

Lemma supported_platform (h : Host) :
  Goma.isSupportedPlatform h = true →
  Goma.gomaPlatform h ∈ ["darwin"; "darwin-arm64"; "linux"; "linux-arm64"; "win32"].
Proof.
  unfold Goma.isSupportedPlatform. intros S.
  apply bool_decide_eq_true in S as [sha S].
  apply elem_of_list_to_map_2 in S.
  repeat (apply elem_of_cons in S as [S | S];
          [injection S as -> _; set_solver |]).
  by apply elem_of_nil in S.
Qed.

Lemma supported_lookups (h : Host) (config : option Config) :
  Goma.isSupportedPlatform h = true →
  ∃ sha filename,
    Goma.expectedSha h config = Some sha
    ∧ Goma.filenames !! Goma.gomaPlatform h = Some filename
    ∧ String.length sha = 64%nat
    ∧ JS.endsWith filename ".tgz" = negb (String.eqb (Goma.gomaPlatform h) "win32").
Proof.
  intros S. apply supported_platform in S. unfold Goma.expectedSha.
  repeat (apply elem_of_cons in S as [S | S];
          [rewrite S; destruct config as [c|]; [destruct (bool_decide (gomaSource c = Some "msft")) |];
           eexists _, _; repeat split; vm_compute; reflexivity |]).
  by apply elem_of_nil in S.
Qed.

(** X1: on every supported platform (the accelerator platform is one
    of darwin, darwin-arm64, linux, linux-arm64 and win32) the digest
    table in use and the file name table have an entry, the digest is 64
    characters long, and the archive is a [.tgz] everywhere but on
    win32. *)
Theorem tables_defined (h : Host) (config : option Config) :
  Goma.isSupportedPlatform h = true →
  Goma.gomaPlatform h ∈ ["darwin"; "darwin-arm64"; "linux"; "linux-arm64"; "win32"]
  ∧ ∃ sha filename,
      Goma.expectedSha h config = Some sha
      ∧ Goma.filenames !! Goma.gomaPlatform h = Some filename
      ∧ String.length sha = 64%nat
      ∧ JS.endsWith filename ".tgz" = negb (String.eqb (Goma.gomaPlatform h) "win32").
Proof.
  intros S. split; [by apply supported_platform | by apply supported_lookups].
Qed.

Lemma tables_defined_witness :
  Goma.gomaPlatform Demo.linux ∈ ["darwin"; "darwin-arm64"; "linux"; "linux-arm64"; "win32"]
  ∧ ∃ sha filename,
      Goma.expectedSha Demo.linux (Some Demo.config) = Some sha
      ∧ Goma.filenames !! Goma.gomaPlatform Demo.linux = Some filename
      ∧ String.length sha = 64%nat
      ∧ JS.endsWith filename ".tgz" = negb (String.eqb (Goma.gomaPlatform Demo.linux) "win32").
Proof. apply (tables_defined Demo.linux (Some Demo.config)). reflexivity. Defined.

(** ** An install that is up to date (lines 45-66 of [goma.js]) *)

(** X2: on a supported platform, when [third_party] exists, [goma.gn]
    holds the generated content, the marker holds the expected digest
    and no re-download is forced, [downloadAndPrepareGoma] returns the
    digest and leaves the world as it is: no file is written, nothing is
    removed, no process is started. *)
Theorem current_install_untouched (h : Host) (config : option Config) (w : World)
    (sha : string) :
  Goma.isSupportedPlatform h = true →
  Goma.expectedSha h config = Some sha →
  is_Some (stat (fs w) (parent (Goma.gomaDir h))) →
  stat (fs w) (Goma.gomaGnFile h) = Some (File (Goma.gomaGnContents h)) →
  stat (fs w) (Goma.gomaShaFile h) = Some (File sha) →
  JS.truthy (env_GOMA_REDOWNLOAD h) = false →
  Goma.downloadAndPrepareGoma h config w = (Ok (Some sha), w).
Proof.
  intros S Esha Etp Egn Emark Eenv.
  destruct (supported_lookups h config S) as (sha' & filename & Esha' & Efile & _).
  unfold Goma.downloadAndPrepareGoma, Goma.shaFileIsCurrent, when, bind,
    Fs.existsSync, Fs.readFileSync, ret.
  rewrite S, Esha, Efile. cbn [negb].
  rewrite (bool_decide_eq_true_2 _ Etp). cbn [negb].
  cbn beta iota zeta delta [fs out fst snd negb].
  rewrite !(bool_decide_eq_true_2 (is_Some (stat (fs w) (Goma.gomaGnFile h)))) by (by eexists).
  rewrite Egn. cbn beta iota zeta delta [fs out fst snd negb].
  rewrite String.eqb_refl. cbn beta iota zeta delta [fs out fst snd negb].
  rewrite !(bool_decide_eq_true_2 (is_Some (stat (fs w) (Goma.gomaShaFile h)))) by (by eexists).
  rewrite Emark. cbn beta iota zeta delta [fs out fst snd negb].
  by rewrite String.eqb_refl, Eenv.
Qed.

Lemma current_install_untouched_witness :
  Goma.downloadAndPrepareGoma Demo.linux (Some Demo.config) (mkWorld DemoSteady.settled [])
  = (Ok (Some Demo.linuxSha), mkWorld DemoSteady.settled []).
Proof.
  apply (current_install_untouched Demo.linux (Some Demo.config)
           (mkWorld DemoSteady.settled []) Demo.linuxSha).
  - reflexivity.
  - reflexivity.
  - vm_compute. by eexists.
  - vm_compute. reflexivity.
  - vm_compute. reflexivity.
  - reflexivity.
Defined.

(** ** A forced re-download (lines 61-66 and 83-128 of [goma.js]) *)

Lemma forced_not_current (h : Host) (sha : string) (w w1 : World) (c : bool) :
  JS.truthy (env_GOMA_REDOWNLOAD h) = true →
  Goma.shaFileIsCurrent h sha w = (Ok c, w1) → c = false.
Proof.
  intros F. unfold Goma.shaFileIsCurrent, bind, Fs.existsSync, Fs.readFileSync, ret.
  cbn beta iota zeta delta [fs out fst snd negb]. rewrite F.
  destruct (bool_decide _); [| congruence].
  destruct (stat (fs w) (Goma.gomaShaFile h)) as [[s| |t]|]; try discriminate.
  rewrite andb_false_r. congruence.
Qed.

(** A run of [refresh] that returns has removed the install directory
    and the archive, downloaded, and written the marker as its last
    effect. *)
Lemma refresh_ok (h : Host) (sha filename : string) (w0 w' : World) (v : option string) :
  refresh h sha filename w0 = (Ok v, w') →
  v = Some sha
  ∧ ∃ msg args pre tr,
      out w' = (out w0 ++ [Removed (Goma.gomaDir h); Removed (Goma.tmpDownload h filename);
                           Console Log msg; Spawned (execPath h) args None pre]
                  ++ tr ++ [Wrote (Goma.gomaShaFile h) sha])%list.
Proof.
  intros H.
  unfold refresh, Goma.fetch, Goma.extract, fatal, when, console_log, console_error,
    process_exit, bind, rimraf_sync, emit, spawn, exit, ret, unzip_sync, Fs.readFileSync in H.
  cbn beta iota zeta delta [fs out fst snd negb] in H.
  repeat exec_step H.
  all: try discriminate H.
  all: match goal with
       | Hw : Fs.writeFileSync _ _ _ = _ |- _ =>
           apply writeFileSync_cases in Hw as [(? & Hw & ?) | ((? & ?) & ?)];
           try discriminate; subst;
           cbn beta iota zeta delta [fs out fst snd negb] in *
       end.
  all: injection H as <- <-; split; [done |].
  all: match goal with Ho : out _ = _ |- _ => rewrite Ho end; cbn [out]; rewrite <- ?app_assoc.
  all: eexists _, _, _, [_; _]; reflexivity.
Qed.

(** X3: with [ELECTRON_FORGE_GOMA_REDOWNLOAD] set to a non-empty value,
    a run of [downloadAndPrepareGoma] on a supported platform that
    returns has always refreshed the install, whatever the marker held:
    it returns the expected digest, it removed the install directory and
    ran the download, and its last effect is writing the marker. *)
Theorem forced_redownload_refreshes (h : Host) (config : option Config) (w : World)
    (v : option string) :
  Goma.isSupportedPlatform h = true →
  JS.truthy (env_GOMA_REDOWNLOAD h) = true →
  (Goma.downloadAndPrepareGoma h config w).1 = Ok v →
  ∃ sha tr0,
    v = Some sha
    ∧ Goma.expectedSha h config = Some sha
    ∧ trace_of (Goma.downloadAndPrepareGoma h config) w
      = (tr0 ++ [Wrote (Goma.gomaShaFile h) sha])%list
    ∧ Removed (Goma.gomaDir h) ∈ tr0
    ∧ ∃ args pre, Spawned (execPath h) args None pre ∈ tr0.
Proof.
  intros S F H.
  destruct (supported_lookups h config S) as (sha & filename & Esha & Efile & _).
  assert (T : ∀ w', Goma.downloadAndPrepareGoma h config w = (Ok v, w') →
            ∃ tr0, v = Some sha
              ∧ out w' = (out w ++ tr0 ++ [Wrote (Goma.gomaShaFile h) sha])%list
              ∧ Removed (Goma.gomaDir h) ∈ tr0
              ∧ ∃ args pre, Spawned (execPath h) args None pre ∈ tr0).
  { clear H. intros w' H. unfold Goma.downloadAndPrepareGoma in H.
    rewrite S, Esha, Efile in H. cbn [negb] in H.
    apply (bind_ok (λ _, True)) in H as (e1 & w1 & evs1 & _ & O1 & _ & H); [| effects].
    apply (bind_ok (λ _, True)) in H as (? & w2 & evs2 & _ & O2 & _ & H); [| effects].
    apply (bind_ok (λ _, True)) in H as (e2 & w3 & evs3 & _ & O3 & _ & H); [| effects].
    apply (bind_ok (λ _, True)) in H as (same & w4 & evs4 & _ & O4 & _ & H); [| effects].
    apply (bind_ok (λ _, True)) in H as (? & w5 & evs5 & _ & O5 & _ & H); [| effects].
    apply (bind_ok (λ _, True)) in H as (current & w6 & evs6 & C & O6 & _ & H); [| effects].
    apply (forced_not_current _ _ _ _ _ F) in C as ->.
    apply (bind_ok (λ _, True)) in H as (e3 & w7 & evs7 & _ & O7 & _ & H); [| effects].
    apply (bind_ok (λ _, True)) in H as (? & w8 & evs8 & _ & O8 & _ & H); [| effects].
    apply refresh_ok in H as (-> & msg & args & pre & tr & O9).
    eexists (evs1 ++ evs2 ++ evs3 ++ evs4 ++ evs5 ++ evs6 ++ evs7 ++ evs8
               ++ [Removed (Goma.gomaDir h); Removed (Goma.tmpDownload h filename);
                   Console Log msg; Spawned (execPath h) args None pre] ++ tr)%list.
    split; [done |]. split.
    { rewrite O9, O8, O7, O6, O5, O4, O3, O2, O1. by rewrite <- !app_assoc. }
    split; [| exists args, pre]; rewrite !elem_of_app; do 8 right; left;
      repeat constructor. }
  destruct (Goma.downloadAndPrepareGoma h config w) as [r w'] eqn:R.
  simpl in H. subst r. destruct (T w' eq_refl) as (tr0 & -> & O & I & J).
  exists sha, tr0. repeat split; try done.
  apply trace_of_app. by rewrite R.
Qed.

Lemma forced_redownload_refreshes_witness :
  ∃ sha tr0,
    Some Demo.linuxSha = Some sha
    ∧ Goma.expectedSha DemoSteady.forced (Some Demo.config) = Some sha
    ∧ trace_of (Goma.downloadAndPrepareGoma DemoSteady.forced (Some Demo.config))
               (mkWorld DemoSteady.settled [])
      = (tr0 ++ [Wrote (Goma.gomaShaFile DemoSteady.forced) sha])%list
    ∧ Removed (Goma.gomaDir DemoSteady.forced) ∈ tr0
    ∧ ∃ args pre, Spawned (execPath DemoSteady.forced) args None pre ∈ tr0.
Proof.
  apply (forced_redownload_refreshes DemoSteady.forced (Some Demo.config)
           (mkWorld DemoSteady.settled []) (Some Demo.linuxSha)).
  - reflexivity.
  - reflexivity.
  - vm_compute. reflexivity.
Defined.

(** ** The footprint of the pipeline (lines 45-129 of [goma.js]) *)

Lemma parent_gomaDir (h : Host) : parent (Goma.gomaDir h) = Goma.thirdParty h.
Proof.
  unfold Goma.gomaDir, Goma.thirdParty.
  change (toolsRoot h ++ ["third_party"; "goma"])%list
    with (toolsRoot h ++ ["third_party"] ++ ["goma"])%list.
  rewrite app_assoc. apply parent_snoc.
Qed.

Lemma parent_tmpDownload (h : Host) (filename : string) :
  parent (Goma.tmpDownload h filename) = Goma.thirdParty h.
Proof. apply parent_snoc. Qed.

Lemma emits_weaken (P Q : event → Prop) {A} (m : M A) :
  (∀ e, P e → Q e) → emits P m → emits Q m.
Proof.
  intros I E w. destruct (E w) as (evs & O & F). exists evs. split; [done |].
  by eapply Forall_impl.
Qed.

Lemma pipeline_emits (h : Host) (config : option Config) :
  emits (pipelineEffect h config) (Goma.downloadAndPrepareGoma h config).
Proof.
  unfold Goma.downloadAndPrepareGoma, Goma.fetch, Goma.extract.
  rewrite parent_gomaDir.
  destruct (Goma.isSupportedPlatform h); cbn [negb]; [| apply emits_ret].
  destruct (Goma.expectedSha h config) as [sha|] eqn:Esha; [| effects].
  destruct (Goma.filenames !! Goma.gomaPlatform h) as [filename|] eqn:Efile; [| effects].
  rewrite parent_tmpDownload.
  effects; simpl; eauto 6.
  all: unfold pipelineEffect; left; split; reflexivity.
Qed.

(** X4: every effect of every run of [downloadAndPrepareGoma] is one
    of: console output; creating [third_party]; writing [goma.gn] with
    the generated content or the marker with the expected digest;
    [python3 goma_ctl.py stop] in the install directory; removing the
    install directory or the archive; the download; [tar] or
    [unzipSync] into [third_party].  It renames, links and unlinks
    nothing and writes no other file. *)
Theorem pipeline_footprint (h : Host) (config : option Config) (w : World) :
  Forall (pipelineEffect h config) (trace_of (Goma.downloadAndPrepareGoma h config) w).
Proof.
  destruct (pipeline_emits h config w) as (evs & O & F).
  by rewrite (trace_of_app _ _ _ O).
Qed.

(** ** A download that fails (lines 88-100 of [goma.js], 439-452 of [xcode.js]) *)

(** X5: when the download process ends with a status other than 0 (or
    is killed, status [null]), the archive path is removed, one error
    line is printed and the process exits with code 1; the file is never
    read and no digest is computed.  The same holds for the Xcode
    archive. *)
Theorem failed_download_is_fatal :
  (∀ (h : Host) (sha filename : string) (w : World) (r0 : SpawnResult) (m1 : FS),
     let tmp := Goma.tmpDownload h filename in
     let url := Goma.gomaBaseURL +:+ "/" +:+ sha +:+ "/" +:+ filename in
     let download := [pathStr (Goma.downloadJs h); url; pathStr tmp] in
     spawnSync h (execPath h) download None (fs w) = (r0, m1) →
     status r0 ≠ Some 0 →
     let res := Goma.fetch h sha filename w in
     res.1 = Exit 1
     ∧ fs res.2 = removeTree tmp m1
     ∧ gone tmp (fs res.2)
     ∧ trace_of (Goma.fetch h sha filename) w
       = [Console Log ["Downloading " +:+ color_cmd h url +:+ " into "
                         +:+ color_path h (pathStr tmp)];
          Spawned (execPath h) download None (fs w);
          Removed tmp;
          Console Err [color_err h +:+ " Failure while downloading goma"]])
  ∧
  (∀ (h : Host) (e : Xcode.entry) (w : World) (r0 : SpawnResult) (m1 : FS),
     let zip := Xcode.XcodeZip h in
     let url := Xcode.XcodeBaseURL +:+ Xcode.fileName e in
     let download := [pathStr (Xcode.downloadJs h); url; pathStr zip] in
     spawnSync h (execPath h) download None (fs w) = (r0, m1) →
     status r0 ≠ Some 0 →
     let res := Xcode.fetch h e w in
     res.1 = Exit 1
     ∧ fs res.2 = removeTree zip m1
     ∧ gone zip (fs res.2)
     ∧ trace_of (Xcode.fetch h e) w
       = [Console Log ["Downloading " +:+ color_cmd h url +:+ " into "
                         +:+ color_path h (pathStr zip)];
          Spawned (execPath h) download None (fs w);
          Removed zip;
          Console Err [color_err h +:+ " Failure while downloading Xcode zip"]]).
Proof.
  split.
  - intros h sha filename w r0 m1 tmp url download Hs Hst res.
    assert (N : nonzero (status r0) = true).
    { unfold nonzero. by rewrite bool_decide_eq_false_2. }
    subst res. unfold trace_of.
    unfold Goma.fetch, fatal, when, console_log, console_error, process_exit, bind,
      rimraf_sync, emit, spawn, exit, ret.
    cbn beta iota zeta delta [fs out fst snd negb].
    fold tmp url download. rewrite Hs. cbn beta iota zeta delta [fs out fst snd negb].
    rewrite N. cbn beta iota zeta delta [fs out fst snd negb].
    repeat split; [apply removeTree_gone |].
    rewrite <- !app_assoc. by rewrite drop_app_length.
  - intros h e w r0 m1 zip url download Hs Hst res.
    assert (N : nonzero (status r0) = true).
    { unfold nonzero. by rewrite bool_decide_eq_false_2. }
    subst res. unfold trace_of.
    unfold Xcode.fetch, fatal, when, console_log, console_error, process_exit, bind,
      rimraf_sync, emit, spawn, exit, ret.
    cbn beta iota zeta delta [fs out fst snd negb].
    fold zip url download. rewrite Hs. cbn beta iota zeta delta [fs out fst snd negb].
    rewrite N. cbn beta iota zeta delta [fs out fst snd negb].
    repeat split; [apply removeTree_gone |].
    rewrite <- !app_assoc. by rewrite drop_app_length.
Qed.

Lemma failed_download_is_fatal_witness :
  (Goma.fetch DemoSteady.offline Demo.linuxSha "goma-linux.tgz"
     (mkWorld (Demo.installed "0000") [])).1 = Exit 1
  ∧ (Xcode.fetch DemoSteady.offline
       (Xcode.mkEntry "Xcode-14.3.0.zip" "4bc9043b275625568f81d9727ad6aef8")
       (mkWorld DemoSwap.linked [])).1 = Exit 1.
Proof.
  split.
  - apply (proj1 failed_download_is_fatal DemoSteady.offline Demo.linuxSha "goma-linux.tgz"
             (mkWorld (Demo.installed "0000") []) (mkSpawn (Some 1) None)
             (Demo.installed "0000")).
    + reflexivity.
    + vm_compute. intros H. discriminate H.
  - apply (proj2 failed_download_is_fatal DemoSteady.offline
             (Xcode.mkEntry "Xcode-14.3.0.zip" "4bc9043b275625568f81d9727ad6aef8")
             (mkWorld DemoSwap.linked []) (mkSpawn (Some 1) None) DemoSwap.linked).
    + reflexivity.
    + vm_compute. intros H. discriminate H.
Defined.

(** ** The login record (lines 176-189 of [goma.js]) *)

Module ShowFacts.

Import DecimalString.

Lemma digits_uint (u : Decimal.uint) :
  Semver.digits (NilEmpty.string_of_uint u) = (NilEmpty.string_of_uint u, EmptyString).
Proof. induction u; simpl; rewrite ?IHu; reflexivity. Qed.

Lemma value_acc (u : Decimal.uint) (acc : positive) :
  Semver.value (N.pos acc) (NilEmpty.string_of_uint u) = N.pos (Pos.of_uint_acc u acc).
Proof.
  revert acc. induction u; intros acc; [reflexivity | ..];
    cbn [NilEmpty.string_of_uint Semver.value Pos.of_uint_acc]; rewrite <- IHu; f_equal;
    vm_compute (N_of_ascii _ - 48)%N; lia.
Qed.

Lemma value_uint (u : Decimal.uint) :
  Semver.value 0 (NilEmpty.string_of_uint u) = N.of_uint u.
Proof.
  unfold N.of_uint. induction u; [reflexivity | exact IHu | ..];
    cbn [NilEmpty.string_of_uint Semver.value Pos.of_uint]; rewrite <- value_acc; f_equal.
Qed.

(** The decimal form of a number: a digit first, digits only, and the
    number as its value. *)
Lemma showN_spec (n : N) :
  ∃ c r, Semver.showN n = String c r
         ∧ Semver.isDigit c = true
         ∧ Semver.digits (Semver.showN n) = (Semver.showN n, EmptyString)
         ∧ Semver.value 0 (Semver.showN n) = n.
Proof.
  unfold Semver.showN, NilZero.string_of_uint.
  pose proof (DecimalN.Unsigned.of_to n) as V. rewrite <- value_uint in V.
  pose proof (digits_uint (N.to_uint n)) as D.
  destruct (N.to_uint n) as [|u|u|u|u|u|u|u|u|u|u];
    [exists "0"%char, EmptyString; repeat split; by rewrite <- V | ..];
    (eexists _, _; (split; [reflexivity |]); (split; [reflexivity |]); by split).
Qed.

End ShowFacts.

Lemma digit_plain (c : ascii) :
  Semver.isDigit c = true →
  JS.isWhiteSpace c = false ∧ c ≠ "-"%char ∧ c ≠ "+"%char.
Proof.
  destruct c as [[] [] [] [] [] [] [] []]; intros D; try discriminate D;
    repeat split; discriminate.
Qed.

Lemma parseInt_digits (s : string) (c : ascii) (r : string) :
  s = String c r → Semver.isDigit c = true →
  Semver.digits s = (s, EmptyString) →
  GomaAuth.parseInt s = Some (Z.of_N (Semver.value 0 s))
  ∧ GomaAuth.parseInt ("-" +:+ s) = Some (- Z.of_N (Semver.value 0 s)).
Proof.
  intros -> D E. unfold GomaAuth.parseInt.
  change ("-" +:+ String c r) with (String "-" (String c r)). cbn [JS.trimStart].
  destruct (digit_plain c D) as (-> & _ & _).
  change (JS.isWhiteSpace "-") with false. cbv beta iota zeta.
  rewrite E. split; [| reflexivity].
  destruct c as [[] [] [] [] [] [] [] []]; try discriminate D; cbv beta iota zeta;
    by rewrite E.
Qed.

(** What [parseInt] reads back from the digits JavaScript prints. *)
Lemma parseInt_showZ (n : Z) : GomaAuth.parseInt (GomaAuth.showZ n) = Some n.
Proof.
  unfold GomaAuth.showZ. destruct (Z.ltb_spec n 0) as [L | L].
  - destruct (ShowFacts.showN_spec (Z.to_N (- n))) as (c & r & E & D & G & V).
    rewrite (proj2 (parseInt_digits _ c r E D G)), V. f_equal. lia.
  - destruct (ShowFacts.showN_spec (Z.to_N n)) as (c & r & E & D & G & V).
    rewrite (proj1 (parseInt_digits _ c r E D G)), V. f_equal. lia.
Qed.

Lemma recorded_time (h : Host) (now : Z) (w : World) :
  (GomaAuth.recordGomaLoginTime h now w).1 = Ok tt →
  Z.abs now ≤ GomaAuth.maxTime →
  let w1 := (GomaAuth.recordGomaLoginTime h now w).2 in
  GomaAuth.getLastKnownLoginTime h w1 = (Ok (Some (GomaAuth.Instant now)), w1).
Proof.
  destruct (GomaAuth.recordGomaLoginTime h now w) as [r w1] eqn:R.
  simpl. intros -> B. unfold GomaAuth.recordGomaLoginTime in R.
  apply writeFileSync_cases in R as [(_ & _ & S) | ((err & ?) & _)]; [| discriminate].
  unfold GomaAuth.getLastKnownLoginTime, bind, Fs.existsSync, Fs.readFileSync, ret.
  cbn beta iota zeta delta [fs out fst snd negb]. rewrite S.
  rewrite bool_decide_eq_true_2 by (by eexists).
  cbn beta iota zeta delta [fs out fst snd negb]. rewrite S.
  rewrite parseInt_showZ. unfold GomaAuth.newDate.
  by rewrite (proj2 (Z.leb_le _ _) B).
Qed.

(** X6: a login time written by [recordGomaLoginTime] is read back by
    [getLastKnownLoginTime] as the same instant (for every instant a
    [Date] can hold), and for the twelve hours that follow it
    [gomaIsAuthenticated] answers true on a supported platform without
    starting [goma_auth.py] or touching anything. *)
Theorem login_record_round_trip (h : Host)
    (depotOutput : string → list string → option path → FS → string)
    (now : Z) (w : World) :
  (GomaAuth.recordGomaLoginTime h now w).1 = Ok tt →
  Z.abs now ≤ GomaAuth.maxTime →
  let w1 := (GomaAuth.recordGomaLoginTime h now w).2 in
  GomaAuth.getLastKnownLoginTime h w1 = (Ok (Some (GomaAuth.Instant now)), w1)
  ∧ ∀ later config,
      Goma.isSupportedPlatform h = true →
      later - now < GomaAuth.twelveHours →
      GomaAuth.gomaIsAuthenticated h depotOutput later config w1 = (Ok true, w1).
Proof.
  intros R B w1. pose proof (recorded_time h now w R B) as G. fold w1 in G.
  split; [done |]. intros later config S L.
  unfold GomaAuth.gomaIsAuthenticated. rewrite S. cbn [negb].
  unfold bind at 1. rewrite G. cbn [GomaAuth.recent].
  by rewrite (proj2 (Z.ltb_lt _ _) L).
Qed.

Lemma login_record_round_trip_witness :
  let w := mkWorld (Demo.installed Demo.linuxSha) [] in
  let w1 := (GomaAuth.recordGomaLoginTime Demo.linux DemoAuth.now w).2 in
  GomaAuth.getLastKnownLoginTime Demo.linux w1 = (Ok (Some (GomaAuth.Instant DemoAuth.now)), w1)
  ∧ ∀ later config,
      Goma.isSupportedPlatform Demo.linux = true →
      later - DemoAuth.now < GomaAuth.twelveHours →
      GomaAuth.gomaIsAuthenticated Demo.linux DemoAuth.info later config w1 = (Ok true, w1).
Proof.
  intros w.
  apply (login_record_round_trip Demo.linux DemoAuth.info DemoAuth.now w).
  - vm_compute. reflexivity.
  - vm_compute. discriminate.
Defined.

Lemma stat_delete (m : FS) (p : path) : stat (delete p m) p = None.
Proof. unfold stat. simpl. by rewrite lookup_delete_eq. Qed.

(** X7: after [clearGomaLoginTime] has returned there is no login
    record: [getLastKnownLoginTime] returns [null].  Nothing but the
    record itself is removed. *)
Theorem cleared_login_is_null (h : Host) (w : World) :
  (GomaAuth.clearGomaLoginTime h w).1 = Ok tt →
  let w1 := (GomaAuth.clearGomaLoginTime h w).2 in
  GomaAuth.getLastKnownLoginTime h w1 = (Ok None, w1)
  ∧ ∀ q, q ≠ GomaAuth.gomaLoginFile h → fs w1 !! q = fs w !! q.
Proof.
  unfold GomaAuth.clearGomaLoginTime, GomaAuth.getLastKnownLoginTime, bind,
    Fs.existsSync, Fs.unlinkSync, ret.
  cbn beta iota zeta delta [fs out fst snd negb].
  destruct (bool_decide (is_Some (stat (fs w) (GomaAuth.gomaLoginFile h)))) eqn:E;
    cbn [negb].
  - destruct (fs w !! GomaAuth.gomaLoginFile h) as [[c| |t]|]; try discriminate;
      intros _; cbn [fs snd]; rewrite stat_delete;
      (rewrite bool_decide_eq_false_2 by (by intros [? ?]));
      (split; [done |]); intros q N; by rewrite lookup_delete_ne.
  - intros _. cbn [snd]. by rewrite E.
Qed.

Lemma cleared_login_is_null_witness :
  let w := mkWorld (DemoAuth.loggedIn "1700000000000") [] in
  let w1 := (GomaAuth.clearGomaLoginTime Demo.linux w).2 in
  GomaAuth.getLastKnownLoginTime Demo.linux w1 = (Ok None, w1)
  ∧ ∀ q, q ≠ GomaAuth.gomaLoginFile Demo.linux → fs w1 !! q = fs w !! q.
Proof.
  intros w. apply (cleared_login_is_null Demo.linux w). vm_compute. reflexivity.
Defined.

(** ** The authentication check (lines 131-149 of [goma.js]) *)

Lemma afterPrefix_Some (p s r : string) :
  GomaAuth.afterPrefix p s = Some r → s = p +:+ r.
Proof.
  revert s. induction p as [|a p IH]; intros s; simpl.
  - by intros [= <-].
  - destruct s as [|b s]; [done |].
    destruct (Ascii.eqb_spec a b) as [-> |]; [| done].
    intros H. by rewrite (IH _ H).
Qed.

Lemma append_empty (s : string) : s +:+ EmptyString = s.
Proof.
  induction s as [|a s IH]; [done |].
  change (String a (s +:+ EmptyString) = String a s). by rewrite IH.
Qed.

Lemma wordRun_spec (s run1 rest : string) :
  GomaAuth.wordRun s = (run1, rest) → s = run1 +:+ rest ∧ allWord run1 = true.
Proof.
  revert run1 rest. induction s as [|c s IH]; intros run1 rest; simpl.
  - by intros [= <- <-].
  - destruct (GomaAuth.isWord c) eqn:W; [| by intros [= <- <-]].
    destruct (GomaAuth.wordRun s) as [r0 rest0]. intros [= <- <-].
    destruct (IH _ _ eq_refl) as [-> A]. split; [done |]. simpl. by rewrite W, A.
Qed.

Lemma wordRun_app (run1 rest : string) :
  allWord run1 = true →
  match rest with String c _ => GomaAuth.isWord c = false | EmptyString => True end →
  GomaAuth.wordRun (run1 +:+ rest) = (run1, rest).
Proof.
  intros A R. induction run1 as [|c run1 IH].
  - change (EmptyString +:+ rest) with rest.
    destruct rest as [|c r]; [done |]. simpl. by rewrite R.
  - change (String c run1 +:+ rest) with (String c (run1 +:+ rest)).
    simpl in A. apply andb_prop in A as [W A]. simpl. by rewrite W, IH.
Qed.

Lemma space_no_word (c : ascii) : JS.isWhiteSpace c = true → GomaAuth.isWord c = false.
Proof. destruct c as [[] [] [] [] [] [] [] []]; intros W; try discriminate W; reflexivity. Qed.

(** The test accepts exactly the strings of the language of the
    pattern. *)
Lemma loggedInPattern_language (s : string) :
  GomaAuth.loggedInPattern_test s = true ↔ loginLine s.
Proof.
  unfold GomaAuth.loggedInPattern_test, loginLine, word. split.
  - destruct (GomaAuth.afterPrefix "Login as " s) as [r|] eqn:P; [| done].
    apply afterPrefix_Some in P as ->.
    destruct (GomaAuth.wordRun r) as [[|c1 r1] [|sep r']] eqn:R1; try done.
    apply wordRun_spec in R1 as [-> A1].
    destruct (GomaAuth.wordRun r') as [[|c2 r2] [|? ?]] eqn:R2;
      try (by rewrite andb_false_r); try (by intros [_ ?]%andb_prop).
    apply wordRun_spec in R2 as [-> A2]. intros [W _]%andb_prop.
    rewrite append_empty. by exists (String c1 r1), sep, (String c2 r2).
  - intros (first & sep & last & -> & [N1 A1] & W & [N2 A2]).
    assert (P : GomaAuth.afterPrefix "Login as " ("Login as " +:+ (first +:+ String sep last))
                = Some (first +:+ String sep last)) by reflexivity.
    rewrite P. rewrite wordRun_app by (by try apply space_no_word).
    destruct first as [|c1 r1]; [done |]. rewrite W. cbn [andb].
    assert (L : GomaAuth.wordRun last = (last, EmptyString)).
    { pose proof (wordRun_app last EmptyString A2 I) as R. by rewrite append_empty in R. }
    rewrite L. by destruct last.
Qed.

(** X8: on a supported platform with a login record that can be read
    (or none), [gomaIsAuthenticated] always returns, and it returns true
    exactly when the record is recent or [goma_auth.py info] ends
    without an error and its output, trimmed, is [Login as ], a word, one
    white space character and a word.  A [goma_auth.py] that throws
    gives false, not an exception. *)
Theorem authentication_check (h : Host)
    (depotOutput : string → list string → option path → FS → string)
    (now : Z) (config : option Config) (w : World) (last : option GomaAuth.date) :
  Goma.isSupportedPlatform h = true →
  (GomaAuth.getLastKnownLoginTime h w).1 = Ok last →
  let info := depotExecFileSync h "python3" ["goma_auth.py"; "info"]
                (Some (Goma.gomaDir h)) (fs w) in
  let printed := depotOutput "python3" ["goma_auth.py"; "info"]
                   (Some (Goma.gomaDir h)) (fs w) in
  ∃ b, (GomaAuth.gomaIsAuthenticated h depotOutput now config w).1 = Ok b
       ∧ (b = true ↔
          GomaAuth.recent now last = true
          ∨ (info.1 = None ∧ loginLine (JS.trim printed))).
Proof.
  intros S G info printed. unfold GomaAuth.gomaIsAuthenticated. rewrite S. cbn [negb].
  assert (G' : GomaAuth.getLastKnownLoginTime h w = (Ok last, w)).
  { revert G. unfold GomaAuth.getLastKnownLoginTime, bind, Fs.existsSync, Fs.readFileSync, ret.
    cbn beta iota zeta delta [fs out fst snd negb].
    destruct (bool_decide _); cbn [negb]; [| by intros [= <-]].
    destruct (stat (fs w) (GomaAuth.gomaLoginFile h)) as [[c| |t]|]; try discriminate;
      by intros [= <-]. }
  unfold bind at 1. rewrite G'.
  destruct (GomaAuth.recent now last) eqn:R.
  { exists true. split; [done |]. split; [by left | done]. }
  unfold bind, GomaAuth.try_catch, GomaAuth.depot_execFileSync_output, ret.
  cbn beta iota zeta delta [fs out fst snd negb].
  fold info printed. destruct info as [[err|] m]; cbn beta iota zeta delta [fs out fst snd negb].
  - exists false. split; [done |]. split; [done | by intros [? | [? _]]].
  - exists (GomaAuth.loggedInPattern_test (JS.trim printed)). split; [done |].
    rewrite loggedInPattern_language. split; [by right | by intros [? | [_ ?]]].
Qed.

Lemma authentication_check_witness :
  ∃ b, (GomaAuth.gomaIsAuthenticated Demo.linux DemoAuth.info DemoAuth.now None
          (mkWorld (Demo.installed Demo.linuxSha) [])).1 = Ok b
       ∧ (b = true ↔
          GomaAuth.recent DemoAuth.now None = true
          ∨ ((depotExecFileSync Demo.linux "python3" ["goma_auth.py"; "info"]
                (Some (Goma.gomaDir Demo.linux)) (Demo.installed Demo.linuxSha)).1 = None
             ∧ loginLine (JS.trim (DemoAuth.info "python3" ["goma_auth.py"; "info"]
                                     (Some (Goma.gomaDir Demo.linux))
                                     (Demo.installed Demo.linuxSha))))).
Proof.
  apply (authentication_check Demo.linux DemoAuth.info DemoAuth.now None
           (mkWorld (Demo.installed Demo.linuxSha) []) None).
  - reflexivity.
  - vm_compute. reflexivity.
Defined.

(** ** The version resolver never leaves the table (lines 339-397 of [xcode.js]) *)

Lemma expected_known (h : Host) (w w1 : World) (v : string) :
  Xcode.expectedXcodeVersion h w = (Ok v, w1) → is_Some (Xcode.known v).
Proof.
  intros H.
  unfold Xcode.expectedXcodeVersion, Xcode.warnFallback, bind, exec_sync, console_warn,
    emit, throw, ret in H.
  rewrite fallback_value in H.
  cbn beta iota zeta delta [fs out fst snd negb] in H.
  repeat exec_step H.
  all: try discriminate H.
  all: injection H as <- <-; try (by vm_compute; eexists).
  all: match goal with
       | Hk : negb (bool_decide (is_Some ?k)) = false |- is_Some ?k =>
           apply negb_false_iff, bool_decide_eq_true in Hk; exact Hk
       end.
Qed.

(** X9: whatever the checkout and the operating system say, a version
    [expectedXcodeVersion] returns is a key of the table of known
    versions, so the lookup of its archive and digest in [ensureXcode]
    is always defined. *)
Theorem expected_version_is_known (h : Host) (w : World) (v : string) :
  (Xcode.expectedXcodeVersion h w).1 = Ok v →
  ∃ e, Xcode.known v = Some e.
Proof.
  destruct (Xcode.expectedXcodeVersion h w) as [r w1] eqn:E. simpl. intros ->.
  exact (expected_known _ _ _ _ E).
Qed.

Lemma expected_version_is_known_witness :
  ∃ e, Xcode.known "13.3.0" = Some e.
Proof.
  apply (expected_version_is_known DemoXcode.mac
           (mkWorld (DemoXcode.checkout "13.3.0") []) "13.3.0").
  vm_compute. reflexivity.
Defined.

(** ** The version of the active Xcode (lines 315-327 of [xcode.js]) *)

Lemma split_nonempty (c : ascii) (s : string) : JS.split c s ≠ [].
Proof.
  destruct s as [|a s]; simpl; [done |].
  destruct (JS.split c s); [done |]. by destruct (Ascii.eqb a c).
Qed.

Lemma split_append_patch (s : string) :
  List.length (JS.split "." (s +:+ ".0")) = S (List.length (JS.split "." s)).
Proof.
  induction s as [|a s IH]; [reflexivity |].
  change (String a s +:+ ".0") with (String a (s +:+ ".0")). simpl.
  pose proof (split_nonempty "." s) as N. pose proof (split_nonempty "." (s +:+ ".0")) as N'.
  destruct (JS.split "." s) as [|x l]; [done |].
  destruct (JS.split "." (s +:+ ".0")) as [|x' l']; [done |].
  simpl in IH. destruct (Ascii.eqb a "."); simpl; lia.
Qed.

(** X10: [getXcodeVersion] never returns a version of exactly two dot
    separated components: what [defaults] prints is trimmed, and a
    version like 12.4 comes back as 12.4.0.  When [defaults] fails the
    answer is [unknown]. *)
Theorem active_version_has_patch (h : Host) (w : World) (v : string) :
  (Xcode.getXcodeVersion h w).1 = Ok v →
  let r := (spawnSync h "defaults"
              ["read"; pathStr (Xcode.XcodePath h ++ ["Contents"; "Info.plist"])%list;
               "CFBundleShortVersionString"] None (fs w)).1 in
  List.length (JS.split "." v) ≠ 2%nat
  ∧ (status r ≠ Some 0 → v = "unknown")
  ∧ (status r = Some 0 →
     ∃ o, stdout r = Some o
          ∧ v = if (List.length (JS.split "." (JS.trim o)) =? 2)%nat
                then JS.trim o +:+ ".0" else JS.trim o).
Proof.
  unfold Xcode.getXcodeVersion, bind, spawn, ret, throw.
  cbn beta iota zeta delta [fs out fst snd negb].
  destruct (spawnSync h "defaults" _ None (fs w)) as [r m].
  cbn beta iota zeta delta [fs out fst snd negb].
  destruct (bool_decide (status r = Some 0)) eqn:St.
  - apply bool_decide_eq_true in St. destruct (stdout r) as [o|]; [| discriminate].
    destruct (List.length (JS.split "." (JS.trim o)) =? 2)%nat eqn:L; intros [= <-].
    + apply Nat.eqb_eq in L. split; [rewrite split_append_patch; lia |].
      split; [done |]. intros _. exists o. by rewrite (proj2 (Nat.eqb_eq _ _) L).
    + pose proof L as L'. apply Nat.eqb_neq in L. split; [done |].
      split; [done |]. intros _. exists o. by rewrite L'.
  - apply bool_decide_eq_false in St. intros [= <-].
    split; [vm_compute; lia |]. split; done.
Qed.

Lemma active_version_has_patch_witness :
  List.length (JS.split "." "12.0.0") ≠ 2%nat.
Proof.
  apply (active_version_has_patch DemoSwap.mac (mkWorld DemoSwap.linked []) "12.0.0").
  vm_compute. reflexivity.
Defined.

(** ** Renaming a tree *)


(** What was at or below [a] is found at the same place below [b]. *)
Lemma rebase_lookup (a b k : path) (m : FS) (n : node) :
  m !! (a ++ k)%list = Some n → rebase a b m !! (b ++ k)%list = Some n.
Proof.
  intros L. unfold rebase. apply elem_of_list_to_map_1'.
  - intros y I. apply list_elem_of_fmap in I as ([k0 y'] & E & I). simpl in E.
    injection E as E ->. apply elem_of_map_to_list in I.
    apply map_lookup_filter_Some in I as [I [t P]]. simpl in P. subst k0.
    rewrite drop_app_length in E. apply app_inv_head in E as <-.
    pose proof (eq_trans (eq_sym L) I) as Q. by injection Q.
  - apply list_elem_of_fmap. exists ((a ++ k)%list, n). split.
    + simpl. by rewrite drop_app_length.
    + apply elem_of_map_to_list, map_lookup_filter_Some. split; [done |]. by exists k.
Qed.




Lemma moveTree_moved (a b k : path) (m : FS) (n : node) :
  m !! (a ++ k)%list = Some n → moveTree a b m !! (b ++ k)%list = Some n.
Proof.
  intros L. unfold moveTree. apply lookup_union_Some_l. by apply rebase_lookup.
Qed.






(** Two entries of one directory: what is at or below one is not at or
    below the other. *)
Lemma sibling_not_above (dir : path) (x y : string) (q : path) :
  x ≠ y → (dir ++ [y])%list `prefix_of` q → ¬ (dir ++ [x])%list `prefix_of` q.
Proof.
  intros N [k1 ->] [k2 E]. rewrite <- !app_assoc in E.
  apply app_inv_head in E. simpl in E. congruence.
Qed.

(** ** The badly named bundle (lines 399-409 of [xcode.js]) *)




(** ** An archive left on disk (lines 423-437 of [xcode.js]) *)

(** X12: when [Xcode.zip] is already on disk and [md5 -q] prints the
    expected digest for it, nothing is downloaded and nothing is
    removed: the only process started is [md5], and the file system is
    what [md5] left. *)
Theorem cached_archive_reused (h : Host) (e : Xcode.entry) (w : World) (printed : string) :
  let zip := Xcode.XcodeZip h in
  let sum := spawnSync h "md5" ["-q"; pathStr zip] None (fs w) in
  is_Some (stat (fs w) zip) →
  stdout sum.1 = Some printed →
  JS.trim printed = Xcode.md5 e →
  (Xcode.obtain h e w).1 = Ok tt
  ∧ fs (Xcode.obtain h e w).2 = sum.2
  ∧ trace_of (Xcode.obtain h e) w
    = [Console Log ["Calculating hash for " +:+ color_path h (pathStr zip)];
       Spawned "md5" ["-q"; pathStr zip] None (fs w)].
Proof.
  intros zip sum Z O T. unfold trace_of.
  unfold Xcode.obtain, Xcode.hashFile, when, bind, Fs.existsSync, console_log, emit,
    spawn, ret.
  cbn beta iota zeta delta [fs out fst snd negb].
  fold zip. rewrite (bool_decide_eq_true_2 _ Z).
  cbn beta iota zeta delta [fs out fst snd negb]. fold sum.
  destruct sum as [r m]. simpl in O.
  cbn beta iota zeta delta [fs out fst snd negb]. rewrite O.
  cbn beta iota zeta delta [fs out fst snd negb]. rewrite T, String.eqb_refl.
  cbn beta iota zeta delta [fs out fst snd negb].
  repeat split. rewrite <- app_assoc. apply drop_app_length.
Qed.

Lemma cached_archive_reused_witness :
  (Xcode.obtain DemoEnsure.mac (Xcode.mkEntry "Xcode-14.3.0.zip" "4bc9043b275625568f81d9727ad6aef8")
     (mkWorld DemoEnsure.unpacked [])).1 = Ok tt.
Proof.
  apply (cached_archive_reused DemoEnsure.mac
           (Xcode.mkEntry "Xcode-14.3.0.zip" "4bc9043b275625568f81d9727ad6aef8")
           (mkWorld DemoEnsure.unpacked [])
           ("4bc9043b275625568f81d9727ad6aef8" +:+ nl)).
  - vm_compute. by eexists.
  - reflexivity.
  - reflexivity.
Defined.

(** ** What [ensureXcode] leaves behind (lines 411-496 of [xcode.js]) *)

Lemma emits_exec_sync (P : event → Prop) (h : Host) (cmdline : string) :
  (∀ pre, P (Spawned cmdline [] None pre)) → emits P (exec_sync h cmdline).
Proof.
  intros Pe w. exists [Spawned cmdline [] None (fs w)]. unfold exec_sync.
  destruct (execSync h cmdline (fs w)); simpl; (split; [done | by constructor]).
Qed.

Lemma emits_ensure_dir (P : event → Prop) (h : Host) (p : path) :
  P (EnsuredDir p) → emits P (ensure_dir h p).
Proof.
  intros Pe w. exists [EnsuredDir p]. unfold ensure_dir.
  destruct (ensureDir h p (fs w)) as [[err|] m]; simpl; (split; [done | by constructor]).
Qed.

(** [effects] for the computations of [xcode.js]. *)
Ltac xcode_effects :=
  repeat first
    [ progress effects
    | apply emits_exec_sync; intros ?
    | apply emits_ensure_dir
    | progress unfold Xcode.expectedXcodeVersion, Xcode.scan, Xcode.probe, Xcode.warnFallback,
        Xcode.fixBadVersioned103, Xcode.getXcodeVersion, Xcode.obtain, Xcode.hashFile,
        Xcode.fetch, Xcode.unpack ];
  try (intros; simpl; done).

Lemma zip_not_above_active (h : Host) : ¬ Xcode.XcodeZip h `prefix_of` Xcode.XcodePath h.
Proof.
  unfold Xcode.XcodeZip, Xcode.XcodePath. intros [k E].
  rewrite <- app_assoc in E. apply app_inv_head in E. discriminate E.
Qed.

Lemma expected_noLink (h : Host) : emits noLink (Xcode.expectedXcodeVersion h).
Proof.
  unfold Xcode.expectedXcodeVersion, Xcode.warnFallback. rewrite fallback_value.
  xcode_effects.
Qed.

(** X13: a run of [ensureXcode] that returns, returns true and leaves
    no [Xcode.zip] behind.  It makes at most the one symbolic link
    [Xcode.app], to the versioned bundle of the version the resolver
    asked for, which is a known version; that link is in place when the
    run returns. *)
Theorem ensureXcode_leaves (h : Host) (w : World) (b : bool) :
  (Xcode.ensureXcode h w).1 = Ok b →
  let w' := (Xcode.ensureXcode h w).2 in
  b = true
  ∧ gone (Xcode.XcodeZip h) (fs w')
  ∧ ∀ target p, Symlinked target p ∈ trace_of (Xcode.ensureXcode h) w →
      p = Xcode.XcodePath h
      ∧ fs w' !! Xcode.XcodePath h = Some (Link target)
      ∧ ∃ expected e,
          (Xcode.expectedXcodeVersion h w).1 = Ok expected
          ∧ Xcode.known expected = Some e
          ∧ target = Xcode.versioned h expected.
Proof.
  intros H w0. subst w0. unfold trace_of.
  destruct (Xcode.ensureXcode h w) as [r w'] eqn:R. simpl in H. subst r. cbn [fst snd].
  unfold Xcode.ensureXcode in R.
  apply (bind_ok noLink) in R as (expected & w1 & evs1 & Hexp & O1 & F1 & R);
    [| apply expected_noLink].
  apply (bind_ok noLink) in R as (? & w2 & evs2 & _ & O2 & F2 & R); [| xcode_effects].
  apply (bind_ok noLink) in R as (e & w3 & evs3 & _ & O3 & F3 & R); [| xcode_effects].
  apply (bind_ok noLink) in R as (should & w4 & evs4 & _ & O4 & F4 & R); [| xcode_effects].
  assert (F : Forall noLink (evs1 ++ evs2 ++ evs3 ++ evs4)) by (repeat (apply Forall_app; split); assumption).
  assert (O : out w4 = (out w ++ evs1 ++ evs2 ++ evs3 ++ evs4)%list)
    by (by rewrite O4, O3, O2, O1, <- !app_assoc).
  clear O1 O2 O3 O4.
  rewrite Hexp. cbn [fst].
  destruct should; unfold when in R.
  - unfold bind at 1 in R.
    destruct (bind (ensure_dir h (Xcode.XcodeDir h)) _ w4) as [[[]|c|err] w9] eqn:Body;
      try discriminate R.
    unfold bind, rimraf_sync, ret in R. injection R as <- <-. cbn [fs out].
    split; [done |]. split; [apply removeTree_gone |].
    apply (bind_ok noLink) in Body as (? & w5 & evs5 & _ & O5 & F5 & Body); [| xcode_effects].
    destruct (Xcode.known expected) as [ent|] eqn:K; [| discriminate Body].
    apply (bind_ok noLink) in Body as (ev & w6 & evs6 & _ & O6 & F6 & Body); [| xcode_effects].
    apply (bind_ok noLink) in Body as (? & w7 & evs7 & _ & O7 & F7 & Body); [| xcode_effects].
    unfold Xcode.swap in Body.
    apply (bind_ok noLink) in Body as (ea & w8 & evs8 & _ & O8 & F8 & Body); [| xcode_effects].
    apply (bind_ok noLink) in Body as (? & w10 & evs10 & _ & O10 & F10 & Body); [| xcode_effects].
    apply (bind_ok noLink) in Body as (? & w11 & evs11 & _ & O11 & F11 & Body); [| xcode_effects].
    unfold Fs.symlinkSync in Body.
    destruct (fs w11 !! Xcode.XcodePath h); [discriminate Body |]. injection Body as <-.
    cbn [fs out].
    rewrite O11, O10, O8, O7, O6, O5, O.
    rewrite <- !app_assoc.
    intros target p I. rewrite drop_app_length in I.
    repeat match goal with
           | Fk : Forall noLink ?l, I : _ ∈ (?l ++ _)%list |- _ =>
               apply elem_of_app in I as [I | I];
               [rewrite Forall_forall in Fk; by apply Fk in I |]
           end.
    simpl in I. in_trace I. injection I as -> ->.
    split; [done |]. split.
    + rewrite removeTree_lookup_other by apply zip_not_above_active.
      apply lookup_insert_eq.
    + by exists expected, ent.
  - unfold bind, rimraf_sync, ret in R. injection R as <- <-. cbn [fs out].
    split; [done |]. split; [apply removeTree_gone |].
    intros target p I. rewrite O, <- app_assoc, drop_app_length in I.
    apply elem_of_app in I as [I | I].
    + rewrite Forall_forall in F. by apply F in I.
    + in_trace I.
Qed.

Lemma ensureXcode_leaves_witness :
  let w := mkWorld DemoEnsure.unpacked [] in
  let w' := (Xcode.ensureXcode DemoEnsure.mac w).2 in
  true = true
  ∧ gone (Xcode.XcodeZip DemoEnsure.mac) (fs w')
  ∧ ∀ target p, Symlinked target p ∈ trace_of (Xcode.ensureXcode DemoEnsure.mac) w →
      p = Xcode.XcodePath DemoEnsure.mac
      ∧ fs w' !! Xcode.XcodePath DemoEnsure.mac = Some (Link target)
      ∧ ∃ expected e,
          (Xcode.expectedXcodeVersion DemoEnsure.mac w).1 = Ok expected
          ∧ Xcode.known expected = Some e
          ∧ target = Xcode.versioned DemoEnsure.mac expected.
Proof.
  intros w. apply (ensureXcode_leaves DemoEnsure.mac w true). vm_compute. reflexivity.
Defined.

(** The run of the witness: the active Xcode 12.0 is retired under its
    own version and [Xcode.app] becomes a link to 14.3.0. *)
Example ensureXcode_switches :
  let res := Xcode.ensureXcode DemoEnsure.mac (mkWorld DemoEnsure.unpacked []) in
  res.1 = Ok true
  ∧ fs res.2 !! Xcode.XcodePath DemoEnsure.mac
    = Some (Link (Xcode.versioned DemoEnsure.mac "14.3.0"))
  ∧ fs res.2 !! Xcode.XcodeZip DemoEnsure.mac = None.
Proof. vm_compute. repeat split; reflexivity. Qed.

(** ** What the legacy pattern captures (lines 329-331 of [xcode.js]) *)

Module LegacyFacts.
Import Regex.

Lemma allDigits_inv (s : string) :
  Semver.allDigits s = true →
  ∃ c s', s = String c s' ∧ Semver.isDigit c = true
          ∧ (s' = EmptyString ∨ Semver.allDigits s' = true).
Proof.
  unfold Semver.allDigits. destruct s as [|c s']; [done |]. simpl.
  destruct (Semver.isDigit c) eqn:D; [| done].
  destruct (Semver.digits s') as [d r] eqn:E. destruct r; [| done]. intros _.
  exists c, s'. split; [done |]. split; [done |].
  destruct d as [|c' d']; [left | right; by rewrite E].
  destruct s' as [|c2 s2]; [done |]. simpl in E.
  destruct (Semver.isDigit c2); [| done]. by destruct (Semver.digits s2).
Qed.

(** A greedy [\d+] in front of something that is not a digit takes the
    whole run, when the rest of the pattern then matches. *)
Lemma many_digits (ds rest : string) (r : list atom) (o cap x : string) :
  Semver.allDigits ds = true →
  match rest with String c _ => Semver.isDigit c = false | EmptyString => True end →
  matchHere r rest o cap = Some x →
  matchHere (Many Digit :: r) (ds +:+ rest) o cap = Some x.
Proof.
  intros A R H. remember (String.length ds) as n eqn:L.
  revert ds A L. induction n as [|n IH]; intros ds A L;
    destruct (allDigits_inv _ A) as (c & ds' & -> & D & T); [discriminate L |].
  change (String c ds' +:+ rest) with (String c (ds' +:+ rest)).
  cbn [matchHere]. change (accepts Digit c) with (Semver.isDigit c). rewrite D.
  destruct T as [-> | A'].
  - change (EmptyString +:+ rest) with rest.
    destruct rest as [|c0 rest0]; [exact H |].
    change (accepts Digit c0) with (Semver.isDigit c0). by rewrite R.
  - injection L as L. specialize (IH ds' A' L). cbn [matchHere] in IH. by rewrite IH.
Qed.

Lemma append_associative (p q r : string) : (p +:+ q) +:+ r = p +:+ (q +:+ r).
Proof.
  induction p as [|c p IH]; [done |].
  change (String c ((p +:+ q) +:+ r) = String c (p +:+ (q +:+ r))). by rewrite IH.
Qed.

Lemma length_append (p r : string) :
  String.length (p +:+ r) = (String.length p + String.length r)%nat.
Proof.
  induction p as [|c p IH]; [done |].
  change (String c p +:+ r) with (String c (p +:+ r)). simpl. by rewrite IH.
Qed.

Lemma substring_prefix (p r : string) :
  String.substring 0 (String.length (p +:+ r) - String.length r) (p +:+ r) = p.
Proof.
  rewrite length_append. replace (String.length p + String.length r - String.length r)%nat
    with (String.length p) by lia.
  induction p as [|c p IH]; [by destruct r |].
  change (String c p +:+ r) with (String c (p +:+ r)). simpl. by rewrite IH.
Qed.

Lemma group_end (rest o cap : string) :
  matchHere [Close; Opt (Lit "034")] rest o cap
  = Some (String.substring 0 (String.length o - String.length rest) o).
Proof.
  cbn [matchHere]. destruct rest as [|c rest]; [done |].
  by destruct (accepts (Lit "034") c).
Qed.

Lemma dot_is_no_digit (s : string) :
  match "." +:+ s with String c _ => Semver.isDigit c = false | EmptyString => True end.
Proof. reflexivity. Qed.

Lemma matchHere_one (k : cls) (r : list atom) (c : ascii) (s o cap : string) :
  matchHere (One k :: r) (String c s) o cap
  = if accepts k c then matchHere r s o cap else None.
Proof. reflexivity. Qed.

Lemma matchHere_few (k : cls) (r : list atom) (c : ascii) (s o cap x : string) :
  accepts k c = true → matchHere r s o cap = Some x →
  matchHere (Few k :: r) (String c s) o cap = Some x.
Proof. intros K H. cbn [matchHere]. by rewrite K, H. Qed.

(** The capture group on [a.b.d...], where [a] and [b] are runs of
    digits and [d] is a digit: the lazy [\d+?] stops after [d]. *)
Lemma group_captures (a b : string) (d : ascii) (rest cap : string) :
  Semver.allDigits a = true → Semver.allDigits b = true → Semver.isDigit d = true →
  let s := a +:+ "." +:+ b +:+ "." +:+ String d rest in
  matchHere (Xcode.versionGroup ++ [Opt (Lit "034")]) s s cap
  = Some (a +:+ "." +:+ b +:+ "." +:+ String d EmptyString).
Proof.
  intros A B D s.
  assert (E : s = (a +:+ "." +:+ b +:+ "." +:+ String d EmptyString) +:+ rest).
  { subst s. by rewrite !append_associative. }
  change (matchHere (Many Digit :: One Dot :: Many Digit :: One Dot :: Few Digit
                       :: [Close; Opt (Lit "034")]) s s cap
          = Some (a +:+ "." +:+ b +:+ "." +:+ String d EmptyString)).
  unfold s at 1. apply many_digits; [done | apply dot_is_no_digit |].
  change ("." +:+ b +:+ "." +:+ String d rest) with (String "." (b +:+ "." +:+ String d rest)).
  rewrite matchHere_one. change (accepts Dot ".") with true. cbv iota.
  apply many_digits; [done | apply dot_is_no_digit |].
  change ("." +:+ String d rest) with (String "." (String d rest)).
  rewrite matchHere_one. change (accepts Dot ".") with true. cbv iota.
  apply matchHere_few; [exact D |].
  rewrite group_end. f_equal. rewrite E. apply substring_prefix.
Qed.

Lemma matchHere_opt_skip (k : cls) (r : list atom) (c : ascii) (s o cap : string) :
  accepts k c = false →
  matchHere (Opt k :: r) (String c s) o cap = matchHere r (String c s) o cap.
Proof. intros K. cbn [matchHere]. by rewrite K. Qed.

Lemma matchHere_opt_take (k : cls) (r : list atom) (c : ascii) (s o cap x : string) :
  accepts k c = true → matchHere r s o cap = Some x →
  matchHere (Opt k :: r) (String c s) o cap = Some x.
Proof. intros K H. cbn [matchHere]. by rewrite K, H. Qed.

(** Where the group opens is where it starts, whatever was open
    before. *)
Lemma group_opened (r : list atom) (s o cap : string) :
  matchHere (Xcode.versionGroup ++ r) s o cap = matchHere (Xcode.versionGroup ++ r) s s cap.
Proof. reflexivity. Qed.

Lemma exec_skips (r : list atom) (before s : string) :
  lacks "x" before = true →
  exec (One (Lit "x") :: r) (before +:+ s) = exec (One (Lit "x") :: r) s.
Proof.
  induction before as [|c before IH]; [done |].
  change (String c before +:+ s) with (String c (before +:+ s)).
  intros [N L]%andb_prop. cbn [exec matchHere accepts].
  rewrite Ascii.eqb_sym. apply negb_true_iff in N. rewrite N. by apply IH.
Qed.

Lemma exec_here (r : list atom) (s x : string) :
  matchHere r s s EmptyString = Some x → exec r s = Some x.
Proof. intros H. destruct s; cbn [exec]; by rewrite H. Qed.

End LegacyFacts.

(** X14: on a configuration that holds no [x] before the text
    [xcode: MAJOR.MINOR.PATCH], with or without a double quote before
    the version, [extractXcodeVersion] returns the major and minor
    numbers and the first digit of the patch number: the lazy [\d+?] of
    the pattern never takes a second digit.  A version like 13.2.10 is
    read as 13.2.1. *)
Theorem legacy_patch_is_one_digit (before quote a b : string) (d : ascii) (rest : string) :
  lacks "x" before = true →
  quote = EmptyString ∨ quote = dq →
  Semver.allDigits a = true → Semver.allDigits b = true → Semver.isDigit d = true →
  Xcode.extractXcodeVersion
    (before +:+ "xcode: " +:+ quote +:+ a +:+ "." +:+ b +:+ "." +:+ String d rest)
  = Some (a +:+ "." +:+ b +:+ "." +:+ String d EmptyString).
Proof.
  intros L Q A B D. unfold Xcode.extractXcodeVersion, Xcode.legacyPattern.
  pose proof (LegacyFacts.group_captures a b d rest EmptyString A B D) as G.
  cbv zeta in G.
  set (s := a +:+ "." +:+ b +:+ "." +:+ String d rest) in *.
  change (Regex.lit "xcode: " ++ [Regex.Opt (Regex.Lit "034")] ++ Xcode.versionGroup
            ++ [Regex.Opt (Regex.Lit "034")])%list
    with (Regex.One (Regex.Lit "x")
            :: Regex.lit "code: " ++ [Regex.Opt (Regex.Lit "034")] ++ Xcode.versionGroup
                 ++ [Regex.Opt (Regex.Lit "034")])%list.
  rewrite LegacyFacts.exec_skips by done.
  assert (M : Regex.matchHere
                (Regex.One (Regex.Lit "x")
                   :: Regex.lit "code: " ++ [Regex.Opt (Regex.Lit "034")] ++ Xcode.versionGroup
                        ++ [Regex.Opt (Regex.Lit "034")])%list
                ("xcode: " +:+ quote +:+ s) ("xcode: " +:+ quote +:+ s) EmptyString
              = Some (a +:+ "." +:+ b +:+ "." +:+ String d EmptyString)).
  { change ("xcode: " +:+ quote +:+ s)
      with (String "x" (String "c" (String "o" (String "d" (String "e" (String ":"
              (String " " (quote +:+ s)))))))).
    cbn [Regex.lit app].
    do 7 (rewrite LegacyFacts.matchHere_one; cbn [Regex.accepts Ascii.eqb Bool.eqb]).
    destruct Q as [-> | ->].
    - change (EmptyString +:+ s) with s.
      destruct (LegacyFacts.allDigits_inv _ A) as (c & a' & Ea & Dc & _).
      assert (Es : s = String c (a' +:+ "." +:+ b +:+ "." +:+ String d rest))
        by (subst s; by rewrite Ea).
      assert (N : Regex.accepts (Regex.Lit "034") c = false).
      { destruct c as [[] [] [] [] [] [] [] []]; try discriminate Dc; reflexivity. }
      rewrite Es at 1. rewrite LegacyFacts.matchHere_opt_skip by exact N. rewrite <- Es.
      rewrite LegacyFacts.group_opened. exact G.
    - change (dq +:+ s) with (String "034" s).
      apply LegacyFacts.matchHere_opt_take; [reflexivity |].
      rewrite LegacyFacts.group_opened. exact G. }
  by rewrite (LegacyFacts.exec_here _ _ _ M).
Qed.

Lemma legacy_patch_is_one_digit_witness :
  Xcode.extractXcodeVersion ("    " +:+ "xcode: " +:+ dq +:+ "13" +:+ "." +:+ "2" +:+ "."
                               +:+ String "1" ("0" +:+ dq +:+ nl))
  = Some ("13" +:+ "." +:+ "2" +:+ "." +:+ String "1" EmptyString).
Proof.
  apply (legacy_patch_is_one_digit "    " dq "13" "2" "1" ("0" +:+ dq +:+ nl)).
  - reflexivity.
  - right. reflexivity.
  - reflexivity.
  - reflexivity.
  - reflexivity.
Defined.

(** ** The default number of jobs (lines 44-46 of [e-build.js]) *)

Lemma includesJ_app (l k : list Ninja.arg) :
  Ninja.includesJ (l ++ k) = Ninja.includesJ l || Ninja.includesJ k.
Proof. apply existsb_app. Qed.

Lemma findJobs_strings (l : list Ninja.arg) :
  Forall (λ a, ∃ s, a = Ninja.Str s) l →
  ∃ r, Ninja.findJobs l = Some r
       ∧ match r with
         | None => ∀ s, Ninja.Str s ∈ l → Ninja.isJobsFlag (JS.trim s) = false
         | Some a => ∃ s, a = Ninja.Str s ∧ Ninja.Str s ∈ l
                          ∧ Ninja.isJobsFlag (JS.trim s) = true
         end.
Proof.
  induction 1 as [|a l [s ->] _ (r & E & I)]; simpl.
  - exists None. split; [done |]. intros s In. by apply elem_of_nil in In.
  - destruct (Ninja.isJobsFlag (JS.trim s)) eqn:J.
    + eexists. split; [done |]. exists s. split; [done |]. split; [by left | done].
    + exists r. split; [done |]. destruct r as [a|].
      * destruct I as (s' & -> & In & J'). exists s'. split; [done |]. split; [by right | done].
      * intros s' [[= ->] | In]%elem_of_cons; [done | by apply I].
Qed.

(** X15: on the strings commander hands over, the default for the
    number of jobs never throws and keeps every argument in place: the
    array is left alone when it holds [-j] or, up to surrounding white
    space, some [-jN], and otherwise gets exactly [-j] and the number
    200 appended.  Applying the lines again changes nothing, although
    the array may then hold a number. *)
Theorem jobs_default (ninjaArgs : list Ninja.arg) :
  Forall (λ a, ∃ s, a = Ninja.Str s) ninjaArgs →
  let given :=
    Ninja.Str "-j" ∈ ninjaArgs
    ∨ ∃ s, Ninja.Str s ∈ ninjaArgs ∧ Ninja.isJobsFlag (JS.trim s) = true in
  ∃ args,
    Ninja.defaultJobs ninjaArgs = Some args
    ∧ (given → args = ninjaArgs)
    ∧ (¬ given → args = (ninjaArgs ++ [Ninja.Str "-j"; Ninja.Num 200])%list)
    ∧ Ninja.defaultJobs args = Some args.
Proof.
  intros S given. unfold Ninja.defaultJobs.
  destruct (Ninja.includesJ ninjaArgs) eqn:I.
  - exists ninjaArgs. rewrite I. split; [done |]. split; [done |]. split; [| done].
    intros N. destruct N. left. unfold Ninja.includesJ in I.
    apply existsb_exists in I as ([s|n] & In & E); [| done].
    apply String.eqb_eq in E as ->. by apply list_elem_of_In.
  - assert (NJ : Ninja.Str "-j" ∉ ninjaArgs).
    { intros In. apply list_elem_of_In in In.
      assert (Ninja.includesJ ninjaArgs = true); [| congruence].
      apply existsb_exists. by exists (Ninja.Str "-j"). }
    destruct (findJobs_strings _ S) as (r & E & R). rewrite E.
    destruct r as [found|].
    + exists ninjaArgs. rewrite I, E. split; [done |]. split; [done |]. split; [| done].
      intros N. destruct N. right. destruct R as (s & _ & In & J). by exists s.
    + exists (ninjaArgs ++ [Ninja.Str "-j"; Ninja.Num 200])%list.
      split; [done |]. split.
      * intros [In | (s & In & J)]; [done |]. exfalso.
        specialize (R s In). congruence.
      * split; [done |]. by rewrite includesJ_app, orb_true_r.
Qed.

Lemma jobs_default_witness :
  ∃ args,
    Ninja.defaultJobs [Ninja.Str "-v"; Ninja.Str "electron"] = Some args
    ∧ args = [Ninja.Str "-v"; Ninja.Str "electron"; Ninja.Str "-j"; Ninja.Num 200]
    ∧ Ninja.defaultJobs args = Some args.
Proof.
  destruct (jobs_default [Ninja.Str "-v"; Ninja.Str "electron"]) as (args & E & _ & A & I).
  - repeat constructor; by eexists.
  - exists args. split; [exact E |]. split; [| exact I]. apply A.
    intros [In | (s & In & J)].
    + in_trace In.
    + in_trace In; injection In as ->; vm_compute in J; discriminate J.
Defined.

(** ** Where the bundles live *)

Lemma versioned_name (v : string) :
  "Xcode-" +:+ v +:+ ".app" ≠ "Xcode.app"
  ∧ "Xcode-" +:+ v +:+ ".app" ≠ "Xcode.zip"
  ∧ "Xcode-" +:+ v +:+ ".app" ≠ "tmp_unzip".
Proof. repeat split; intros E; cbv in E; discriminate E. Qed.

(** ** Unpacking the Xcode archive (lines 463-472 of [xcode.js]) *)

(** X16: [unpack] does not look at the exit status of [unzip]; what
    counts is whether [unzip] left a [tmp_unzip/Xcode.app].  Without one
    the rename throws and archive and scratch directory stay as [unzip]
    left them.  When [unpack] returns, everything [unzip] put at or below
    [tmp_unzip/Xcode.app] is at the same place below the versioned
    bundle path. *)
Theorem unpack_moves_bundle (h : Host) (v : string) (w : World) :
  let unzipped :=
    (spawnSync h "unzip" ["-q"; "-o"; pathStr (Xcode.XcodeZip h); "-d";
                          pathStr (Xcode.unzipPath h)] None
       (removeTree (Xcode.unzipPath h) (fs w))).2 in
  let bundle := (Xcode.unzipPath h ++ ["Xcode.app"])%list in
  let res := Xcode.unpack h (Xcode.versioned h v) w in
  (unzipped !! bundle = None → res.1 = Throw "ENOENT" ∧ fs res.2 = unzipped)
  ∧ (res.1 = Ok tt →
     ∀ k n, unzipped !! (bundle ++ k)%list = Some n →
            fs res.2 !! (Xcode.versioned h v ++ k)%list = Some n).
Proof.
  intros unzipped bundle res. subst res unzipped bundle.
  destruct (versioned_name v) as (_ & Nz & Nt).
  destruct (Xcode.unpack h (Xcode.versioned h v) w) as [r0 w'] eqn:H. cbn [fst snd].
  unfold Xcode.unpack, console_log, bind, rimraf_sync, emit, spawn, Fs.renameSync in H.
  cbn beta iota zeta delta [fs out fst snd negb] in H.
  repeat exec_step H.
  all: injection H as <- <-; cbn [fs fst snd].
  all: split; [intros N | intros E]; try discriminate E; try done;
    try (exfalso; match goal with Hl : ?x = Some _ |- _ =>
           let Q := fresh in pose proof (eq_trans (eq_sym Hl) N) as Q; discriminate Q end).
  all: intros k moved Lk; rewrite !removeTree_lookup_other;
    [ by apply moveTree_moved
    | apply (sibling_not_above _ _ _ _ (not_eq_sym Nz)); by eexists
    | apply (sibling_not_above _ _ _ _ (not_eq_sym Nt)); by eexists ].
Qed.

Lemma unpack_moves_bundle_witness :
  let res := Xcode.unpack DemoEnsure.mac (Xcode.versioned DemoEnsure.mac "13.3.0")
               (mkWorld DemoEnsure.unpacked []) in
  fs res.2 !! (Xcode.versioned DemoEnsure.mac "13.3.0" ++ ["Contents"])%list = Some Dir.
Proof.
  intros res.
  apply (proj2 (unpack_moves_bundle DemoEnsure.mac "13.3.0" (mkWorld DemoEnsure.unpacked []))).
  - vm_compute. reflexivity.
  - vm_compute. reflexivity.
Defined.

(** ** Keeping the old bundle (lines 475-491 of [xcode.js]) *)

(** X17: when [Xcode.app] exists and [swap] returns, [Xcode.app] is a
    link to the new bundle, and the old one is kept under the version
    [defaults] reported for it: it has been moved there with all it
    holds, unless a bundle of that version was already kept, which is
    then left as it was. *)
Theorem swap_keeps_old_bundle (h : Host) (expected : string) (eventual : path) (w : World) :
  is_Some (stat (fs w) (Xcode.XcodePath h)) →
  (Xcode.swap h expected eventual w).1 = Ok tt →
  let asked := Xcode.getXcodeVersion h w in
  let m' := fs (Xcode.swap h expected eventual w).2 in
  m' !! Xcode.XcodePath h = Some (Link eventual)
  ∧ ∃ v, asked.1 = Ok v
      ∧ if bool_decide (is_Some (stat (fs asked.2) (Xcode.versioned h v)))
        then ∀ q, Xcode.versioned h v `prefix_of` q → m' !! q = fs asked.2 !! q
        else ∀ k n, fs asked.2 !! (Xcode.XcodePath h ++ k)%list = Some n →
                    m' !! (Xcode.versioned h v ++ k)%list = Some n.
Proof.
  intros X H asked m'. subst asked m'.
  assert (Nq : ∀ v q, Xcode.versioned h v `prefix_of` q → ¬ Xcode.XcodePath h `prefix_of` q).
  { intros v q P. destruct (versioned_name v) as (Na & _ & _).
    by apply (sibling_not_above _ _ _ _ (not_eq_sym Na)). }
  assert (Nk : ∀ v k, Xcode.XcodePath h ≠ (Xcode.versioned h v ++ k)%list).
  { intros v k E. apply (Nq v (Xcode.versioned h v ++ k)%list); [by eexists |].
    rewrite <- E. by exists []; rewrite app_nil_r. }
  destruct (Xcode.getXcodeVersion h w) as [o w1] eqn:G. cbn [fst snd].
  destruct (Xcode.swap h expected eventual w) as [r0 w'] eqn:S. cbn [fst snd] in *. subst r0.
  unfold Xcode.swap, when, bind, Fs.existsSync, Fs.statSync, rimraf_sync, console_log,
    emit, Fs.symlinkSync, Fs.renameSync, ret in S.
  cbn beta iota zeta delta [fs out fst snd negb] in S.
  rewrite (bool_decide_eq_true_2 _ X) in S. destruct X as [n X]. rewrite X in S.
  assert (Fs.isSymbolicLink n = false) as I
    by (destruct n; try done; by destruct (stat_no_link _ _ _ X)).
  rewrite I, G in S. cbn beta iota zeta delta [fs out fst snd negb] in S.
  repeat exec_step S.
  all: try discriminate S.
  all: injection S as <-; cbn [fs].
  all: (split; [apply lookup_insert_eq |]); eexists; (split; [reflexivity |]).
  all: match goal with Hb : negb (bool_decide ?P) = _ |- _ =>
         destruct (bool_decide P); try discriminate Hb end.
  all: first
    [ intros k moved Lk; rewrite lookup_insert_ne by apply Nk; by apply moveTree_moved
    | intros q P; rewrite lookup_insert_ne;
        [ by apply removeTree_lookup_other, (Nq _ _ P)
        | intros E; destruct P as [k ->]; by apply (Nk _ _ E) ] ].
Qed.

Lemma swap_keeps_old_bundle_witness :
  fs (Xcode.swap DemoEnsure.mac "14.3.0" (Xcode.versioned DemoEnsure.mac "14.3.0")
        (mkWorld DemoEnsure.unpacked [])).2 !! Xcode.XcodePath DemoEnsure.mac
  = Some (Link (Xcode.versioned DemoEnsure.mac "14.3.0")).
Proof.
  apply (swap_keeps_old_bundle DemoEnsure.mac "14.3.0"
           (Xcode.versioned DemoEnsure.mac "14.3.0") (mkWorld DemoEnsure.unpacked [])).
  - vm_compute. by eexists.
  - vm_compute. reflexivity.
Defined.

(** ** An active Xcode of the expected version (lines 411-417 and 493-495 of [xcode.js]) *)

(** The resolver reads files and asks [sw_vers]; it changes no file. *)
Lemma expected_keeps_fs (h : Host) (w : World) :
  fs (Xcode.expectedXcodeVersion h w).2 = fs w.
Proof.
  destruct (Xcode.expectedXcodeVersion h w) as [r w'] eqn:H. cbn [snd].
  unfold Xcode.expectedXcodeVersion, Xcode.warnFallback, Xcode.scan, Xcode.probe, bind,
    Fs.existsSync, Fs.readFileSync, exec_sync, console_warn, emit, throw, ret in H.
  rewrite fallback_value in H.
  cbn beta iota zeta delta [fs out fst snd negb] in H.
  repeat exec_step H.
  all: by injection H as <- <-.
Qed.

(** What [getXcodeVersion] answers depends on the file system only. *)
Lemma getXcodeVersion_reads_fs (h : Host) (w1 w : World) :
  fs w1 = fs w →
  (Xcode.getXcodeVersion h w1).1 = (Xcode.getXcodeVersion h w).1
  ∧ fs (Xcode.getXcodeVersion h w1).2 = fs (Xcode.getXcodeVersion h w).2
  ∧ out (Xcode.getXcodeVersion h w1).2
    = (out w1 ++ [Spawned "defaults"
                    ["read"; pathStr (Xcode.XcodePath h ++ ["Contents"; "Info.plist"])%list;
                     "CFBundleShortVersionString"] None (fs w)])%list.
Proof.
  intros E. unfold Xcode.getXcodeVersion, bind, spawn, ret, throw.
  cbn beta iota zeta delta [fs out fst snd negb]. rewrite E.
  destruct (spawnSync h "defaults" _ None (fs w)) as [r m].
  cbn beta iota zeta delta [fs out fst snd negb].
  destruct (bool_decide (status r = Some 0)); [| done].
  destruct (stdout r) as [o|]; [| done].
  by destruct (List.length (JS.split "." (JS.trim o)) =? 2)%nat.
Qed.

(** X18: when the resolver settles on a version, there is no
    [Xcode-10.3.app] to rename, [Xcode.app] exists and [defaults] reports
    the expected version for it, [ensureXcode] returns true and leaves
    the active Xcode alone: after the resolver the only effects are the
    [defaults] query and the removal of a stray [Xcode.zip]; nothing is
    downloaded, unpacked, renamed or linked. *)
Theorem matching_xcode_left_alone (h : Host) (w : World) (expected : string) :
  (Xcode.expectedXcodeVersion h w).1 = Ok expected →
  stat (fs w) (Xcode.XcodeDir h ++ ["Xcode-10.3.app"])%list = None →
  is_Some (stat (fs w) (Xcode.XcodePath h)) →
  (Xcode.getXcodeVersion h w).1 = Ok expected →
  let res := Xcode.ensureXcode h w in
  res.1 = Ok true
  ∧ fs res.2 = removeTree (Xcode.XcodeZip h) (fs (Xcode.getXcodeVersion h w).2)
  ∧ trace_of (Xcode.ensureXcode h) w
    = (trace_of (Xcode.expectedXcodeVersion h) w
         ++ [Spawned "defaults"
               ["read"; pathStr (Xcode.XcodePath h ++ ["Contents"; "Info.plist"])%list;
                "CFBundleShortVersionString"] None (fs w);
             Removed (Xcode.XcodeZip h)])%list.
Proof.
  intros He Hb Hx Hv res. subst res.
  pose proof (expected_keeps_fs h w) as K.
  destruct (expected_noLink h w) as (evs & O & _).
  rewrite (trace_of_app _ _ _ O).
  destruct (Xcode.expectedXcodeVersion h w) as [r w1] eqn:R. cbn [fst snd] in *. subst r.
  destruct (getXcodeVersion_reads_fs h w1 w K) as (G1 & G2 & G3). rewrite Hv in G1.
  assert (E : Xcode.ensureXcode h w
              = (Ok true,
                 mkWorld (removeTree (Xcode.XcodeZip h) (fs (Xcode.getXcodeVersion h w).2))
                   (out w ++ evs
                      ++ [Spawned "defaults"
                            ["read";
                             pathStr (Xcode.XcodePath h ++ ["Contents"; "Info.plist"])%list;
                             "CFBundleShortVersionString"] None (fs w);
                          Removed (Xcode.XcodeZip h)])%list)).
  { unfold Xcode.ensureXcode. unfold bind at 1. rewrite R.
    unfold Xcode.fixBadVersioned103, when. unfold bind at 1 2. unfold Fs.existsSync at 1.
    rewrite K, Hb. rewrite bool_decide_eq_false_2 by (by intros [? ?]).
    unfold ret at 1. unfold bind at 1. unfold Fs.existsSync at 1.
    rewrite K, (bool_decide_eq_true_2 _ Hx). cbn [negb].
    unfold bind at 1. unfold bind at 1.
    destruct (Xcode.getXcodeVersion h w1) as [rv w2] eqn:Rv. cbn [fst snd] in *. subst rv.
    unfold ret at 1. rewrite String.eqb_refl. cbn [negb].
    unfold bind, ret, rimraf_sync. cbn [fst snd fs out].
    by rewrite G2, G3, O, <- !app_assoc. }
  rewrite E. cbn [fst snd fs]. split; [done |]. split; [done |].
  by apply trace_of_app; rewrite E.
Qed.

Lemma matching_xcode_left_alone_witness :
  (Xcode.ensureXcode DemoEnsure.upToDate (mkWorld DemoSwap.linked [])).1 = Ok true.
Proof.
  apply (matching_xcode_left_alone DemoEnsure.upToDate (mkWorld DemoSwap.linked []) "14.3.0").
  - vm_compute. reflexivity.
  - vm_compute. reflexivity.
  - vm_compute. by eexists.
  - vm_compute. reflexivity.
Defined.

(** ** Logging in (lines 151-174 of [goma.js]) *)

Lemma login_record_apart (h : Host) :
  Goma.gomaGnFile h ≠ GomaAuth.gomaLoginFile h
  ∧ Goma.gomaShaFile h ≠ GomaAuth.gomaLoginFile h.
Proof.
  unfold Goma.gomaGnFile, Goma.gomaShaFile, GomaAuth.gomaLoginFile, Goma.gomaDir.
  split; intros E; rewrite <- ?app_assoc in E; apply app_inv_head in E; discriminate E.
Qed.

Lemma emits_try_catch (P : event → Prop) {A} (m handler : M A) :
  emits P m → emits P handler → emits P (GomaAuth.try_catch m handler).
Proof.
  intros Hm Hh w. unfold GomaAuth.try_catch. destruct (Hm w) as (e1 & E1 & F1).
  destruct (m w) as [[a|c|err] w1]; simpl in E1; try by exists e1.
  destruct (Hh w1) as (e2 & E2 & F2). exists (e1 ++ e2)%list.
  rewrite E2, E1, app_assoc. split; [done | by apply Forall_app].
Qed.

Lemma emits_depot_output (P : event → Prop) (h : Host)
    (depotOutput : string → list string → option path → FS → string)
    (cmd : string) (args : list string) (cwd : option path) :
  (∀ pre, P (DepotExec cmd args cwd pre)) →
  emits P (GomaAuth.depot_execFileSync_output h depotOutput cmd args cwd).
Proof.
  intros Pe w. exists [DepotExec cmd args cwd (fs w)].
  unfold GomaAuth.depot_execFileSync_output.
  destruct (depotExecFileSync h cmd args cwd (fs w)) as [[err|] m]; simpl;
    (split; [done | by constructor]).
Qed.

Lemma emits_depot_spawn (P : event → Prop)
    (depotSpawnSync : string → list string → option path → FS
                      → (option Z * option string) * FS)
    (cmd : string) (args : list string) (cwd : option path) :
  (∀ pre, P (DepotExec cmd args cwd pre)) →
  emits P (GomaAuth.depot_spawnSync depotSpawnSync cmd args cwd).
Proof.
  intros Pe w. exists [DepotExec cmd args cwd (fs w)]. unfold GomaAuth.depot_spawnSync.
  destruct (depotSpawnSync cmd args cwd (fs w)) as [r m]; simpl.
  split; [done | by constructor].
Qed.

Lemma authenticated_emits (h : Host)
    (depotOutput : string → list string → option path → FS → string)
    (now : Z) (config : option Config) :
  emits (noLoginRecord h) (GomaAuth.gomaIsAuthenticated h depotOutput now config).
Proof.
  unfold GomaAuth.gomaIsAuthenticated, GomaAuth.getLastKnownLoginTime.
  repeat first
    [ progress effects
    | apply emits_try_catch
    | apply emits_depot_output; intros ? ];
  try (intros; simpl; done).
Qed.

(** A run of [authenticateGoma] either never writes the login record
    or reaches the login and continues as [login]. *)
Lemma authenticateGoma_cases (h : Host)
    (depotOutput : string → list string → option path → FS → string)
    (depotSpawnSync : string → list string → option path → FS
                      → (option Z * option string) * FS)
    (exitOnNull now later : Z) (config : option Config) :
  reaches (noLoginRecord h)
    (GomaAuth.authenticateGoma h depotOutput depotSpawnSync exitOnNull now later config)
    (login h depotSpawnSync exitOnNull later).
Proof.
  unfold GomaAuth.authenticateGoma.
  destruct (Goma.isSupportedPlatform h); cbn [negb];
    [| apply reaches_emits, emits_ret].
  apply reaches_bind.
  { apply (emits_weaken (pipelineEffect h config)); [| apply pipeline_emits].
    destruct (login_record_apart h) as [Ng Ns].
    intros [] Pe; try done. simpl in *. by destruct Pe as [[-> _] | [-> _]]. }
  intros _. apply reaches_bind; [apply authenticated_emits |].
  intros [|]; cbn [negb]; unfold when; [apply reaches_emits, emits_ret |].
  apply reaches_tail.
Qed.

(** A run of [login] writes the record only as its last effect, after
    a login process that ended with status 0. *)
Lemma login_cases (h : Host)
    (depotSpawnSync : string → list string → option path → FS
                      → (option Z * option string) * FS)
    (exitOnNull later : Z) (w0 w' : World) (r : outcome unit) :
  login h depotSpawnSync exitOnNull later w0 = (r, w') →
  ∃ tr, out w' = (out w0 ++ tr)%list ∧
  ∀ s, Wrote (GomaAuth.gomaLoginFile h) s ∈ tr →
    tr = [DepotExec "python3" ["goma_auth.py"; "login"] (Some (Goma.gomaDir h)) (fs w0);
          Wrote (GomaAuth.gomaLoginFile h) s]
    ∧ r = Ok tt ∧ s = GomaAuth.showZ later
    ∧ (depotSpawnSync "python3" ["goma_auth.py"; "login"] (Some (Goma.gomaDir h)) (fs w0)).1.1
      = Some 0
    ∧ stat (fs w') (GomaAuth.gomaLoginFile h) = Some (File s).
Proof.
  intros H.
  unfold login, GomaAuth.depot_spawnSync, GomaAuth.recordGomaLoginTime, fatal, when,
    console_error, process_exit, bind, emit, exit, ret in H.
  cbn beta iota zeta delta [fs out fst snd negb] in H.
  repeat exec_step H.
  all: try match goal with
       | Hw : Fs.writeFileSync _ _ _ = _ |- _ =>
           apply writeFileSync_cases in Hw as [(? & Hw & ?) | ((? & ?) & ?)];
           try discriminate; subst;
           cbn beta iota zeta delta [fs out fst snd negb] in *
       end.
  all: injection H as <- <-; cbn [fs out];
    try match goal with Ho : out _ = _ |- _ => rewrite Ho end; rewrite <- ?app_assoc;
    eexists; (split; [reflexivity |]); intros written I; simpl in I; in_trace I.
  all: injection I as ->.
  all: repeat split; try done.
  all: by match goal with Hz : nonzero _ = false |- _ => apply nonzero_false in Hz end.
Qed.

(** X19: [authenticateGoma] writes the login record only as the last
    effect of a run that returns, after a [goma_auth.py login] that
    ended with status 0, and what it writes is the clock reading.  From
    then on, for twelve hours, [gomaIsAuthenticated] answers true without
    asking [goma_auth.py].  A login that fails or is killed records
    nothing. *)
Theorem login_recorded_after_success (h : Host)
    (depotOutput : string → list string → option path → FS → string)
    (depotSpawnSync : string → list string → option path → FS
                      → (option Z * option string) * FS)
    (exitOnNull now later : Z) (config : option Config) (w : World) (s : string) :
  let m := GomaAuth.authenticateGoma h depotOutput depotSpawnSync exitOnNull now later
             config in
  Wrote (GomaAuth.gomaLoginFile h) s ∈ trace_of m w →
  (m w).1 = Ok tt
  ∧ s = GomaAuth.showZ later
  ∧ last (trace_of m w) = Some (Wrote (GomaAuth.gomaLoginFile h) s)
  ∧ (∃ pre,
       DepotExec "python3" ["goma_auth.py"; "login"] (Some (Goma.gomaDir h)) pre
         ∈ trace_of m w
       ∧ (depotSpawnSync "python3" ["goma_auth.py"; "login"] (Some (Goma.gomaDir h)) pre).1.1
         = Some 0)
  ∧ (Z.abs later ≤ GomaAuth.maxTime →
     ∀ t cfg, t - later < GomaAuth.twelveHours →
       GomaAuth.gomaIsAuthenticated h depotOutput t cfg (m w).2 = (Ok true, (m w).2)).
Proof.
  intros m I. subst m.
  assert (S : Goma.isSupportedPlatform h = true).
  { destruct (Goma.isSupportedPlatform h) eqn:S; [done |]. exfalso.
    unfold trace_of, GomaAuth.authenticateGoma in I. rewrite S in I. cbn [negb] in I.
    unfold ret in I. cbn [snd] in I. rewrite drop_all in I. by apply elem_of_nil in I. }
  destruct (authenticateGoma_cases h depotOutput depotSpawnSync exitOnNull now later config w)
    as [(evs & E & F) | (w0 & evs & E0 & F & R)]; rewrite Forall_forall in F.
  - exfalso. rewrite (trace_of_app _ _ _ E) in I. by apply F in I.
  - destruct (login h depotSpawnSync exitOnNull later w0) as [r w'] eqn:L.
    destruct (login_cases _ _ _ _ _ _ _ L) as (tr & E' & K).
    assert (T : trace_of (GomaAuth.authenticateGoma h depotOutput depotSpawnSync exitOnNull
                            now later config) w = (evs ++ tr)%list).
    { apply trace_of_app. rewrite R. simpl. by rewrite E', E0, app_assoc. }
    rewrite T in *. rewrite R. cbn [fst snd].
    apply elem_of_app in I as [I | I]; [by apply F in I |].
    destruct (K _ I) as (-> & -> & -> & St & Fl).
    split; [done |]. split; [done |]. split.
    { change [DepotExec "python3" ["goma_auth.py"; "login"] (Some (Goma.gomaDir h)) (fs w0);
              Wrote (GomaAuth.gomaLoginFile h) (GomaAuth.showZ later)]
        with ([DepotExec "python3" ["goma_auth.py"; "login"] (Some (Goma.gomaDir h)) (fs w0)]
                ++ [Wrote (GomaAuth.gomaLoginFile h) (GomaAuth.showZ later)])%list.
      by rewrite app_assoc, last_snoc. }
    split.
    { exists (fs w0). split; [| done]. apply elem_of_app. right. by left. }
    intros B t cfg Lt.
    unfold GomaAuth.gomaIsAuthenticated. rewrite S. cbn [negb].
    assert (G : GomaAuth.getLastKnownLoginTime h w'
                = (Ok (Some (GomaAuth.Instant later)), w')).
    { unfold GomaAuth.getLastKnownLoginTime, bind, Fs.existsSync, Fs.readFileSync, ret.
      cbn beta iota zeta delta [fs out fst snd negb]. rewrite Fl.
      rewrite bool_decide_eq_true_2 by (by eexists).
      cbn beta iota zeta delta [fs out fst snd negb]. rewrite Fl.
      rewrite parseInt_showZ. unfold GomaAuth.newDate.
      by rewrite (proj2 (Z.leb_le _ _) B). }
    unfold bind at 1. rewrite G. cbn [GomaAuth.recent].
    by rewrite (proj2 (Z.ltb_lt _ _) Lt).
Qed.

Lemma login_recorded_after_success_witness :
  (GomaAuth.authenticateGoma Demo.linux DemoLogin.anonymous DemoLogin.accepted 1
     DemoAuth.now DemoLogin.later (Some Demo.config) (mkWorld DemoSteady.settled [])).1
  = Ok tt.
Proof.
  refine (proj1 (login_recorded_after_success Demo.linux DemoLogin.anonymous
                   DemoLogin.accepted 1 DemoAuth.now DemoLogin.later (Some Demo.config)
                   (mkWorld DemoSteady.settled []) (GomaAuth.showZ DemoLogin.later) _)).
  apply list_elem_of_lookup. exists 2%nat. vm_compute. reflexivity.
Defined.
